(** * Week ledger of controle-financeiro-semanal

    A shallow embedding of [DatesService] (calendar and period utility) and
    [FinanceService] (week ledger), together with the properties of the
    week life cycle and of the attribution of transactions to weeks.

    Conventions of the embedding.

    - A JavaScript [Date] is its time value: a [Z] number of milliseconds
      since 1970-01-01T00:00:00Z.  The local time zone is a fixed offset
      [tz] (the value of [getTimezoneOffset()], minutes to add to local
      time to reach UTC); there is no daylight saving.
    - The text [yyyy-mm-dd] produced by [toISOString().split('T')[0]] is
      represented by the number of the UTC day it names.
    - [Date.now()], [Math.random()] and the success of
      [localStorage.setItem] belong to the environment [Env].  The clock
      does not advance while one operation runs.
    - An exception does not roll the store back, so a computation returns
      its outcome together with the store it leaves behind.
    - Amounts are rationals or [NaN]; the rounding of floating point is not
      modelled.
    - A string is the sequence of bytes of its text in UTF-8.

    The file gives the model first ([Dates], [Js], [Finance]), then sample
    stores ([Scenario]) and the notions in which the properties are stated
    ([LedgerSpec]), then the rest of the two services ([DatesRest],
    [FinanceRest]) with the checks, stores and notions that their properties
    need ([CalendarChecks], [Samples], [LedgerNotions]), then the properties
    ([DatesFacts], [LedgerFacts], [DatesRestFacts], [CalendarFacts],
    [JournalFacts], [ScheduleFacts]). *)

From Stdlib Require Import ZArith List String Ascii Bool Lia QArith.
From Stdlib Require Import Sorting.Sorted DecimalString DecimalPos.
Import ListNotations.
Local Open Scope string_scope.
Local Open Scope Z_scope.

Set Implicit Arguments.

(* ================================================================== *)
(** * Calendar arithmetic of [Date]                                     *)
(* ================================================================== *)

Module Dates.

Definition DAY : Z := 86400000.
Definition HOUR : Z := 3600000.
Definition MINUTE : Z := 60000.

Section LocalTime.

(** [getTimezoneOffset()], in minutes. *)
Variable tz : Z.

Definition tzms : Z := tz * MINUTE.

(** Number of the local day an instant falls in. *)
Definition localDay (t : Z) : Z := (t - tzms) / DAY.

(** [d.setHours(0, 0, 0, 0)] *)
Definition startOfDay (t : Z) : Z := localDay t * DAY + tzms.

(** [d.setHours(23, 59, 59, 999)] *)
Definition endOfDay (t : Z) : Z := startOfDay t + DAY - 1.

(** [d.setHours(12, 0, 0, 0)] *)
Definition noon (t : Z) : Z := startOfDay t + 12 * HOUR.

(** [d.getDay()]: 0 is Sunday; 1970-01-01 was a Thursday. *)
Definition getDay (t : Z) : Z := (localDay t + 4) mod 7.

(** [d.getHours()] *)
Definition getHours (t : Z) : Z := ((t - tzms) mod DAY) / HOUR.

(** [d.setDate(d.getDate() + n)] *)
Definition addDays (t n : Z) : Z := t + n * DAY.

(** [DatesService.getWeekStart] *)
Definition getWeekStart (date : Z) : Z :=
  let day := getDay date in
  startOfDay (addDays date (- day)).

(** [DatesService.getWeekEnd] *)
Definition getWeekEnd (date : Z) : Z :=
  let weekStart := getWeekStart date in
  endOfDay (addDays weekStart 6).

(** [DatesService.isDateInCurrentWeekPeriod] *)
Definition isDateInCurrentWeekPeriod (date weekStart weekEnd : Z) : bool :=
  let dateToCheck := startOfDay date in
  let start := startOfDay weekStart in
  let end_ := endOfDay weekEnd in
  (start <=? dateToCheck) && (dateToCheck <=? end_).

(** [DatesService.isDayOfWeek] *)
Definition isDayOfWeek (date dayOfWeek : Z) : bool := getDay date =? dayOfWeek.

(** [DatesService.getNextDayOfWeekAfter] *)
Definition getNextDayOfWeekAfter (date dayOfWeek : Z) : Z :=
  let currentDay := getDay date in
  let diff := dayOfWeek - currentDay in
  let diff := if diff <=? 0 then diff + 7 else diff in
  noon (addDays date diff).

(** [date.toISOString().split('T')[0]]: the UTC day. *)
Definition isoDate (t : Z) : Z := t / DAY.

(** [new Date(key + 'T00:00:00')]: local midnight of the day [key]. *)
Definition localMidnight (key : Z) : Z := key * DAY + tzms.

End LocalTime.

End Dates.

(* ================================================================== *)
(** * Values, store and effects                                        *)
(* ================================================================== *)

Module Js.

(** A JavaScript number as far as amounts need it: [NaN] or a rational. *)
Inductive Number := NaN | Num (q : Q).

(** [!x || x <= 0] on a number *)
Definition notPositive (x : Number) : bool :=
  match x with
  | NaN => true
  | Num q => Qle_bool q 0
  end.

(** [a + b] *)
Definition add (a b : Number) : Number :=
  match a, b with
  | Num x, Num y => Num (x + y)
  | _, _ => NaN
  end.

(** [a > b] *)
Definition gt (a b : Number) : bool :=
  match a, b with
  | Num x, Num y => negb (Qle_bool x y)
  | _, _ => false
  end.

(** The white space that [String.prototype.trim] and [parseInt] remove
    ([WhiteSpace] and [LineTerminator] of ECMAScript), among the characters
    of one byte: U+0009 to U+000D and U+0020. *)
Definition isSpace (c : ascii) : bool :=
  let n := nat_of_ascii c in
  ((9 <=? n) && (n <=? 13))%nat || (n =? 32)%nat.

(** The number of bytes that the white space at the head of a text takes,
    from its first byte and the two bytes that follow where there are any;
    0 when the text does not start with white space.  Beyond one byte the
    white space is U+00A0 (C2 A0), U+1680 (E1 9A 80), U+2000 to U+200A
    (E2 80 80 to E2 80 8A), U+2028 and U+2029 (E2 80 A8 and A9), U+202F
    (E2 80 AF), U+205F (E2 81 9F), U+3000 (E3 80 80) and U+FEFF
    (EF BB BF). *)
Definition spaceWidth (c1 : ascii) (c2 c3 : option ascii) : nat :=
  if isSpace c1 then 1%nat
  else
    let b1 := nat_of_ascii c1 in
    let b2 := match c2 with Some c => nat_of_ascii c | None => 0%nat end in
    let b3 := match c3 with Some c => nat_of_ascii c | None => 0%nat end in
    if (b1 =? 194)%nat then (if (b2 =? 160)%nat then 2%nat else 0%nat)
    else if (b1 =? 225)%nat then
      (if ((b2 =? 154) && (b3 =? 128))%nat then 3%nat else 0%nat)
    else if (b1 =? 226)%nat then
      (if (b2 =? 128)%nat then
         (if (((128 <=? b3) && (b3 <=? 138)) || (b3 =? 168) || (b3 =? 169)
              || (b3 =? 175))%nat then 3%nat else 0%nat)
       else if ((b2 =? 129) && (b3 =? 159))%nat then 3%nat else 0%nat)
    else if (b1 =? 227)%nat then
      (if ((b2 =? 128) && (b3 =? 128))%nat then 3%nat else 0%nat)
    else if (b1 =? 239)%nat then
      (if ((b2 =? 187) && (b3 =? 191))%nat then 3%nat else 0%nat)
    else 0%nat.

(** Drops the leading white space, one character at a time. *)
Fixpoint trimStart (s : string) : string :=
  match s with
  | String c s1 =>
      match spaceWidth c (get 0 s1) (get 1 s1) with
      | 1%nat => trimStart s1
      | 2%nat =>
          match s1 with
          | String _ s2 => trimStart s2
          | EmptyString => s
          end
      | 3%nat =>
          match s1 with
          | String _ (String _ s3) => trimStart s3
          | _ => s
          end
      | _ => s
      end
  | EmptyString => EmptyString
  end.

(** Drops the trailing white space: the text is cut at the first byte from
    which only white space follows.  Such a byte starts a character, since
    no white space starts with a continuation byte of UTF-8. *)
Fixpoint trimEnd (s : string) : string :=
  match s with
  | String c s' =>
      if (trimStart s =? "")%string then EmptyString else String c (trimEnd s')
  | EmptyString => EmptyString
  end.

(** [s.trim()] *)
Definition trim (s : string) : string := trimEnd (trimStart s).

(** Truthiness of a string: only the empty string is falsy. *)
Definition truthy (s : string) : bool := negb (s =? "")%string.

(** Truthiness of a string that may be [null] or [undefined]. *)
Definition truthyOpt (s : option string) : bool :=
  match s with
  | Some s => truthy s
  | None => false
  end.

(** ** Reading dates of the standard format *)

Definition digit (c : ascii) : option Z :=
  let n := nat_of_ascii c in
  if ((48 <=? n) && (n <=? 57))%nat then Some (Z.of_nat n - 48) else None.

Fixpoint digits (acc : Z) (l : list ascii) : option Z :=
  match l with
  | [] => Some acc
  | c :: l' =>
      match digit c with
      | Some d => digits (acc * 10 + d) l'
      | None => None
      end
  end.

Definition isLeap (y : Z) : bool :=
  ((y mod 4 =? 0) && negb (y mod 100 =? 0)) || (y mod 400 =? 0).

Definition daysInMonth (y m : Z) : Z :=
  if m =? 2 then (if isLeap y then 29 else 28)
  else if (m =? 4) || (m =? 6) || (m =? 9) || (m =? 11) then 30
  else 31.

(** Day number (days since 1970-01-01) of a date of the Gregorian calendar. *)
Definition daysFromCivil (y m d : Z) : Z :=
  let y' := if m <=? 2 then y - 1 else y in
  let era := y' / 400 in
  let yoe := y' - era * 400 in
  let mp := if 2 <? m then m - 3 else m + 9 in
  let doy := (153 * mp + 2) / 5 + d - 1 in
  let doe := yoe * 365 + yoe / 4 - yoe / 100 + doy in
  era * 146097 + doe - 719468.

(** The day named by a text of the form [yyyy-mm-dd] that names a day of
    the calendar. *)
Definition parseIsoDay (s : string) : option Z :=
  match list_ascii_of_string s with
  | [y1; y2; y3; y4; "-"%char; m1; m2; "-"%char; d1; d2] =>
      match digits 0 [y1; y2; y3; y4], digits 0 [m1; m2], digits 0 [d1; d2] with
      | Some y, Some m, Some d =>
          if (1 <=? m) && (m <=? 12) && (1 <=? d) && (d <=? daysInMonth y m)
          then Some (daysFromCivil y m d)
          else None
      | _, _, _ => None
      end
  | _ => None
  end.

(** The instant named by a text of the form [yyyy-mm-ddThh:mm:ss], read as
    local time in the zone of offset [tz]. *)
Definition parseIsoDateTime (tz : Z) (s : string) : option Z :=
  if (String.length s =? 19)%nat && (substring 10 1 s =? "T")%string &&
     (substring 13 1 s =? ":")%string && (substring 16 1 s =? ":")%string
  then
    match parseIsoDay (substring 0 10 s),
          digits 0 (list_ascii_of_string (substring 11 2 s)),
          digits 0 (list_ascii_of_string (substring 14 2 s)),
          digits 0 (list_ascii_of_string (substring 17 2 s)) with
    | Some day, Some h, Some m, Some sec =>
        if (h <=? 23) && (m <=? 59) && (sec <=? 59)
        then Some (Dates.localMidnight tz day + h * Dates.HOUR + m * Dates.MINUTE
                   + sec * 1000)
        else None
    | _, _, _, _ => None
    end
  else None.

End Js.

Module Finance.
Import Dates.

Definition WeekId := string.

(** A week start as the mapping stores it: the day of [yyyy-mm-dd]. *)
Definition DateKey := Z.

(** The keys of the persisted state. *)
Inductive Key :=
| FINANCE_STORAGE_KEY
| CLOSED_WEEKS_KEY
| AUTO_CLOSE_CONFIG_KEY
| WEEKLY_LIMIT_KEY
| NEXT_CLOSE_DATE_KEY
| CURRENT_WEEK_START_KEY
| WEEK_ID_MAPPING_KEY
| CURRENT_WEEK_ID_KEY.

Record Transaction := mkTransaction {
  tx_id : string;
  tx_description : string;
  tx_amount : Js.Number;
  tx_date : Z;
  tx_weekId : WeekId;
  tx_createdAt : Z
}.

Record Config := mkConfig {
  enabled : bool;
  dayOfWeek : Z;
  hour : Z
}.

(** What the code cannot decide: the clock, the time zone, the texts that
    [Date.now()] and [Math.random()] contribute to an identifier (the n-th
    one asked for in the life of the application), the keys under which
    [localStorage.setItem] fails, and the reading of a text as a date by
    [new Date(text)], which the engine decides for the texts outside the
    standard format ([None] is the invalid date). *)
Record Env := mkEnv {
  now : Z;
  tz : Z;
  random : nat -> string;
  setItemOk : Key -> bool;
  dateOfString : string -> option Z
}.

(** The content of the storage, one field per key, and the number of
    identifiers generated so far. *)
Record World := mkWorld {
  transactions : list Transaction;
  closedWeeks : list WeekId;
  autoCloseConfig : option Config;
  weeklyLimit : option Js.Number;
  nextCloseDate : option Z;
  currentWeekStart : option Z;
  weekIdMapping : list (WeekId * DateKey);
  currentWeekId : option WeekId;
  drawn : nat
}.

Definition emptyWorld : World :=
  mkWorld [] [] None None None None [] None 0.

Definition with_transactions v w :=
  mkWorld v (closedWeeks w) (autoCloseConfig w) (weeklyLimit w) (nextCloseDate w)
          (currentWeekStart w) (weekIdMapping w) (currentWeekId w) (drawn w).
Definition with_closedWeeks v w :=
  mkWorld (transactions w) v (autoCloseConfig w) (weeklyLimit w) (nextCloseDate w)
          (currentWeekStart w) (weekIdMapping w) (currentWeekId w) (drawn w).
Definition with_autoCloseConfig v w :=
  mkWorld (transactions w) (closedWeeks w) v (weeklyLimit w) (nextCloseDate w)
          (currentWeekStart w) (weekIdMapping w) (currentWeekId w) (drawn w).
Definition with_weeklyLimit v w :=
  mkWorld (transactions w) (closedWeeks w) (autoCloseConfig w) v (nextCloseDate w)
          (currentWeekStart w) (weekIdMapping w) (currentWeekId w) (drawn w).
Definition with_nextCloseDate v w :=
  mkWorld (transactions w) (closedWeeks w) (autoCloseConfig w) (weeklyLimit w) v
          (currentWeekStart w) (weekIdMapping w) (currentWeekId w) (drawn w).
Definition with_currentWeekStart v w :=
  mkWorld (transactions w) (closedWeeks w) (autoCloseConfig w) (weeklyLimit w)
          (nextCloseDate w) v (weekIdMapping w) (currentWeekId w) (drawn w).
Definition with_weekIdMapping v w :=
  mkWorld (transactions w) (closedWeeks w) (autoCloseConfig w) (weeklyLimit w)
          (nextCloseDate w) (currentWeekStart w) v (currentWeekId w) (drawn w).
Definition with_currentWeekId v w :=
  mkWorld (transactions w) (closedWeeks w) (autoCloseConfig w) (weeklyLimit w)
          (nextCloseDate w) (currentWeekStart w) (weekIdMapping w) v (drawn w).
Definition with_drawn v w :=
  mkWorld (transactions w) (closedWeeks w) (autoCloseConfig w) (weeklyLimit w)
          (nextCloseDate w) (currentWeekStart w) (weekIdMapping w) (currentWeekId w) v.

(** The messages of the errors the services throw. *)
Inductive Error :=
| DescricaoObrigatoria       (* 'Descrição é obrigatória' *)
| ValorMaiorQueZero          (* 'Valor deve ser maior que zero' *)
| DataObrigatoria            (* 'Data é obrigatória' *)
| SemanaAtualFechada         (* 'A semana atual está fechada. Não é possível ...' *)
| SemanaJaFechada            (* 'A semana atual já está fechada.' *)
| ErroAoSalvarFechamento     (* 'Erro ao salvar o fechamento da semana. ...' *)
| ProximoFechamentoOutroDia  (* 'A data do próximo fechamento deve ser ...' *)
| ProximoFechamentoNaoFutura (* 'A data do próximo fechamento deve ser futura' *)
| LimiteInvalido             (* 'Limite deve ser um número maior que zero' *)
| InvalidTimeValue.          (* RangeError of toISOString on an invalid date *)

(** The taxonomy under which the errors are known. *)
Inductive ErrorKind :=
| ValidationError
| ClosedWeekError
| AlreadyClosedError
| PersistenceInconsistencyError
| RangeError.

Definition kind (e : Error) : ErrorKind :=
  match e with
  | DescricaoObrigatoria | ValorMaiorQueZero | DataObrigatoria
  | ProximoFechamentoOutroDia | ProximoFechamentoNaoFutura | LimiteInvalido =>
      ValidationError
  | SemanaAtualFechada => ClosedWeekError
  | SemanaJaFechada => AlreadyClosedError
  | ErroAoSalvarFechamento => PersistenceInconsistencyError
  | InvalidTimeValue => RangeError
  end.

Inductive Outcome (A : Type) :=
| Ok (a : A)
| Throw (e : Error).
Arguments Throw {A} e.

(** A computation on the store.  The store that is returned is the one in
    place when the computation ends, normally or by an exception. *)
Definition M (A : Type) : Type := World -> Outcome A * World.

Definition ret {A} (a : A) : M A := fun w => (Ok a, w).

Definition throw {A} (e : Error) : M A := fun w => (Throw e, w).

Definition bind {A B} (m : M A) (f : A -> M B) : M B :=
  fun w =>
    match m w with
    | (Ok a, w') => f a w'
    | (Throw e, w') => (Throw e, w')
    end.

(** Reading the store. *)
Definition gets {A} (f : World -> A) : M A := fun w => (Ok (f w), w).

(** Changing the store. *)
Definition modify (f : World -> World) : M unit := fun w => (Ok tt, f w).

Declare Scope ledger_scope.
Delimit Scope ledger_scope with ledger.
Notation "x <- m ;; k" := (bind m (fun x => k))
  (at level 61, m at next level, right associativity) : ledger_scope.
Notation "m ;; k" := (bind m (fun _ => k))
  (at level 61, right associativity) : ledger_scope.
Local Open Scope ledger_scope.

Fixpoint filterM {A} (p : A -> M bool) (l : list A) : M (list A) :=
  match l with
  | [] => ret []
  | x :: l' =>
      keep <- p x ;;
      rest <- filterM p l' ;;
      ret (if keep then x :: rest else rest)
  end.

Fixpoint mapM {A B} (f : A -> M B) (l : list A) : M (list B) :=
  match l with
  | [] => ret []
  | x :: l' =>
      y <- f x ;;
      rest <- mapM f l' ;;
      ret (y :: rest)
  end.

(** ** A JavaScript object used as a map, in the order of its keys

    The keys of the mapping are the identifiers that [generateWeekId]
    produces; they are not numerals, so the object keeps them in the order
    of their insertion. *)

(** [obj[k] = v] *)
Fixpoint objSet (obj : list (WeekId * DateKey)) (k : WeekId) (v : DateKey) :=
  match obj with
  | [] => [(k, v)]
  | (k', v') :: rest =>
      if (k' =? k)%string then (k', v) :: rest else (k', v') :: objSet rest k v
  end.

(** [obj[k]] *)
Fixpoint objGet (obj : list (WeekId * DateKey)) (k : WeekId) : option DateKey :=
  match obj with
  | [] => None
  | (k', v') :: rest => if (k' =? k)%string then Some v' else objGet rest k
  end.

(** The loop of [getOrCreateWeekId] over [Object.entries(mapping)]: the
    first week whose date is [dateKey]. *)
Fixpoint findWeekIdByDate (obj : list (WeekId * DateKey)) (dateKey : DateKey)
  : option WeekId :=
  match obj with
  | [] => None
  | (weekId, date) :: rest =>
      if date =? dateKey then Some weekId else findWeekIdByDate rest dateKey
  end.

(** [array.includes(x)] *)
Definition includes (l : list WeekId) (x : WeekId) : bool :=
  existsb (fun y => (y =? x)%string) l.

(** An entry of the history of weeks.  The text of [period] is kept as the
    two instants it formats; [None] is 'Data não disponível'. *)
Record WeekInfo := mkWeekInfo {
  wi_weekId : WeekId;
  wi_period : option (Z * Z);
  wi_total : Js.Number;
  wi_transactionCount : nat;
  wi_isClosed : bool;
  wi_weekStart : Z
}.

(** [l.forEach(x => set.add(x))] on a [Set] kept in insertion order *)
Fixpoint addAll (set : list WeekId) (l : list WeekId) : list WeekId :=
  match l with
  | [] => set
  | x :: l' => addAll (if includes set x then set else set ++ [x]) l'
  end.

(** [weeks.sort((a, b) => b.weekStart - a.weekStart)]: the sort is stable,
    an entry goes behind the entries that do not start earlier. *)
Fixpoint insertByStart (x : WeekInfo) (l : list WeekInfo) : list WeekInfo :=
  match l with
  | [] => [x]
  | y :: l' =>
      if wi_weekStart x <=? wi_weekStart y then y :: insertByStart x l'
      else x :: y :: l'
  end.

Definition sortByStartDesc (l : list WeekInfo) : list WeekInfo :=
  fold_left (fun acc x => insertByStart x acc) l [].

(** [array.slice(0, limit)] *)
Definition slice0 {A} (l : list A) (limit : Z) : list A :=
  let len := Z.of_nat (List.length l) in
  let final := if limit <? 0 then Z.max (len + limit) 0 else Z.min limit len in
  firstn (Z.to_nat final) l.

(** ** FinanceService *)

Section Service.

Variable e : Env.

(** [StorageService.set(key, value)]: the write is lost when
    [localStorage.setItem] throws. *)
Definition storageSet (key : Key) (write : World -> World) : M unit :=
  modify (fun w => if setItemOk e key then write w else w).

Definition defaultConfig : Config := mkConfig true 0 12.

(** The next text that the clock and [Math.random()] yield. *)
Definition nextRandom : M string :=
  fun w => (Ok (random e (drawn w)), with_drawn (S (drawn w)) w).

(** [generateWeekId] *)
Definition generateWeekId : M WeekId :=
  suffix <- nextRandom ;;
  ret ("week_" ++ suffix)%string.

(** [getWeekIdMapping] *)
Definition getWeekIdMapping : M (list (WeekId * DateKey)) := gets weekIdMapping.

(** [setWeekIdMapping] *)
Definition setWeekIdMapping (mapping : list (WeekId * DateKey)) : M unit :=
  storageSet WEEK_ID_MAPPING_KEY (with_weekIdMapping mapping).

(** [getOrCreateWeekId] *)
Definition getOrCreateWeekId (weekStartDate : Z) : M WeekId :=
  let dateKey := isoDate weekStartDate in
  mapping <- getWeekIdMapping ;;
  match findWeekIdByDate mapping dateKey with
  | Some weekId => ret weekId
  | None =>
      newWeekId <- generateWeekId ;;
      setWeekIdMapping (objSet mapping newWeekId dateKey) ;;
      ret newWeekId
  end.

(** [getWeekStartDateById] *)
Definition getWeekStartDateById (weekId : WeekId) (w : World) : option Z :=
  match objGet (weekIdMapping w) weekId with
  | None => None
  | Some dateString => Some (localMidnight (tz e) dateString)
  end.

(** [getAllTransactions] *)
Definition getAllTransactions : M (list Transaction) := gets transactions.

(** [getClosedWeeks] *)
Definition getClosedWeeks : M (list WeekId) := gets closedWeeks.

(** [isWeekClosed] *)
Definition isWeekClosed (weekId : WeekId) : M bool :=
  closed <- getClosedWeeks ;;
  ret (includes closed weekId).

(** [getNextCloseDate] *)
Definition getNextCloseDate : M (option Z) := gets nextCloseDate.

(** [getAutoCloseConfig] *)
Definition getAutoCloseConfig : M Config :=
  gets (fun w => match autoCloseConfig w with
                 | Some c => c
                 | None => defaultConfig
                 end).

(** [setAutoCloseConfig] *)
Definition setAutoCloseConfig (config : Config) : M unit :=
  storageSet AUTO_CLOSE_CONFIG_KEY (with_autoCloseConfig (Some config)).

(** [setNextCloseDate] *)
Definition setNextCloseDate (date : Z) : M unit :=
  config <- getAutoCloseConfig ;;
  let dayOfWeek := dayOfWeek config in
  if negb (isDayOfWeek (tz e) date dayOfWeek) then throw ProximoFechamentoOutroDia
  else
    let today := startOfDay (tz e) (now e) in
    let dateToSet := startOfDay (tz e) date in
    if dateToSet <=? today then throw ProximoFechamentoNaoFutura
    else storageSet NEXT_CLOSE_DATE_KEY (with_nextCloseDate (Some date)).

(** [setCurrentWeekStart] *)
Definition setCurrentWeekStart (date : Z) (weekId : option WeekId) : M unit :=
  let dateToSet := startOfDay (tz e) date in
  storageSet CURRENT_WEEK_START_KEY (with_currentWeekStart (Some dateToSet)) ;;
  finalWeekId <- match weekId with
                 | Some id => if Js.truthy id then ret id
                              else getOrCreateWeekId dateToSet
                 | None => getOrCreateWeekId dateToSet
                 end ;;
  storageSet CURRENT_WEEK_ID_KEY (with_currentWeekId (Some finalWeekId)).

(** [getCurrentWeekStart] *)
Definition getCurrentWeekStart : M (option Z) := gets currentWeekStart.

(** [getCurrentWeekStartDate] *)
Definition getCurrentWeekStartDate : M Z :=
  storedStart <- getCurrentWeekStart ;;
  match storedStart with
  | Some start => ret start
  | None =>
      nextCloseDate <- getNextCloseDate ;;
      match nextCloseDate with
      | None => ret (getWeekStart (tz e) (now e))
      | Some nextClose =>
          let weekStart := startOfDay (tz e) (addDays nextClose (-7)) in
          let today := startOfDay (tz e) (now e) in
          ret (if today <? weekStart then weekStart else today)
      end
  end.

(** [getCurrentWeekId] *)
Definition getCurrentWeekId : M WeekId :=
  storedWeekId <- gets currentWeekId ;;
  valid <- match storedWeekId with
           | Some id =>
               if Js.truthy id then
                 weekStart <- gets (getWeekStartDateById id) ;;
                 match weekStart with
                 | Some weekStart =>
                     currentWeekStart <- getCurrentWeekStartDate ;;
                     ret (if weekStart =? currentWeekStart then Some id else None)
                 | None => ret None
                 end
               else ret None
           | None => ret None
           end ;;
  match valid with
  | Some id => ret id
  | None =>
      weekStart <- getCurrentWeekStartDate ;;
      weekId <- getOrCreateWeekId weekStart ;;
      storageSet CURRENT_WEEK_ID_KEY (with_currentWeekId (Some weekId)) ;;
      ret weekId
  end.

(** [getCurrentWeekEndDate] *)
Definition getCurrentWeekEndDate : M Z :=
  nextCloseDate <- getNextCloseDate ;;
  match nextCloseDate with
  | None => ret (getWeekEnd (tz e) (now e))
  | Some nextCloseDate =>
      weekStart <- getCurrentWeekStartDate ;;
      let nextClose := endOfDay (tz e) nextCloseDate in
      if nextClose <? weekStart then ret (getWeekEnd (tz e) weekStart)
      else ret nextClose
  end.

(** [isTransactionInClosedWeek] *)
Definition isTransactionInClosedWeek (transaction : Transaction) : M bool :=
  own <- isWeekClosed (tx_weekId transaction) ;;
  if own then ret true
  else
    let standardWeekStart := getWeekStart (tz e) (tx_date transaction) in
    standardWeekId <- getOrCreateWeekId standardWeekStart ;;
    standard <- isWeekClosed standardWeekId ;;
    if standard then ret true else ret false.

(** [getTransactionsByWeek] *)
Definition getTransactionsByWeek (weekId : WeekId) : M (list Transaction) :=
  transactions <- getAllTransactions ;;
  current <- getCurrentWeekId ;;
  if (weekId =? current)%string then
    currentWeekStart <- getCurrentWeekStartDate ;;
    currentWeekEnd <- getCurrentWeekEndDate ;;
    filterM (fun t =>
      if (tx_weekId t =? weekId)%string then
        closed <- isWeekClosed (tx_weekId t) ;;
        if closed then ret false else ret true
      else
        inClosed <- isTransactionInClosedWeek t ;;
        if inClosed then ret false
        else if isDateInCurrentWeekPeriod (tz e) (tx_date t) currentWeekStart currentWeekEnd
        then
          again <- isTransactionInClosedWeek t ;;
          if again then ret false else ret true
        else ret false) transactions
  else ret (filter (fun t => (tx_weekId t =? weekId)%string) transactions).

(** [getCurrentWeekTransactions] *)
Definition getCurrentWeekTransactions : M (list Transaction) :=
  currentWeekId <- getCurrentWeekId ;;
  closed <- isWeekClosed currentWeekId ;;
  if closed then ret []
  else
    transactions <- getTransactionsByWeek currentWeekId ;;
    filterM (fun t =>
      if (tx_weekId t =? currentWeekId)%string then ret true
      else
        inClosed <- isTransactionInClosedWeek t ;;
        ret (negb inClosed)) transactions.

(** [DatesService.parseDate]: [None] is the invalid date. *)
Definition parseDate (dateString : string) : option Z :=
  dateOfString e (dateString ++ "T00:00:00")%string.

(** [createTransaction] *)
Definition createTransaction (description : string) (amount : Js.Number)
    (dateString : option string) : M Transaction :=
  if negb (Js.truthy description) || negb (Js.truthy (Js.trim description))
  then throw DescricaoObrigatoria
  else if Js.notPositive amount then throw ValorMaiorQueZero
  else
    match dateString with
    | None => throw DataObrigatoria
    | Some dateString =>
        if negb (Js.truthy dateString) then throw DataObrigatoria
        else
          let date := parseDate dateString in
          currentWeekStart <- getCurrentWeekStartDate ;;
          currentWeekEnd <- getCurrentWeekEndDate ;;
          currentWeekId <- getCurrentWeekId ;;
          closed <- isWeekClosed currentWeekId ;;
          if closed then throw SemanaAtualFechada
          else
            match date with
            | None => throw InvalidTimeValue
            | Some date =>
                let standardWeekStart := getWeekStart (tz e) date in
                standardWeekId <- getOrCreateWeekId standardWeekStart ;;
                let isInCurrentWeekPeriod :=
                  isDateInCurrentWeekPeriod (tz e) date currentWeekStart currentWeekEnd in
                isStandardWeekClosed <- isWeekClosed standardWeekId ;;
                let today := startOfDay (tz e) (now e) in
                let dateToCheck := startOfDay (tz e) date in
                let isTodayOrFuture := today <=? dateToCheck in
                currentClosed <- isWeekClosed currentWeekId ;;
                let weekId :=
                  if isTodayOrFuture && negb currentClosed then currentWeekId
                  else if isInCurrentWeekPeriod then currentWeekId
                  else if isStandardWeekClosed then currentWeekId
                  else standardWeekId in
                id <- nextRandom ;;
                let transaction :=
                  mkTransaction id (Js.trim description) amount date weekId (now e) in
                transactions <- getAllTransactions ;;
                storageSet FINANCE_STORAGE_KEY
                  (with_transactions (transactions ++ [transaction])) ;;
                ret transaction
            end
    end.

(** [calculateTotal] *)
Definition calculateTotal (transactions : list Transaction) : Js.Number :=
  fold_left (fun sum t => Js.add sum (tx_amount t)) transactions (Js.Num 0).

(** [getCurrentWeekTotal] *)
Definition getCurrentWeekTotal : M Js.Number :=
  transactions <- getCurrentWeekTransactions ;;
  ret (calculateTotal transactions).

(** [removeTransaction] *)
Definition removeTransaction (transactionId : string) : M bool :=
  transactions <- getAllTransactions ;;
  let filtered := filter (fun t => negb (tx_id t =? transactionId)%string) transactions in
  storageSet FINANCE_STORAGE_KEY (with_transactions filtered) ;;
  ret (Nat.ltb (List.length filtered) (List.length transactions)).

(** The part of [closeWeek] that follows the choice of the week to close:
    from the reading of the closed weeks to the end of the function. *)
Definition closeWeekFrom (targetWeekId : WeekId) (nextCloseDate : option Z)
    (isManual : bool) : M bool :=
  closedWeeks <- getClosedWeeks ;;
  let weekIdToClose := targetWeekId in
  if includes closedWeeks weekIdToClose then
    (if isManual then throw SemanaJaFechada else ret false)
  else
    storageSet CLOSED_WEEKS_KEY (with_closedWeeks (closedWeeks ++ [weekIdToClose])) ;;
    savedWeeks <- getClosedWeeks ;;
    if negb (includes savedWeeks weekIdToClose) then throw ErroAoSalvarFechamento
    else
      let closeDate := startOfDay (tz e) (now e) in
      config <- getAutoCloseConfig ;;
      let dayOfWeek := dayOfWeek config in
      if isManual then
        currentNextCloseDate <- getNextCloseDate ;;
        let newNextDay := getNextDayOfWeekAfter (tz e) (now e) dayOfWeek in
        let newWeekStartDate := startOfDay (tz e) closeDate in
        newWeekId <- generateWeekId ;;
        mapping <- getWeekIdMapping ;;
        setWeekIdMapping (objSet mapping newWeekId (isoDate newWeekStartDate)) ;;
        match currentNextCloseDate with
        | Some currentNextCloseDate =>
            let nextClose := startOfDay (tz e) currentNextCloseDate in
            if closeDate <? nextClose then
              setCurrentWeekStart newWeekStartDate (Some newWeekId)
            else
              setNextCloseDate newNextDay ;;
              setCurrentWeekStart newWeekStartDate (Some newWeekId)
        | None =>
            setNextCloseDate newNextDay ;;
            setCurrentWeekStart newWeekStartDate (Some newWeekId)
        end ;;
        finalWeekId <- getCurrentWeekId ;;
        finalClosed <- isWeekClosed finalWeekId ;;
        (if finalClosed then
           let adjustedDate := addDays newWeekStartDate 1 in
           adjustedWeekId <- generateWeekId ;;
           setCurrentWeekStart adjustedDate (Some adjustedWeekId)
         else ret tt) ;;
        ret true
      else
        match nextCloseDate with
        | Some nextCloseDate => setNextCloseDate nextCloseDate
        | None => setNextCloseDate (getNextDayOfWeekAfter (tz e) (now e) dayOfWeek)
        end ;;
        ret true.

(** [closeWeek] *)
Definition closeWeek (weekId : option WeekId) (nextCloseDate : option Z)
    (isManual : bool) : M bool :=
  if isManual && negb (Js.truthyOpt weekId) then
    targetWeekId <- getCurrentWeekId ;;
    closed <- isWeekClosed targetWeekId ;;
    if closed then throw SemanaJaFechada
    else closeWeekFrom targetWeekId nextCloseDate isManual
  else
    targetWeekId <- match weekId with
                    | Some id => if Js.truthy id then ret id else getCurrentWeekId
                    | None => getCurrentWeekId
                    end ;;
    closed <- isWeekClosed targetWeekId ;;
    if closed then ret false
    else closeWeekFrom targetWeekId nextCloseDate isManual.

(** [isCurrentWeekClosed] *)
Definition isCurrentWeekClosed : M bool :=
  currentWeekId <- getCurrentWeekId ;;
  isWeekClosed currentWeekId.

(** [checkAndAutoCloseWeek] *)
Definition checkAndAutoCloseWeek : M bool :=
  config <- getAutoCloseConfig ;;
  if negb (enabled config) then ret false
  else
    let currentDay := getDay (tz e) (now e) in
    let currentHour := getHours (tz e) (now e) in
    if (currentDay =? dayOfWeek config) && (hour config <=? currentHour) then
      currentWeekId <- getCurrentWeekId ;;
      closed <- isWeekClosed currentWeekId ;;
      if negb closed then
        let closeDate := startOfDay (tz e) (now e) in
        let nextDay := getNextDayOfWeekAfter (tz e) (now e) (dayOfWeek config) in
        newWeekId <- generateWeekId ;;
        closed <- closeWeek (Some currentWeekId) (Some nextDay) false ;;
        (if closed then setCurrentWeekStart closeDate (Some newWeekId) else ret tt) ;;
        ret closed
      else ret false
    else ret false.

(** [isDateInClosedWeek] *)
Definition isDateInClosedWeek (date : Z) : M bool :=
  let weekStart := getWeekStart (tz e) date in
  weekId <- getOrCreateWeekId weekStart ;;
  isWeekClosed weekId.

(** The entry that [getWeeksHistory] builds for one week. *)
Definition weekInfo (weekId : WeekId) : M WeekInfo :=
  transactions <- getTransactionsByWeek weekId ;;
  let total := calculateTotal transactions in
  isClosed <- isWeekClosed weekId ;;
  weekStart <- gets (getWeekStartDateById weekId) ;;
  let period :=
    match weekStart with
    | Some weekStart => Some (weekStart, getWeekEnd (tz e) weekStart)
    | None =>
        match transactions with
        | first :: _ =>
            let weekStartFallback := getWeekStart (tz e) (tx_date first) in
            Some (weekStartFallback, getWeekEnd (tz e) weekStartFallback)
        | [] => None
        end
    end in
  ret (mkWeekInfo weekId period total (List.length transactions) isClosed
         (match weekStart with Some weekStart => weekStart | None => 0 end)).

(** [getWeeksHistory] *)
Definition getWeeksHistory (limit : Z) : M (list WeekInfo) :=
  closedWeeks <- getClosedWeeks ;;
  allTransactions <- getAllTransactions ;;
  let allWeekIds := addAll (addAll [] closedWeeks) (map tx_weekId allTransactions) in
  weeks <- mapM weekInfo allWeekIds ;;
  ret (slice0 (sortByStartDesc (filter (fun w => 0 <? wi_weekStart w) weeks)) limit).

(** [getWeeklyLimit] *)
Definition getWeeklyLimit : M (option Js.Number) := gets weeklyLimit.

(** [setWeeklyLimit] *)
Definition setWeeklyLimit (limit : option Js.Number) : M unit :=
  match limit with
  | Some l => if Js.notPositive l then throw LimiteInvalido
              else storageSet WEEKLY_LIMIT_KEY (with_weeklyLimit limit)
  | None => storageSet WEEKLY_LIMIT_KEY (with_weeklyLimit limit)
  end.

(** [isWeeklyLimitExceeded] *)
Definition isWeeklyLimitExceeded : M bool :=
  limit <- getWeeklyLimit ;;
  match limit with
  | None => ret false
  | Some limit =>
      currentTotal <- getCurrentWeekTotal ;;
      ret (Js.gt currentTotal limit)
  end.

End Service.

(** ** The operations of the ledger *)

(** The operations that the presentation layer and the periodic trigger
    call.  The raw accessors of the storage ([setWeekIdMapping] and the
    like) are not among them. *)
Inductive Op :=
| CreateTransaction (description : string) (amount : Js.Number)
                    (dateString : option string)
| RemoveTransaction (transactionId : string)
| CloseWeek (weekId : option WeekId) (nextCloseDate : option Z) (isManual : bool)
| CheckAndAutoCloseWeek
| IsCurrentWeekClosed
| GetCurrentWeekId
| GetCurrentWeekTransactions
| GetCurrentWeekTotal
| GetTransactionsByWeek (weekId : WeekId)
| GetWeeksHistory (limit : Z)
| IsDateInClosedWeek (date : Z)
| IsTransactionInClosedWeek (transaction : Transaction)
| SetAutoCloseConfig (config : Config)
| SetNextCloseDate (date : Z)
| SetCurrentWeekStart (date : Z) (weekId : option WeekId)
| SetWeeklyLimit (limit : option Js.Number)
| IsWeeklyLimitExceeded.

(** The store that an operation leaves behind, whatever it returns or
    throws. *)
Definition perform (e : Env) (op : Op) (w : World) : World :=
  match op with
  | CreateTransaction description amount dateString =>
      snd (createTransaction e description amount dateString w)
  | RemoveTransaction transactionId => snd (removeTransaction e transactionId w)
  | CloseWeek weekId nextCloseDate isManual =>
      snd (closeWeek e weekId nextCloseDate isManual w)
  | CheckAndAutoCloseWeek => snd (checkAndAutoCloseWeek e w)
  | IsCurrentWeekClosed => snd (isCurrentWeekClosed e w)
  | GetCurrentWeekId => snd (getCurrentWeekId e w)
  | GetCurrentWeekTransactions => snd (getCurrentWeekTransactions e w)
  | GetCurrentWeekTotal => snd (getCurrentWeekTotal e w)
  | GetTransactionsByWeek weekId => snd (getTransactionsByWeek e weekId w)
  | GetWeeksHistory limit => snd (getWeeksHistory e limit w)
  | IsDateInClosedWeek date => snd (isDateInClosedWeek e date w)
  | IsTransactionInClosedWeek transaction =>
      snd (isTransactionInClosedWeek e transaction w)
  | SetAutoCloseConfig config => snd (setAutoCloseConfig e config w)
  | SetNextCloseDate date => snd (setNextCloseDate e date w)
  | SetCurrentWeekStart date weekId => snd (setCurrentWeekStart e date weekId w)
  | SetWeeklyLimit limit => snd (setWeeklyLimit e limit w)
  | IsWeeklyLimitExceeded => snd (isWeeklyLimitExceeded e w)
  end.

(** The same browser at another time. *)
Definition atTime (e : Env) (t : Z) : Env :=
  mkEnv t (tz e) (random e) (setItemOk e) (dateOfString e).

(** Operations performed one after the other, each at its own time. *)
Fixpoint performAll (e : Env) (ops : list (Z * Op)) (w : World) : World :=
  match ops with
  | [] => w
  | (t, op) :: rest => performAll e rest (perform (atTime e t) op w)
  end.

End Finance.

(* ================================================================== *)
(** * Sample stores                                                    *)
(* ================================================================== *)

Module Scenario.
Import Dates Finance.

(** America/Sao_Paulo: three hours behind UTC. *)
Definition saoPaulo : Z := 180.

(** The instant of hour [h], minute [m] of the local day [day]. *)
Definition at_ (day h m : Z) : Z :=
  localMidnight saoPaulo day + h * HOUR + m * MINUTE.

(** Days of June 2024; the 2nd and the 9th are Sundays. *)
Definition jun02 : Z := 19876.
Definition jun04 : Z := 19878.
Definition jun05 : Z := 19879.
Definition jun09 : Z := 19883.

(** Random texts that never repeat. *)
Definition suffix (n : nat) : string := string_of_list_ascii (repeat "z"%char n).

(** A browser whose storage accepts every write, and which reads as dates
    the texts of the standard format. *)
Definition browser (t : Z) : Env :=
  mkEnv t saoPaulo suffix (fun _ => true) (Js.parseIsoDateTime saoPaulo).

(** A browser whose storage refuses to write the closed weeks. *)
Definition fullStorage (t : Z) : Env :=
  mkEnv t saoPaulo suffix
        (fun k => match k with CLOSED_WEEKS_KEY => false | _ => true end)
        (Js.parseIsoDateTime saoPaulo).

(** The week w0 started on Sunday 2 June and is scheduled to close on
    Sunday 9 June at noon. *)
Definition openWeek : World :=
  mkWorld [] [] None None (Some (at_ jun09 12 0)) (Some (at_ jun02 0 0))
          [("w0"%string, jun02)] (Some "w0"%string) 0.

(** The same week, closed, and still the current one. *)
Definition closedWeek : World :=
  mkWorld [] ["w0"%string] None None (Some (at_ jun09 12 0)) (Some (at_ jun02 0 0))
          [("w0"%string, jun02)] (Some "w0"%string) 0.


(** The week w0 and a transaction of 20 May left by an earlier version of
    the application, whose week identifiers were the time values of the
    Sundays: no mapping entry knows its week. *)
Definition legacy : World :=
  mkWorld [mkTransaction "t1" "mercado" (Js.Num 5) (at_ 19863 0 0)
                         "1716087600000" (at_ 19863 9 0)]
          [] None None None (Some (at_ jun02 0 0))
          [("w0"%string, jun02)] (Some "w0"%string) 0.

(** The open week w0 with three expenses: one of the week, one of 4 June
    and one of 20 May that carry an identifier of their own. *)
Definition expense1 : Transaction :=
  mkTransaction "t1" "padaria" (Js.Num 12) (at_ 19877 0 0) "w0" (at_ 19877 8 0).
Definition expense2 : Transaction :=
  mkTransaction "t2" "farmacia" (Js.Num 30) (at_ jun04 0 0) "old" (at_ jun04 9 0).
Definition expense3 : Transaction :=
  mkTransaction "t3" "mercado" (Js.Num 5) (at_ 19863 0 0) "old" (at_ 19863 9 0).

Definition busyWeek : World :=
  mkWorld [expense1; expense2; expense3] [] None None (Some (at_ jun09 12 0))
          (Some (at_ jun02 0 0)) [("w0"%string, jun02)] (Some "w0"%string) 0.

End Scenario.

(* ================================================================== *)
(** * Notions used to state the properties                           *)
(* ================================================================== *)

Module LedgerSpec.
Import Dates Finance.
Local Open Scope ledger_scope.

(** Every write to the storage takes effect. *)
Definition Reliable (e : Env) : Prop := forall k, setItemOk e k = true.

(** The local time zone is UTC or lies west of it, where local midnight
    and its UTC instant bear the same date. *)
Definition WestOfUtc (e : Env) : Prop := 0 <= tz e < 1440.


(** An amount strictly greater than zero. *)
Definition Positive (amount : Js.Number) : Prop :=
  match amount with
  | Js.Num q => (0 < q)%Q
  | Js.NaN => False
  end.

(** The value a computation returns, [d] when it throws. *)
Definition valueOf {A} (m : M A) (w : World) (d : A) : A :=
  match fst (m w) with
  | Ok a => a
  | Throw _ => d
  end.

(** The current week's start, as [getCurrentWeekStartDate] reads it. *)
Definition startDateOf (e : Env) (w : World) : Z :=
  valueOf (getCurrentWeekStartDate e) w 0.

(** The current week's end, as [getCurrentWeekEndDate] reads it. *)
Definition endDateOf (e : Env) (w : World) : Z :=
  valueOf (getCurrentWeekEndDate e) w 0.

(** The inputs that the checks of [createTransaction] refuse: a description
    that is empty once trimmed, an amount that is not strictly greater than
    zero, a date text that is missing or empty. *)
Definition Rejected (description : string) (amount : Js.Number)
    (dateString : option string) : Prop :=
  Js.trim description = ""%string \/ ~ Positive amount \/
  dateString = None \/ dateString = Some ""%string.

(** The identifiers that [generateWeekId] has yet to produce are not keys of
    the mapping, and the generator never repeats itself. *)
Definition Fresh (e : Env) (w : World) : Prop :=
  (forall n m, random e n = random e m -> n = m) /\
  (forall n, (drawn w <= n)%nat ->
             objGet (weekIdMapping w) ("week_" ++ random e n)%string = None).

(** The invariant of the ledger: no week is twice among the closed weeks. *)
Definition Sound (e : Env) (w : World) : Prop :=
  Fresh e w /\ NoDup (closedWeeks w).

(** From one store to a later one: an entry of the mapping keeps its date,
    a closed week stays closed. *)
Definition Evolves (w w' : World) : Prop :=
  (forall id d, objGet (weekIdMapping w) id = Some d ->
                objGet (weekIdMapping w') id = Some d) /\
  (forall id, In id (closedWeeks w) -> In id (closedWeeks w')) /\
  (drawn w <= drawn w')%nat.

(** The computation keeps the invariant and only lets the store evolve. *)
Definition Preserves {A} (e : Env) (m : M A) : Prop :=
  forall w, Sound e w -> Sound e (snd (m w)) /\ Evolves w (snd (m w)).

(** The generated identifiers yet to come are neither keys of the mapping
    nor closed weeks. *)
Definition Unused (e : Env) (w : World) : Prop :=
  Fresh e w /\
  (forall n, (drawn w <= n)%nat ->
             includes (closedWeeks w) ("week_" ++ random e n)%string = false).

(** The standard week of the day [key] is closed: the mapping knows a week
    for that day and the week is among the closed ones. *)
Definition standardWeekClosed (w : World) (key : DateKey) : bool :=
  match findWeekIdByDate (weekIdMapping w) key with
  | Some id => includes (closedWeeks w) id
  | None => false
  end.

(** A transaction belongs to a closed week, judged by its own week and by
    the standard week of its date. *)
Definition inClosedWeek (e : Env) (w : World) (t : Transaction) : bool :=
  includes (closedWeeks w) (tx_weekId t) ||
  standardWeekClosed w (isoDate (getWeekStart (tz e) (tx_date t))).

(** A transaction counts for the current week: it carries the week's
    identifier, or its date lies in the week's period and it does not belong
    to a closed week. *)
Definition inCurrentWeek (e : Env) (w : World) (current : WeekId) (t : Transaction) : bool :=
  (tx_weekId t =? current)%string ||
  (isDateInCurrentWeekPeriod (tz e) (tx_date t) (startDateOf e w) (endDateOf e w) &&
   negb (inClosedWeek e w t)).

(** Between two stores: the same transactions, closed weeks and period, and
    the same verdict on every standard week. *)
Definition Steady (e : Env) (w w' : World) : Prop :=
  transactions w' = transactions w /\ closedWeeks w' = closedWeeks w /\
  nextCloseDate w' = nextCloseDate w /\ currentWeekStart w' = currentWeekStart w /\
  (forall key, standardWeekClosed w' key = standardWeekClosed w key) /\
  Unused e w'.

(** The computation returns normally on every store. *)
Definition NoThrow {A} (m : M A) : Prop :=
  forall w, exists a w', m w = (Ok a, w').

(** The order of the history: no entry starts later than one before it. *)
Definition notEarlier (a b : WeekInfo) : Prop := wi_weekStart b <= wi_weekStart a.

End LedgerSpec.

(* ================================================================== *)
(** * The rest of the calendar utility                                 *)
(* ================================================================== *)

Module DatesRest.
Import Dates.

Section LocalTime.

Variable tz : Z.

(** [DatesService.isSunday] *)
Definition isSunday (date : Z) : bool := getDay tz date =? 0.

(** [DatesService.getNextSunday] *)
Definition getNextSunday (date : Z) : Z :=
  let day := getDay tz date in
  let diff := if day =? 0 then 0 else 7 - day in
  noon tz (addDays date diff).

(** [DatesService.getNextSundayAfter] *)
Definition getNextSundayAfter (date : Z) : Z :=
  let day := getDay tz date in
  let diff := if day =? 0 then 7 else 7 - day in
  noon tz (addDays date diff).

(** [DatesService.getCurrentWeekStart]; [now] is the instant that
    [new Date()] reads. *)
Definition getCurrentWeekStart (now : Z) (nextCloseDate lastCloseDate : option Z) : Z :=
  let today := startOfDay tz now in
  match nextCloseDate with
  | None => getWeekStart tz today
  | Some nextCloseDate =>
      let nextClose := startOfDay tz nextCloseDate in
      match lastCloseDate with
      | Some lastCloseDate =>
          let lastWeekStart := startOfDay tz lastCloseDate in
          let weekStart := startOfDay tz (addDays lastWeekStart 7) in
          if nextClose <=? weekStart then
            let calculatedStart := startOfDay tz (addDays nextClose (-7)) in
            if today <? calculatedStart then calculatedStart else today
          else
            if today <? weekStart then weekStart else today
      | None =>
          let weekStart := startOfDay tz (addDays nextClose (-7)) in
          if today <? weekStart then weekStart else today
      end
  end.

(** [DatesService.getCurrentWeekEnd] *)
Definition getCurrentWeekEnd (now : Z) (nextCloseDate : option Z) : Z :=
  match nextCloseDate with
  | None => getWeekEnd tz now
  | Some nextCloseDate => endOfDay tz nextCloseDate
  end.

End LocalTime.

(** ** The fields of a date and the texts made of them *)

(** Year, month (1 to 12) and day of the month of a day number, in the
    Gregorian calendar: what [getFullYear], [getMonth] (less one) and
    [getDate] read off the local day. *)
Definition civilFromDays (n : Z) : Z * Z * Z :=
  let z := n + 719468 in
  let era := z / 146097 in
  let doe := z - era * 146097 in
  let yoe := (doe - doe / 1460 + doe / 36524 - doe / 146096) / 365 in
  let doy := doe - (365 * yoe + yoe / 4 - yoe / 100) in
  let mp := (5 * doy + 2) / 153 in
  let d := doy - (153 * mp + 2) / 5 + 1 in
  let m := if mp <? 10 then mp + 3 else mp - 9 in
  let y := yoe + era * 400 in
  (if m <=? 2 then y + 1 else y, m, d).

(** [String(n)] for an integer [n] below 10^21 in absolute value, which
    JavaScript writes without an exponent. *)
Definition numberToString (n : Z) : string := NilZero.string_of_int (Z.to_int n).

(** [s.padStart(targetLength, '0')] *)
Definition padStart0 (targetLength : nat) (s : string) : string :=
  string_of_list_ascii (repeat "0"%char (targetLength - String.length s)) ++ s.

(** ** Numerals *)

(** The value of a character as a digit of the radix. *)
Definition digitOfRadix (radix : Z) (c : ascii) : option Z :=
  let n := Z.of_nat (nat_of_ascii c) in
  let v := if (48 <=? n) && (n <=? 57) then Some (n - 48)
           else if (97 <=? n) && (n <=? 122) then Some (n - 87)
           else if (65 <=? n) && (n <=? 90) then Some (n - 55)
           else None in
  match v with
  | Some d => if d <? radix then Some d else None
  | None => None
  end.

(** The number that the longest prefix of digits denotes; [acc] is what the
    digits read so far denote, [None] when none has been read. *)
Fixpoint leadingDigits (radix : Z) (acc : option Z) (s : string) : option Z :=
  match s with
  | String c s' =>
      match digitOfRadix radix c with
      | Some d =>
          leadingDigits radix
            (Some (match acc with Some a => a * radix + d | None => d end)) s'
      | None => acc
      end
  | EmptyString => acc
  end.

(** [parseInt] once the white space and the sign are gone: the radix is 16
    after [0x] or [0X] and 10 otherwise. *)
Definition parseDigits (s : string) : option Z :=
  match s with
  | String "0" (String "x" rest) => leadingDigits 16 None rest
  | String "0" (String "X" rest) => leadingDigits 16 None rest
  | _ => leadingDigits 10 None s
  end.

(** [parseInt(s)]; [None] is [NaN].  The integer is the one the digits
    denote: JavaScript rounds it to a double from 2^53 on, which is beyond
    the range of the time values. *)
Definition parseInt (s : string) : option Z :=
  match Js.trimStart s with
  | String "-" rest => option_map Z.opp (parseDigits rest)
  | String "+" rest => parseDigits rest
  | rest => parseDigits rest
  end.

(** [new Date(number)]; [None] is the invalid date. *)
Definition dateOfNumber (v : option Z) : option Z :=
  match v with
  | Some n => if Z.abs n <=? 8640000000000000 then Some n else None
  | None => None
  end.

Section LocalTexts.

Variable tz : Z.

(** [date.getFullYear()] *)
Definition getFullYear (date : Z) : Z := fst (fst (civilFromDays (localDay tz date))).

(** [date.getMonth()], from 0 to 11 *)
Definition getMonth (date : Z) : Z := snd (fst (civilFromDays (localDay tz date))) - 1.

(** [date.getDate()] *)
Definition getDate (date : Z) : Z := snd (civilFromDays (localDay tz date)).

(** [DatesService.formatDate] *)
Definition formatDate (date : Z) : string :=
  let day := padStart0 2 (numberToString (getDate date)) in
  let month := padStart0 2 (numberToString (getMonth date + 1)) in
  let year := getFullYear date in
  day ++ "/" ++ month ++ "/" ++ numberToString year.

(** [DatesService.formatDateForInput] *)
Definition formatDateForInput (date : Z) : string :=
  let year := getFullYear date in
  let month := padStart0 2 (numberToString (getMonth date + 1)) in
  let day := padStart0 2 (numberToString (getDate date)) in
  numberToString year ++ "-" ++ month ++ "-" ++ day.

(** [DatesService.getCurrentWeekPeriod] *)
Definition getCurrentWeekPeriod (weekStart weekEnd : Z) : string :=
  formatDate weekStart ++ " - " ++ formatDate weekEnd.

(** [DatesService.getWeekId] *)
Definition getWeekId (date : Z) : string := numberToString (getWeekStart tz date).

(** [DatesService.isDateInWeek]: every comparison with an invalid date is
    false. *)
Definition isDateInWeek (date : Z) (weekId : string) : bool :=
  match dateOfNumber (parseInt weekId) with
  | Some weekStart => (weekStart <=? date) && (date <=? getWeekEnd tz weekStart)
  | None => false
  end.

(** [DatesService.getWeekPeriod]: the fields of an invalid date are [NaN]. *)
Definition getWeekPeriod (weekId : string) : string :=
  match dateOfNumber (parseInt weekId) with
  | Some weekStart => formatDate weekStart ++ " - " ++ formatDate (getWeekEnd tz weekStart)
  | None => "NaN/NaN/NaN - NaN/NaN/NaN"
  end.

End LocalTexts.

End DatesRest.

(* ================================================================== *)
(** * The rest of the week ledger                                      *)
(* ================================================================== *)

Module FinanceRest.
Import Dates Finance.
Local Open Scope ledger_scope.

(** A JavaScript number as far as a quotient needs it: [NaN], an infinity
    or a rational. *)
Inductive Extended := ExNaN | ExInfinity (negative : bool) | ExNum (q : Q).

(** [a / b], for a divisor that is not the negative zero. *)
Definition div (a b : Js.Number) : Extended :=
  match a, b with
  | Js.Num x, Js.Num y =>
      if Qeq_bool y 0 then
        (if Qeq_bool x 0 then ExNaN else ExInfinity (negb (Qle_bool 0 x)))
      else ExNum (x / y)
  | _, _ => ExNaN
  end.

(** [x * 100] *)
Definition times100 (x : Extended) : Extended :=
  match x with
  | ExNum q => ExNum (q * 100)
  | other => other
  end.

(** [Math.min(x, 100)] *)
Definition min100 (x : Extended) : Extended :=
  match x with
  | ExNaN => ExNaN
  | ExInfinity true => ExInfinity true
  | ExInfinity false => ExNum 100
  | ExNum q => if Qle_bool q 100 then ExNum q else ExNum 100
  end.

Section Service.

Variable e : Env.

(** [getCurrentMonthTotal] *)
Definition getCurrentMonthTotal : M Js.Number :=
  let currentMonth := DatesRest.getMonth (tz e) (now e) in
  let currentYear := DatesRest.getFullYear (tz e) (now e) in
  transactions <- getAllTransactions ;;
  let monthTransactions :=
    filter (fun t =>
      (DatesRest.getMonth (tz e) (tx_date t) =? currentMonth) &&
      (DatesRest.getFullYear (tz e) (tx_date t) =? currentYear)) transactions in
  ret (calculateTotal monthTransactions).

(** [getWeeklyLimitUsage]; [None] is [null]. *)
Definition getWeeklyLimitUsage : M (option Extended) :=
  limit <- getWeeklyLimit ;;
  match limit with
  | None => ret None
  | Some limit =>
      currentTotal <- getCurrentWeekTotal e ;;
      ret (Some (min100 (times100 (div currentTotal limit))))
  end.

End Service.

End FinanceRest.

(* ================================================================== *)
(** * Checks on the calendar, decided by computation                   *)
(* ================================================================== *)

Module CalendarChecks.
Import Dates DatesRest.

(** A number below 100, padded to two characters, reads back as itself. *)
Definition twoDigitsOk (v : Z) : bool :=
  match list_ascii_of_string (padStart0 2 (numberToString v)) with
  | [a; b] =>
      match Js.digits 0 [a; b] with
      | Some r => r =? v
      | None => false
      end
  | _ => false
  end.

(** A year of four digits is written with four characters that read back
    as the year. *)
Definition fourDigitsOk (y : Z) : bool :=
  (y <? 1000) ||
  match list_ascii_of_string (numberToString y) with
  | [a; b; c; d] =>
      match Js.digits 0 [a; b; c; d] with
      | Some r => r =? y
      | None => false
      end
  | _ => false
  end.

(** [f] holds of the [n] integers from [z] on. *)
Fixpoint upFrom (z : Z) (n : nat) (f : Z -> bool) : bool :=
  match n with
  | O => true
  | S n' => f z && upFrom (z + 1) n' f
  end.

(** [f] holds of the integers from 0 to [n - 1]. *)
Definition upTo (n : Z) (f : Z -> bool) : bool := upFrom 0 (Z.to_nat n) f.

End CalendarChecks.

(* ================================================================== *)
(** * Further sample stores                                            *)
(* ================================================================== *)

Module Samples.
Import Dates Finance Scenario.

(** A browser whose storage refuses every write. *)
Definition noStorage (t : Z) : Env :=
  mkEnv t saoPaulo suffix (fun _ => false) (Js.parseIsoDateTime saoPaulo).




(** A description of a space, a no-break space (U+00A0) and a line
    separator (U+2028). *)
Definition blanks : string :=
  string_of_list_ascii
    (map ascii_of_nat [32; 194; 160; 226; 128; 168]%nat).

End Samples.

(* ================================================================== *)
(** * Further notions used to state the properties                     *)
(* ================================================================== *)

Module LedgerNotions.
Import Dates Finance LedgerSpec.

(** The stored identifier of the current week, when [getCurrentWeekId]
    accepts it: it is not empty, the mapping knows its start date, and that
    date is the start of the current week. *)
Definition storedWeek (e : Env) (w : World) : option WeekId :=
  match currentWeekId w with
  | Some id =>
      if Js.truthy id then
        match getWeekStartDateById e id w with
        | Some weekStart => if weekStart =? startDateOf e w then Some id else None
        | None => None
        end
      else None
  | None => None
  end.

(** The engine reads the texts of the standard format, local time without
    offset, as the standard prescribes. *)
Definition ReadsStandardDates (e : Env) : Prop :=
  forall s d, Js.parseIsoDateTime (tz e) s = Some d -> dateOfString e s = Some d.

End LedgerNotions.

(* ================================================================== *)
(** * Properties of the calendar utility                               *)
(* ================================================================== *)

Module DatesFacts.
Import Dates.

Lemma DAY_pos : 0 < DAY.
Proof. reflexivity. Qed.

Lemma localDay_addDays tz t n : localDay tz (addDays t n) = localDay tz t + n.
Proof.
  unfold localDay, addDays.
  replace (t + n * DAY - tzms tz) with (t - tzms tz + n * DAY) by ring.
  apply Z.div_add. discriminate.
Qed.

Lemma localDay_startOfDay tz t : localDay tz (startOfDay tz t) = localDay tz t.
Proof.
  unfold startOfDay, localDay at 1.
  replace (localDay tz t * DAY + tzms tz - tzms tz) with (localDay tz t * DAY) by ring.
  apply Z.div_mul. discriminate.
Qed.

Lemma localDay_noon tz t : localDay tz (noon tz t) = localDay tz t.
Proof.
  unfold noon, startOfDay, localDay at 1.
  replace (localDay tz t * DAY + tzms tz + 12 * HOUR - tzms tz)
    with (12 * HOUR + localDay tz t * DAY) by ring.
  rewrite Z.div_add by discriminate.
  reflexivity.
Qed.

Lemma getDay_range tz t : 0 <= getDay tz t < 7.
Proof. unfold getDay. apply Z.mod_pos_bound. lia. Qed.

Lemma startOfDay_le tz t : startOfDay tz t <= t.
Proof.
  unfold startOfDay, localDay.
  pose proof (Z.mul_div_le (t - tzms tz) DAY DAY_pos). lia.
Qed.

Lemma startOfDay_idem tz t : startOfDay tz (startOfDay tz t) = startOfDay tz t.
Proof. unfold startOfDay at 1. rewrite localDay_startOfDay. reflexivity. Qed.

Lemma startOfDay_mono tz a b : a <= b -> startOfDay tz a <= startOfDay tz b.
Proof.
  intros H. unfold startOfDay, localDay.
  assert (Hd : (a - tzms tz) / DAY <= (b - tzms tz) / DAY)
    by (apply Z.div_le_mono; [reflexivity | lia]).
  pose proof DAY_pos. nia.
Qed.

(** The day reached by [getNextDayOfWeekAfter] lies 1 to 7 days ahead. *)
Lemma next_day_offset tz d k :
  0 <= k <= 6 ->
  exists diff, 1 <= diff <= 7 /\
    localDay tz (getNextDayOfWeekAfter tz d k) = localDay tz d + diff /\
    (getDay tz d + diff) mod 7 = k.
Proof.
  intros Hk. unfold getNextDayOfWeekAfter.
  pose proof (getDay_range tz d) as Hg.
  destruct (Z.leb_spec (k - getDay tz d) 0) as [Hle | Hgt].
  - exists (k - getDay tz d + 7). split; [lia |]. split.
    + rewrite localDay_noon, localDay_addDays. reflexivity.
    + replace (getDay tz d + (k - getDay tz d + 7)) with (k + 1 * 7) by ring.
      rewrite Z.mod_add by discriminate. apply Z.mod_small. lia.
  - exists (k - getDay tz d). split; [lia |]. split.
    + rewrite localDay_noon, localDay_addDays. reflexivity.
    + replace (getDay tz d + (k - getDay tz d)) with k by ring.
      apply Z.mod_small. lia.
Qed.

Lemma getDay_shift tz t n :
  (localDay tz t + n + 4) mod 7 = (getDay tz t + n) mod 7.
Proof.
  unfold getDay.
  replace (localDay tz t + n + 4) with ((localDay tz t + 4) + n) by ring.
  rewrite Z.add_mod by discriminate.
  rewrite (Z.add_mod ((localDay tz t + 4) mod 7) n) by discriminate.
  rewrite Z.mod_mod by discriminate. reflexivity.
Qed.

(** C10. For every date [d] and every weekday [k] in 0..6,
    [getNextDayOfWeekAfter d k] falls on the smallest calendar day strictly
    after the day of [d] whose weekday is [k]: its day is later than the day
    of [d] (never the same day, even when [d] already falls on weekday [k]),
    its weekday is [k], and no day strictly between has weekday [k]. *)
Theorem getNextDayOfWeekAfter_least (tz d k : Z) :
  0 <= k <= 6 ->
  let r := getNextDayOfWeekAfter tz d k in
  localDay tz d < localDay tz r /\
  getDay tz r = k /\
  (forall e : Z, localDay tz d < localDay tz e -> getDay tz e = k ->
                 localDay tz r <= localDay tz e) /\
  d < r.
Proof.
  intros Hk r.
  destruct (next_day_offset tz d Hk) as (diff & Hdiff & Hday & Hwd).
  fold r in Hday.
  split; [lia |]. split.
  - unfold getDay at 1. rewrite Hday, getDay_shift. exact Hwd.
  - split.
    + intros e He Hek. rewrite Hday.
      destruct (Z_lt_le_dec (localDay tz e) (localDay tz d + diff)) as [Hlt | Hge]; [| lia].
      exfalso.
      set (j := localDay tz e - localDay tz d).
      assert (Hj : 1 <= j < diff) by (unfold j; lia).
      assert (Hej : (getDay tz d + j) mod 7 = k).
      { rewrite <- getDay_shift. unfold j.
        replace (localDay tz d + (localDay tz e - localDay tz d) + 4)
          with (localDay tz e + 4) by ring.
        exact Hek. }
      pose proof (getDay_range tz d) as Hg.
      assert (Hmod : forall x, 0 <= x < 14 -> x mod 7 = k -> x = k \/ x = k + 7).
      { intros x Hx Hxk.
        destruct (Z_lt_le_dec x 7).
        - rewrite Z.mod_small in Hxk by lia. lia.
        - replace x with ((x - 7) + 1 * 7) in Hxk by ring.
          rewrite Z.mod_add in Hxk by discriminate.
          rewrite Z.mod_small in Hxk by lia. lia. }
      destruct (Hmod (getDay tz d + j)) as [E1 | E1]; [lia | exact Hej | |];
      destruct (Hmod (getDay tz d + diff)) as [E2 | E2]; try lia; try exact Hwd.
    + pose proof (startOfDay_le tz d) as Hs.
      assert (Hr : startOfDay tz d + DAY <= startOfDay tz r).
      { unfold startOfDay. rewrite Hday. pose proof DAY_pos. nia. }
      assert (startOfDay tz r <= r) by apply startOfDay_le.
      unfold startOfDay, localDay in *.
      pose proof (Z.mod_pos_bound (d - tzms tz) DAY DAY_pos).
      pose proof (Z.div_mod (d - tzms tz) DAY ltac:(discriminate)).
      lia.
Qed.

(** The theorem at Tuesday 2024-06-04 10:00 (UTC-3), asking for Tuesday:
    the answer is Tuesday 2024-06-11 at noon. *)
Lemma getNextDayOfWeekAfter_least_witness :
  let tz := 180 in
  let d := 1717506000000 in
  let r := getNextDayOfWeekAfter tz d 2 in
  0 <= 2 <= 6 /\ localDay tz d < localDay tz r /\ getDay tz r = 2 /\ d < r.
Proof.
  intros tz d r.
  split; [lia |].
  destruct (@getNextDayOfWeekAfter_least tz d 2 ltac:(lia)) as (H1 & H2 & _ & H4).
  exact (conj H1 (conj H2 H4)).
Defined.

End DatesFacts.

(* ================================================================== *)
(** * Properties of the week ledger                                    *)
(* ================================================================== *)

Unset Implicit Arguments.

Module LedgerFacts.
Import Dates Finance LedgerSpec.
Local Open Scope ledger_scope.

(** ** Running computations *)

Lemma bind_ok A B (m : M A) (f : A -> M B) w a w' :
  m w = (Ok a, w') -> bind m f w = f a w'.
Proof. intros H. unfold bind. rewrite H. reflexivity. Qed.
Arguments bind_ok {A B m} f {w a w'} _.

Lemma bind_throw A B (m : M A) (f : A -> M B) w err w' :
  m w = (Throw err, w') -> bind m f w = (Throw err, w').
Proof. intros H. unfold bind. rewrite H. reflexivity. Qed.
Arguments bind_throw {A B m} f {w err w'} _.

Lemma bind_assoc A B C (m : M A) (f : A -> M B) (g : B -> M C) w :
  bind (bind m f) g w = bind m (fun x => bind (f x) g) w.
Proof. unfold bind. destruct (m w) as [[a | err] w1]; reflexivity. Qed.

Lemma storageSet_ok e k f w :
  setItemOk e k = true -> storageSet e k f w = (Ok tt, f w).
Proof. intros H. unfold storageSet, modify. rewrite H. reflexivity. Qed.

Lemma storageSet_lost e k f w :
  setItemOk e k = false -> storageSet e k f w = (Ok tt, w).
Proof. intros H. unfold storageSet, modify. rewrite H. reflexivity. Qed.

Lemma isWeekClosed_run id w :
  isWeekClosed id w = (Ok (includes (closedWeeks w) id), w).
Proof. reflexivity. Qed.

Lemma getCurrentWeekStartDate_run e w :
  getCurrentWeekStartDate e w = (Ok (startDateOf e w), w).
Proof.
  unfold startDateOf, valueOf, getCurrentWeekStartDate, getCurrentWeekStart,
    getNextCloseDate, bind, gets, ret.
  destruct (currentWeekStart w); [reflexivity |].
  destruct (nextCloseDate w); reflexivity.
Qed.

Lemma getCurrentWeekEndDate_run e w :
  getCurrentWeekEndDate e w = (Ok (endDateOf e w), w).
Proof.
  unfold endDateOf, valueOf, getCurrentWeekEndDate.
  unfold bind at 1 3. unfold getNextCloseDate, gets.
  destruct (nextCloseDate w) as [n |] eqn:En; [| reflexivity].
  unfold bind. rewrite getCurrentWeekStartDate_run.
  destruct (endOfDay (tz e) n <? startDateOf e w); reflexivity.
Qed.

(** What [getOrCreateWeekId] leaves behind: the mapping may have one more
    entry, and one more identifier may have been generated. *)
Lemma getOrCreateWeekId_run e d w :
  exists id m n,
    getOrCreateWeekId e d w =
      (Ok id, with_weekIdMapping m (with_drawn n w)).
Proof.
  unfold getOrCreateWeekId, bind, getWeekIdMapping, gets.
  destruct (findWeekIdByDate (weekIdMapping w) (isoDate d)) as [id |].
  - exists id, (weekIdMapping w), (drawn w). destruct w; reflexivity.
  - unfold generateWeekId, nextRandom, bind, ret, setWeekIdMapping, storageSet, modify.
    simpl.
    destruct (setItemOk e WEEK_ID_MAPPING_KEY).
    + eexists _, _, _. reflexivity.
    + exists ("week_" ++ random e (drawn w))%string, (weekIdMapping w), (S (drawn w)).
      destruct w; reflexivity.
Qed.

(** [getCurrentWeekId] never throws, and touches only the mapping, the
    stored identifier of the current week and the count of generated
    identifiers. *)
Lemma getCurrentWeekId_run e w :
  exists id m c n,
    getCurrentWeekId e w =
      (Ok id, with_currentWeekId c (with_weekIdMapping m (with_drawn n w))).
Proof.
  assert (Hfall : exists id m c n,
    (weekStart <- getCurrentWeekStartDate e ;;
     weekId <- getOrCreateWeekId e weekStart ;;
     storageSet e CURRENT_WEEK_ID_KEY (with_currentWeekId (Some weekId)) ;;
     ret weekId) w
    = (Ok id, with_currentWeekId c (with_weekIdMapping m (with_drawn n w)))).
  { rewrite (bind_ok _ (getCurrentWeekStartDate_run e w)).
    destruct (getOrCreateWeekId_run e (startDateOf e w) w) as (id & m & n & H).
    rewrite (bind_ok _ H).
    unfold bind, storageSet, modify, ret.
    destruct (setItemOk e CURRENT_WEEK_ID_KEY).
    - exists id, m, (Some id), n. reflexivity.
    - exists id, m, (currentWeekId w), n. destruct w; reflexivity. }
  assert (Hsame : forall id : WeekId, exists id' m c n,
    (Ok id, w) = (Ok id', with_currentWeekId c (with_weekIdMapping m (with_drawn n w)))).
  { intros id. exists id, (weekIdMapping w), (currentWeekId w), (drawn w).
    destruct w; reflexivity. }
  unfold getCurrentWeekId. unfold bind at 1. unfold gets at 1.
  destruct (currentWeekId w) as [stored |].
  - destruct (Js.truthy stored).
    + unfold bind at 1. unfold bind at 1. unfold gets at 1.
      destruct (getWeekStartDateById e stored w) as [ws |].
      * unfold bind at 1. rewrite getCurrentWeekStartDate_run. unfold ret at 1.
        destruct (ws =? startDateOf e w).
        -- apply Hsame.
        -- exact Hfall.
      * unfold ret at 1. exact Hfall.
    + unfold bind at 1. unfold ret at 1. exact Hfall.
  - unfold bind at 1. unfold ret at 1. exact Hfall.
Qed.

Lemma getCurrentWeekId_keeps e w id w1 :
  getCurrentWeekId e w = (Ok id, w1) ->
  transactions w1 = transactions w /\ closedWeeks w1 = closedWeeks w /\
  nextCloseDate w1 = nextCloseDate w /\ currentWeekStart w1 = currentWeekStart w /\
  autoCloseConfig w1 = autoCloseConfig w /\ weeklyLimit w1 = weeklyLimit w.
Proof.
  intros H. destruct (getCurrentWeekId_run e w) as (id' & m & c & n & H').
  rewrite H' in H. inversion H; subst. repeat split; reflexivity.
Qed.

Lemma getCurrentWeekId_total e w :
  getCurrentWeekId e w = (Ok (valueOf (getCurrentWeekId e) w ""%string),
                          snd (getCurrentWeekId e w)).
Proof.
  destruct (getCurrentWeekId_run e w) as (id & m & c & n & H).
  unfold valueOf. rewrite H. reflexivity.
Qed.

(** ** The checks at the head of [createTransaction] *)

Lemma truthy_false s : Js.truthy s = false <-> s = ""%string.
Proof.
  unfold Js.truthy. rewrite negb_false_iff. apply String.eqb_eq.
Qed.

Lemma truthy_true s : Js.truthy s = true <-> s <> ""%string.
Proof.
  unfold Js.truthy. rewrite negb_true_iff. apply String.eqb_neq.
Qed.

Lemma notPositive_spec amount : Js.notPositive amount = true <-> ~ Positive amount.
Proof.
  destruct amount as [| q]; simpl.
  - tauto.
  - rewrite Qle_bool_iff. split.
    + intros H Hlt. exact (Qlt_not_le _ _ Hlt H).
    + apply Qnot_lt_le.
Qed.

Lemma trim_nonempty description :
  Js.trim description <> ""%string -> Js.truthy description = true.
Proof.
  intros H. apply truthy_true. intros ->. apply H. reflexivity.
Qed.

(** Once the checks are passed, [createTransaction] reads the current week
    and refuses a closed one before it looks at the date. *)
Lemma createTransaction_checked e description amount s w :
  Js.trim description <> ""%string -> Positive amount -> s <> ""%string ->
  createTransaction e description amount (Some s) w =
  (currentWeekId <- getCurrentWeekId e ;;
   closed <- isWeekClosed currentWeekId ;;
   if closed then throw SemanaAtualFechada
   else
     match parseDate e s with
     | None => throw InvalidTimeValue
     | Some date =>
         standardWeekId <- getOrCreateWeekId e (getWeekStart (tz e) date) ;;
         isStandardWeekClosed <- isWeekClosed standardWeekId ;;
         currentClosed <- isWeekClosed currentWeekId ;;
         let weekId :=
           if (startOfDay (tz e) (now e) <=? startOfDay (tz e) date) && negb currentClosed
           then currentWeekId
           else if isDateInCurrentWeekPeriod (tz e) date (startDateOf e w) (endDateOf e w)
           then currentWeekId
           else if isStandardWeekClosed then currentWeekId
           else standardWeekId in
         id <- nextRandom e ;;
         let transaction :=
           mkTransaction id (Js.trim description) amount date weekId (now e) in
         transactions <- getAllTransactions ;;
         storageSet e FINANCE_STORAGE_KEY
           (with_transactions (transactions ++ [transaction])) ;;
         ret transaction
     end) w.
Proof.
  intros Hd Ha Hs. unfold createTransaction.
  rewrite (trim_nonempty _ Hd).
  rewrite (proj2 (truthy_true _) Hd). cbn [negb orb].
  destruct (Js.notPositive amount) eqn:En.
  { apply notPositive_spec in En. contradiction. }
  rewrite (proj2 (truthy_true _) Hs). cbn [negb orb].
  rewrite (bind_ok _ (getCurrentWeekStartDate_run e w)).
  rewrite (bind_ok _ (getCurrentWeekEndDate_run e w)).
  reflexivity.
Qed.

Lemma getOrCreateWeekId_keeps e d w id w1 :
  getOrCreateWeekId e d w = (Ok id, w1) ->
  transactions w1 = transactions w /\ closedWeeks w1 = closedWeeks w /\
  nextCloseDate w1 = nextCloseDate w /\ currentWeekStart w1 = currentWeekStart w /\
  currentWeekId w1 = currentWeekId w.
Proof.
  intros H. destruct (getOrCreateWeekId_run e d w) as (id' & m & n & H').
  rewrite H' in H. inversion H; subst. repeat split; reflexivity.
Qed.

(** C8 (amended).  [createTransaction] fails with a validation error and
    leaves the store as it was whenever the description is empty after
    trimming, the amount is not strictly greater than zero, or the date text
    is missing or empty; for all other inputs the three checks pass, and
    whatever error follows is not a validation error.  A date text that is
    present but cannot be parsed is not refused by the checks: the call then
    fails with the closed-week error when the current week is closed, and
    otherwise with the range error of the invalid date; either way the
    transactions stay as they were. *)
Theorem createTransaction_checks e description amount dateString w :
  (Rejected description amount dateString ->
   exists err, createTransaction e description amount dateString w = (Throw err, w)
               /\ kind err = ValidationError) /\
  (~ Rejected description amount dateString ->
   forall err w', createTransaction e description amount dateString w = (Throw err, w')
                  -> kind err <> ValidationError) /\
  (~ Rejected description amount dateString ->
   forall s, dateString = Some s -> parseDate e s = None ->
   let closed := includes (closedWeeks w) (valueOf (getCurrentWeekId e) w ""%string) in
   exists w',
     createTransaction e description amount dateString w
       = (Throw (if closed then SemanaAtualFechada else InvalidTimeValue), w') /\
     kind SemanaAtualFechada = ClosedWeekError /\
     kind InvalidTimeValue = RangeError /\
     transactions w' = transactions w).
Proof.
  split; [| split].
  - intros [Hd | [Ha | [Hs | Hs]]].
    + exists DescricaoObrigatoria. split; [| reflexivity].
      unfold createTransaction. rewrite Hd. simpl.
      rewrite orb_true_r. reflexivity.
    + unfold createTransaction.
      destruct (negb (Js.truthy description) || negb (Js.truthy (Js.trim description))).
      * exists DescricaoObrigatoria. split; reflexivity.
      * apply notPositive_spec in Ha. rewrite Ha.
        exists ValorMaiorQueZero. split; reflexivity.
    + subst dateString. unfold createTransaction.
      destruct (negb (Js.truthy description) || negb (Js.truthy (Js.trim description))).
      * exists DescricaoObrigatoria. split; reflexivity.
      * destruct (Js.notPositive amount).
        -- exists ValorMaiorQueZero. split; reflexivity.
        -- exists DataObrigatoria. split; reflexivity.
    + subst dateString. unfold createTransaction.
      destruct (negb (Js.truthy description) || negb (Js.truthy (Js.trim description))).
      * exists DescricaoObrigatoria. split; reflexivity.
      * destruct (Js.notPositive amount).
        -- exists ValorMaiorQueZero. split; reflexivity.
        -- exists DataObrigatoria. split; reflexivity.
  - intros Hn err w' H.
    assert (Hd : Js.trim description <> ""%string) by (intros E; apply Hn; left; exact E).
    assert (Ha : Positive amount).
    { destruct amount as [| q]; simpl.
      - apply Hn. right. left. simpl. tauto.
      - destruct (Qlt_le_dec 0 q) as [Hlt | Hle]; [exact Hlt |].
        exfalso. apply Hn. right. left. simpl. intros Hlt. exact (Qlt_not_le _ _ Hlt Hle). }
    destruct dateString as [s |]; [| exfalso; apply Hn; right; right; left; reflexivity].
    assert (Hs : s <> ""%string)
      by (intros ->; apply Hn; right; right; right; reflexivity).
    rewrite (createTransaction_checked e _ _ _ w Hd Ha Hs) in H.
    destruct (getCurrentWeekId_run e w) as (cur & m & c & n & Hcur).
    rewrite (bind_ok _ Hcur) in H.
    rewrite (bind_ok _ (isWeekClosed_run _ _)) in H.
    destruct (includes _ cur).
    { inversion H. discriminate. }
    destruct (parseDate e s) as [date |].
    2:{ inversion H. discriminate. }
    match type of H with
    | bind (getOrCreateWeekId e ?d) _ ?w1 = _ =>
        destruct (getOrCreateWeekId_run e d w1) as (std & m' & n' & Hstd)
    end.
    rewrite (bind_ok _ Hstd) in H.
    rewrite (bind_ok _ (isWeekClosed_run _ _)) in H.
    rewrite (bind_ok _ (isWeekClosed_run _ _)) in H.
    unfold bind, nextRandom, getAllTransactions, gets, storageSet, modify, ret in H.
    inversion H.
  - intros Hn s -> Hp.
    assert (Hd : Js.trim description <> ""%string) by (intros E; apply Hn; left; exact E).
    assert (Ha : Positive amount).
    { destruct amount as [| q]; simpl.
      - apply Hn. right. left. simpl. tauto.
      - destruct (Qlt_le_dec 0 q) as [Hlt | Hle]; [exact Hlt |].
        exfalso. apply Hn. right. left. simpl. intros Hlt. exact (Qlt_not_le _ _ Hlt Hle). }
    assert (Hs : s <> ""%string)
      by (intros ->; apply Hn; right; right; right; reflexivity).
    intros closed.
    rewrite (createTransaction_checked e _ _ _ w Hd Ha Hs).
    pose proof (getCurrentWeekId_total e w) as Hcur.
    destruct (getCurrentWeekId_keeps e w _ _ Hcur) as (Ht & Hc & _).
    rewrite (bind_ok _ Hcur).
    rewrite (bind_ok _ (isWeekClosed_run _ _)).
    rewrite Hp, Hc. fold closed.
    exists (snd (getCurrentWeekId e w)).
    split; [destruct closed; reflexivity |].
    split; [reflexivity |]. split; [reflexivity | exact Ht].
Qed.

(** The theorem on the week w0: a description of a space, a no-break space
    and a line separator is refused with a validation error, a well-formed
    call meets none, and a date that cannot be read meets the range error
    while the week is open and the closed-week error once it is closed. *)
Lemma createTransaction_checks_witness :
  let e := Scenario.browser (Scenario.at_ Scenario.jun04 10 0) in
  (exists err,
     createTransaction e Samples.blanks (Js.Num 12) (Some "2024-06-04"%string) Scenario.openWeek
       = (Throw err, Scenario.openWeek) /\ kind err = ValidationError) /\
  (forall err w',
     createTransaction e "padaria" (Js.Num 12) (Some "2024-06-04"%string) Scenario.openWeek
       = (Throw err, w') -> kind err <> ValidationError) /\
  (exists w',
     createTransaction e "padaria" (Js.Num 12) (Some "amanha"%string) Scenario.openWeek
       = (Throw InvalidTimeValue, w') /\
     transactions w' = transactions Scenario.openWeek) /\
  (exists w',
     createTransaction e "padaria" (Js.Num 12) (Some "amanha"%string) Scenario.closedWeek
       = (Throw SemanaAtualFechada, w') /\
     transactions w' = transactions Scenario.closedWeek).
Proof.
  intros e.
  assert (Hpass : forall s, s <> ""%string ->
            ~ Rejected "padaria" (Js.Num 12) (Some s)).
  { intros s Hs [H | [H | [H | H]]]; try discriminate H.
    - apply H. reflexivity.
    - apply Hs. congruence. }
  destruct (createTransaction_checks e Samples.blanks (Js.Num 12) (Some "2024-06-04"%string)
              Scenario.openWeek) as (Hrefused & _ & _).
  destruct (createTransaction_checks e "padaria" (Js.Num 12) (Some "2024-06-04"%string)
              Scenario.openWeek) as (_ & Hpassed & _).
  destruct (createTransaction_checks e "padaria" (Js.Num 12) (Some "amanha"%string)
              Scenario.openWeek) as (_ & _ & Hopen).
  destruct (createTransaction_checks e "padaria" (Js.Num 12) (Some "amanha"%string)
              Scenario.closedWeek) as (_ & _ & Hclosed).
  split; [| split; [| split]].
  - apply Hrefused. left. reflexivity.
  - apply Hpassed. apply Hpass. discriminate.
  - destruct (Hopen (Hpass "amanha"%string ltac:(discriminate)) "amanha"%string
                eq_refl eq_refl)
      as (w' & Hrun & _ & _ & Ht).
    exists w'. split; [exact Hrun | exact Ht].
  - destruct (Hclosed (Hpass "amanha"%string ltac:(discriminate)) "amanha"%string
                eq_refl eq_refl)
      as (w' & Hrun & _ & _ & Ht).
    exists w'. split; [exact Hrun | exact Ht].
Defined.

(** ** Writing to a closed current week *)

(** C3.  For every call to [createTransaction] whose current week is closed
    (a call that meets the preconditions of the operation: a description
    that is not empty once trimmed, a positive amount, a date text that is
    present), the call fails with the closed-week error and the transactions
    are unchanged, whatever the entry date, parseable or not, today, past or
    future: the rejection comes before every rule of attribution. *)
Theorem createTransaction_closed_week e description amount s w :
  Js.trim description <> ""%string -> Positive amount -> s <> ""%string ->
  includes (closedWeeks w) (valueOf (getCurrentWeekId e) w ""%string) = true ->
  exists w',
    createTransaction e description amount (Some s) w = (Throw SemanaAtualFechada, w') /\
    kind SemanaAtualFechada = ClosedWeekError /\
    transactions w' = transactions w.
Proof.
  intros Hd Ha Hs Hclosed.
  rewrite (createTransaction_checked e _ _ _ w Hd Ha Hs).
  pose proof (getCurrentWeekId_total e w) as Hcur.
  destruct (getCurrentWeekId_keeps e w _ _ Hcur) as (Ht & Hc & _).
  rewrite (bind_ok _ Hcur).
  rewrite (bind_ok _ (isWeekClosed_run _ _)).
  rewrite Hc, Hclosed.
  eexists. split; [reflexivity |]. split; [reflexivity | exact Ht].
Qed.

(** The theorem on the closed week w0, for an expense dated the same day. *)
Lemma createTransaction_closed_week_witness :
  exists w',
    createTransaction (Scenario.browser (Scenario.at_ Scenario.jun04 10 0))
      "padaria" (Js.Num 12) (Some "2024-06-04"%string) Scenario.closedWeek
    = (Throw SemanaAtualFechada, w') /\
    kind SemanaAtualFechada = ClosedWeekError /\
    transactions w' = transactions Scenario.closedWeek.
Proof.
  apply createTransaction_closed_week.
  - discriminate.
  - reflexivity.
  - discriminate.
  - reflexivity.
Defined.

(** A date text that cannot be parsed is not refused as invalid: with an
    open current week the call fails with the range error of the invalid
    date, and with a closed one with the closed-week error. *)
Lemma createTransaction_unparseable_date :
  let e := Scenario.browser (Scenario.at_ Scenario.jun04 10 0) in
  parseDate e "amanha" = None /\
  (exists w', createTransaction e "padaria" (Js.Num 12) (Some "amanha"%string)
                Scenario.openWeek = (Throw InvalidTimeValue, w')) /\
  kind InvalidTimeValue <> ValidationError /\
  (exists w', createTransaction e "padaria" (Js.Num 12) (Some "amanha"%string)
                Scenario.closedWeek = (Throw SemanaAtualFechada, w')) /\
  kind SemanaAtualFechada <> ValidationError.
Proof.
  cbv zeta.
  split; [reflexivity |].
  split; [eexists; vm_compute; reflexivity |].
  split; [discriminate |].
  split; [eexists; vm_compute; reflexivity | discriminate].
Qed.

(** ** Failures of [closeWeek] *)

(** C4.  A manual close of a current week that is already closed fails with
    the already-closed error, at the first check and again at the check
    against the closed weeks read afresh; a manual close whose write of the
    closed weeks is not found when they are read back fails with the
    persistence error, and the closed weeks are as before; an automatic
    close of a week that is already closed returns false and leaves the
    store untouched. *)
Theorem closeWeek_failures e w :
  (* the first check of a manual close *)
  (forall nextClose,
     includes (closedWeeks w) (valueOf (getCurrentWeekId e) w ""%string) = true ->
     closeWeek e None nextClose true w
       = (Throw SemanaJaFechada, snd (getCurrentWeekId e w))) /\
  (* the check against the closed weeks read afresh *)
  (forall id nextClose,
     includes (closedWeeks w) id = true ->
     closeWeekFrom e id nextClose true w = (Throw SemanaJaFechada, w)) /\
  kind SemanaJaFechada = AlreadyClosedError /\
  (* the write that did not take effect *)
  (forall nextClose,
     includes (closedWeeks w) (valueOf (getCurrentWeekId e) w ""%string) = false ->
     setItemOk e CLOSED_WEEKS_KEY = false ->
     closeWeek e None nextClose true w
       = (Throw ErroAoSalvarFechamento, snd (getCurrentWeekId e w))) /\
  kind ErroAoSalvarFechamento = PersistenceInconsistencyError /\
  (* the automatic close *)
  (forall id nextClose,
     id <> ""%string -> includes (closedWeeks w) id = true ->
     closeWeek e (Some id) nextClose false w = (Ok false, w)).
Proof.
  pose proof (getCurrentWeekId_total e w) as Hcur.
  destruct (getCurrentWeekId_keeps e w _ _ Hcur) as (_ & Hc & _).
  repeat split.
  - intros nextClose Hclosed. unfold closeWeek. cbn [Js.truthyOpt negb andb].
    rewrite (bind_ok _ Hcur), (bind_ok _ (isWeekClosed_run _ _)), Hc, Hclosed.
    reflexivity.
  - intros id nextClose Hclosed. unfold closeWeekFrom.
    unfold bind at 1. unfold getClosedWeeks at 1, gets. rewrite Hclosed. reflexivity.
  - intros nextClose Hopen Hlost. unfold closeWeek. cbn [Js.truthyOpt negb andb].
    rewrite (bind_ok _ Hcur), (bind_ok _ (isWeekClosed_run _ _)), Hc, Hopen.
    unfold closeWeekFrom.
    unfold bind at 1. unfold getClosedWeeks at 1, gets at 1. rewrite Hc, Hopen.
    rewrite (bind_ok _ (storageSet_lost e _ _ _ Hlost)).
    unfold bind at 1. unfold getClosedWeeks at 1, gets at 1. rewrite Hc, Hopen.
    reflexivity.
  - intros id nextClose Hid Hclosed. unfold closeWeek. cbn [andb].
    cbn [Js.truthyOpt]. rewrite (proj2 (truthy_true id) Hid).
    rewrite (bind_ok (w' := w) (a := id) _ eq_refl).
    rewrite (bind_ok _ (isWeekClosed_run _ _)), Hclosed. reflexivity.
Qed.

(** The theorem on the week w0: closed, it resists a manual and an
    automatic close; open, its close fails when the storage is full. *)
Lemma closeWeek_failures_witness :
  let t := Scenario.at_ Scenario.jun04 10 0 in
  closeWeek (Scenario.browser t) None None true Scenario.closedWeek
    = (Throw SemanaJaFechada, Scenario.closedWeek) /\
  closeWeek (Scenario.fullStorage t) None None true Scenario.openWeek
    = (Throw ErroAoSalvarFechamento, Scenario.openWeek) /\
  closeWeek (Scenario.browser t) (Some "w0"%string) None false Scenario.closedWeek
    = (Ok false, Scenario.closedWeek).
Proof.
  intros t.
  destruct (closeWeek_failures (Scenario.browser t) Scenario.closedWeek)
    as (H1 & _ & _ & _ & _ & H6).
  destruct (closeWeek_failures (Scenario.fullStorage t) Scenario.openWeek)
    as (_ & _ & _ & H4 & _ & _).
  split; [exact (H1 None eq_refl) |].
  split; [exact (H4 None eq_refl eq_refl) |].
  apply H6; [discriminate | reflexivity].
Defined.

(** ** Attribution of a transaction to a week *)

Lemma findWeekIdByDate_objSet m id key :
  findWeekIdByDate m key = None ->
  findWeekIdByDate (objSet m id key) key = Some id.
Proof.
  induction m as [| [k v] m IH]; simpl; intros H.
  - rewrite Z.eqb_refl. reflexivity.
  - destruct (v =? key) eqn:Ev; [discriminate |].
    destruct (k =? id)%string eqn:Ek; simpl.
    + rewrite Z.eqb_refl. apply String.eqb_eq in Ek. congruence.
    + rewrite Ev. apply IH. exact H.
Qed.

(** The week of a date, once [getOrCreateWeekId] has run, is the first week
    that the mapping records for that date. *)
Lemma getOrCreateWeekId_found e d w :
  setItemOk e WEEK_ID_MAPPING_KEY = true ->
  exists id w1,
    getOrCreateWeekId e d w = (Ok id, w1) /\
    findWeekIdByDate (weekIdMapping w1) (isoDate d) = Some id.
Proof.
  intros Hok. unfold getOrCreateWeekId, bind, getWeekIdMapping, gets.
  destruct (findWeekIdByDate (weekIdMapping w) (isoDate d)) as [id |] eqn:Ef.
  - exists id, w. split; [reflexivity | exact Ef].
  - unfold generateWeekId, nextRandom, bind, ret, setWeekIdMapping, storageSet, modify.
    rewrite Hok. eexists _, _. split; [reflexivity |].
    simpl. apply findWeekIdByDate_objSet. exact Ef.
Qed.

(** C1.  For every call to [createTransaction] with valid inputs while the
    current week is open, the transaction is created and its week follows
    this precedence: the current week when the entry date is today or later;
    else the current week when the entry date lies within the period of the
    current week; else the current week when the standard (Sunday) week of
    the entry date is closed; otherwise the week of that standard week, which
    the mapping records for the Sunday of the entry date once the call has
    returned. *)
Theorem createTransaction_attribution e description amount s date w :
  Reliable e ->
  Js.trim description <> ""%string -> Positive amount ->
  s <> ""%string -> parseDate e s = Some date ->
  let current := valueOf (getCurrentWeekId e) w ""%string in
  includes (closedWeeks w) current = false ->
  exists tx w' standard,
    createTransaction e description amount (Some s) w = (Ok tx, w') /\
    transactions w' = (transactions w ++ [tx])%list /\
    tx_date tx = date /\
    findWeekIdByDate (weekIdMapping w') (isoDate (getWeekStart (tz e) date))
      = Some standard /\
    tx_weekId tx =
      if startOfDay (tz e) (now e) <=? startOfDay (tz e) date then current
      else if isDateInCurrentWeekPeriod (tz e) date (startDateOf e w) (endDateOf e w)
      then current
      else if includes (closedWeeks w) standard then current
      else standard.
Proof.
  intros Hrel Hd Ha Hs Hp current Hopen.
  rewrite (createTransaction_checked e _ _ _ w Hd Ha Hs).
  pose proof (getCurrentWeekId_total e w) as Hcur. fold current in Hcur.
  destruct (getCurrentWeekId_keeps e w _ _ Hcur) as (Ht & Hc & _).
  set (w1 := snd (getCurrentWeekId e w)) in *.
  rewrite (bind_ok _ Hcur), (bind_ok _ (isWeekClosed_run _ _)), Hc, Hopen, Hp.
  destruct (getOrCreateWeekId_found e (getWeekStart (tz e) date) w1 (Hrel _))
    as (standard & w2 & Hstd & Hfind).
  destruct (getOrCreateWeekId_keeps e _ w1 _ _ Hstd) as (Ht2 & Hc2 & _).
  rewrite (bind_ok _ Hstd).
  rewrite (bind_ok _ (isWeekClosed_run _ _)), (bind_ok _ (isWeekClosed_run _ _)).
  rewrite Hc2, Hc, Hopen.
  unfold bind, nextRandom, getAllTransactions, gets, ret.
  rewrite (storageSet_ok e _ _ _ (Hrel _)).
  eexists _, _, standard. split; [reflexivity |].
  cbn [transactions with_transactions with_drawn tx_date tx_weekId weekIdMapping].
  rewrite Ht2, Ht. split; [reflexivity |]. split; [reflexivity |].
  split; [exact Hfind |].
  rewrite andb_true_r. reflexivity.
Qed.

(** The theorem on the open week w0 (2 to 9 June), on Tuesday 4 June, for an
    expense dated 20 May. *)
Lemma createTransaction_attribution_witness :
  let e := Scenario.browser (Scenario.at_ Scenario.jun04 10 0) in
  let w := Scenario.openWeek in
  exists tx w' standard,
    createTransaction e "mercado" (Js.Num 35) (Some "2024-05-20"%string) w = (Ok tx, w') /\
    findWeekIdByDate (weekIdMapping w')
      (isoDate (getWeekStart (tz e) (Scenario.at_ 19863 0 0))) = Some standard /\
    tx_weekId tx = standard.
Proof.
  intros e w.
  destruct (createTransaction_attribution e "mercado" (Js.Num 35) "2024-05-20"
              (Scenario.at_ 19863 0 0) w)
    as (tx & w' & standard & Hrun & _ & _ & Hfind & Hweek).
  - intros k. reflexivity.
  - discriminate.
  - reflexivity.
  - discriminate.
  - reflexivity.
  - reflexivity.
  - exists tx, w', standard. split; [exact Hrun |]. split; [exact Hfind |].
    rewrite Hweek.
    assert (Hstd : standard = "week_"%string).
    { vm_compute in Hrun. inversion Hrun; subst. vm_compute in Hfind. congruence. }
    subst standard. reflexivity.
Defined.


(** ** The manual close *)

Lemma includes_app_last l x : includes (l ++ [x]) x = true.
Proof.
  unfold includes. rewrite existsb_app. simpl. rewrite String.eqb_refl.
  rewrite orb_true_r. reflexivity.
Qed.

Lemma objGet_objSet m id v : objGet (objSet m id v) id = Some v.
Proof.
  induction m as [| [k v'] m IH]; simpl.
  - rewrite String.eqb_refl. reflexivity.
  - destruct (k =? id)%string eqn:Ek; simpl; rewrite Ek; [reflexivity | exact IH].
Qed.

Lemma localMidnight_isoDate e t :
  WestOfUtc e ->
  localMidnight (tz e) (isoDate (startOfDay (tz e) t)) = startOfDay (tz e) t.
Proof.
  intros Hw. unfold localMidnight, isoDate, startOfDay. f_equal.
  rewrite Z.div_add_l by discriminate.
  rewrite (Z.div_small (tzms (tz e))); [ring |].
  unfold WestOfUtc in Hw. unfold tzms, MINUTE, DAY. lia.
Qed.

Lemma setCurrentWeekStart_given e date id w :
  Reliable e -> Js.truthy id = true ->
  setCurrentWeekStart e date (Some id) w
  = (Ok tt, with_currentWeekId (Some id)
              (with_currentWeekStart (Some (startOfDay (tz e) date)) w)).
Proof.
  intros Hrel Hid. unfold setCurrentWeekStart.
  rewrite (bind_ok _ (storageSet_ok e _ _ _ (Hrel _))).
  rewrite Hid. unfold bind, ret. rewrite (storageSet_ok e _ _ _ (Hrel _)).
  reflexivity.
Qed.

Lemma getCurrentWeekId_valid e w id key :
  currentWeekId w = Some id -> Js.truthy id = true ->
  objGet (weekIdMapping w) id = Some key ->
  localMidnight (tz e) key = startDateOf e w ->
  getCurrentWeekId e w = (Ok id, w).
Proof.
  intros Hid Ht Hget Hstart. unfold getCurrentWeekId.
  unfold bind at 1. unfold gets at 1. rewrite Hid, Ht.
  unfold bind at 1. unfold bind at 1. unfold gets at 1.
  unfold getWeekStartDateById. rewrite Hget.
  unfold bind at 1. rewrite getCurrentWeekStartDate_run. unfold ret at 1.
  rewrite Hstart, Z.eqb_refl. reflexivity.
Qed.


Lemma startOfDay_addDays tz t n :
  startOfDay tz (addDays (startOfDay tz t) n) = addDays (startOfDay tz t) n.
Proof.
  unfold startOfDay at 1.
  rewrite DatesFacts.localDay_addDays, DatesFacts.localDay_startOfDay.
  unfold addDays, startOfDay. ring.
Qed.

Lemma truthy_week id : Js.truthy ("week_" ++ id) = true.
Proof. reflexivity. Qed.

(** The last check of a manual close, on a store whose current week is the
    week just registered. *)
Lemma closeWeek_final_check e w id day date :
  Reliable e -> WestOfUtc e ->
  currentWeekId w = Some ("week_" ++ id)%string ->
  currentWeekStart w = Some (startOfDay (tz e) day) ->
  objGet (weekIdMapping w) ("week_" ++ id)%string = Some (isoDate (startOfDay (tz e) day)) ->
  (finalWeekId <- getCurrentWeekId e ;;
   finalClosed <- isWeekClosed finalWeekId ;;
   (if finalClosed then
      adjustedWeekId <- generateWeekId e ;;
      setCurrentWeekStart e date (Some adjustedWeekId)
    else ret tt) ;;
   ret true) w
  = (Ok true,
     if includes (closedWeeks w) ("week_" ++ id)%string
     then with_currentWeekId (Some ("week_" ++ random e (drawn w))%string)
            (with_currentWeekStart (Some (startOfDay (tz e) date))
               (with_drawn (S (drawn w)) w))
     else w).
Proof.
  intros Hrel Hwest Hid Hstart Hget.
  assert (Hvalid : getCurrentWeekId e w = (Ok ("week_" ++ id)%string, w)).
  { apply getCurrentWeekId_valid with (key := isoDate (startOfDay (tz e) day)).
    - exact Hid.
    - apply truthy_week.
    - exact Hget.
    - rewrite (localMidnight_isoDate e day Hwest).
      unfold startDateOf, valueOf, getCurrentWeekStartDate, getCurrentWeekStart, bind, gets.
      rewrite Hstart. reflexivity. }
  rewrite (bind_ok _ Hvalid), (bind_ok _ (isWeekClosed_run _ _)).
  destruct (includes (closedWeeks w) ("week_" ++ id)%string).
  - unfold generateWeekId. unfold bind at 1. unfold bind at 1. unfold bind at 1.
    unfold nextRandom at 1, ret at 1.
    rewrite (setCurrentWeekStart_given e _ _ _ Hrel (truthy_week _)).
    reflexivity.
  - reflexivity.
Qed.










(** ** What every operation preserves *)

Lemma Evolves_refl w : Evolves w w.
Proof. repeat split; auto. Qed.

Lemma Evolves_trans w1 w2 w3 : Evolves w1 w2 -> Evolves w2 w3 -> Evolves w1 w3.
Proof.
  intros (A1 & B1 & C1) (A2 & B2 & C2). repeat split; auto. lia.
Qed.

Lemma preserves_ret A e (a : A) : Preserves e (ret a).
Proof. intros w H. split; [exact H | apply Evolves_refl]. Qed.

Lemma preserves_throw A e err : Preserves e (@throw A err).
Proof. intros w H. split; [exact H | apply Evolves_refl]. Qed.

Lemma preserves_gets A e (f : World -> A) : Preserves e (gets f).
Proof. intros w H. split; [exact H | apply Evolves_refl]. Qed.

Lemma preserves_bind A B e (m : M A) (f : A -> M B) :
  Preserves e m -> (forall a, Preserves e (f a)) -> Preserves e (bind m f).
Proof.
  intros Hm Hf w H. unfold bind.
  specialize (Hm w H). destruct (m w) as [[a | err] w1]; simpl in *.
  - destruct Hm as [H1 E1]. destruct (Hf a w1 H1) as [H2 E2].
    split; [exact H2 | exact (Evolves_trans _ _ _ E1 E2)].
  - exact Hm.
Qed.

(** A write that touches neither the mapping nor the closed weeks. *)
Lemma preserves_storageSet e k f :
  (forall w, weekIdMapping (f w) = weekIdMapping w /\
             closedWeeks (f w) = closedWeeks w /\ drawn (f w) = drawn w) ->
  Preserves e (storageSet e k f).
Proof.
  intros Hf w [[Hinj Hfresh] Hnd]. unfold storageSet, modify. simpl.
  destruct (setItemOk e k); [| split; [split; [split |] | apply Evolves_refl]; assumption].
  destruct (Hf w) as (Hm & Hc & Hd).
  split; [split; [split |] |].
  - exact Hinj.
  - intros n Hn. rewrite Hm. apply Hfresh. lia.
  - rewrite Hc. exact Hnd.
  - unfold Evolves. rewrite Hm, Hc, Hd. repeat split; auto.
Qed.

Lemma preserves_nextRandom e : Preserves e (nextRandom e).
Proof.
  intros w [[Hinj Hfresh] Hnd]. unfold nextRandom. simpl.
  split; [split; [split |] |].
  - exact Hinj.
  - intros n Hn. apply Hfresh. simpl in Hn. lia.
  - exact Hnd.
  - repeat split; auto. simpl. lia.
Qed.

Lemma objGet_objSet_other m id id' v :
  id <> id' -> objGet (objSet m id v) id' = objGet m id'.
Proof.
  intros Hne. induction m as [| [k v'] m IH]; simpl.
  - destruct (id =? id')%string eqn:E; [| reflexivity].
    apply String.eqb_eq in E. contradiction.
  - destruct (k =? id)%string eqn:Ek; simpl.
    + apply String.eqb_eq in Ek. subst k.
      destruct (id =? id')%string eqn:E; [| reflexivity].
      apply String.eqb_eq in E. contradiction.
    + destruct (k =? id')%string; [reflexivity | exact IH].
Qed.

Lemma week_inj a b : ("week_" ++ a)%string = ("week_" ++ b)%string -> a = b.
Proof. simpl. intros H. inversion H. reflexivity. Qed.

(** Registering a week under the identifier just generated. *)
Lemma register_sound e w key :
  Sound e w ->
  let id := ("week_" ++ random e (drawn w))%string in
  let w' := with_weekIdMapping (objSet (weekIdMapping w) id key)
              (with_drawn (S (drawn w)) w) in
  Sound e w' /\ Evolves w w'.
Proof.
  intros [[Hinj Hfresh] Hnd] id w'.
  assert (Hnew : objGet (weekIdMapping w) id = None) by (apply Hfresh; lia).
  split; [split; [split |] |].
  - exact Hinj.
  - intros n Hn. unfold w' in *. cbn [weekIdMapping with_weekIdMapping].
    cbn [drawn with_weekIdMapping with_drawn] in Hn.
    rewrite objGet_objSet_other.
    + apply Hfresh. lia.
    + unfold id. intros E. apply week_inj in E. apply Hinj in E. lia.
  - exact Hnd.
  - split; [| split].
    + intros id' d Hget. unfold w'. cbn [weekIdMapping with_weekIdMapping].
      destruct (String.eqb_spec id id') as [-> | Hne].
      * rewrite Hnew in Hget. discriminate.
      * rewrite objGet_objSet_other by exact Hne. exact Hget.
    + auto.
    + simpl. lia.
Qed.

Lemma unregistered_sound e w :
  Sound e w -> Sound e (with_drawn (S (drawn w)) w) /\ Evolves w (with_drawn (S (drawn w)) w).
Proof. intros H. exact (preserves_nextRandom e w H). Qed.

Lemma preserves_getOrCreateWeekId e d : Preserves e (getOrCreateWeekId e d).
Proof.
  intros w H. unfold getOrCreateWeekId, bind, getWeekIdMapping, gets.
  destruct (findWeekIdByDate (weekIdMapping w) (isoDate d)).
  - split; [exact H | apply Evolves_refl].
  - unfold generateWeekId, nextRandom, bind, ret, setWeekIdMapping, storageSet, modify.
    cbn [fst snd]. destruct (setItemOk e WEEK_ID_MAPPING_KEY).
    + exact (register_sound e w (isoDate d) H).
    + exact (unregistered_sound e w H).
Qed.

(** The fragment of a manual close that registers the new week. *)
Lemma preserves_register A e key (k : WeekId -> M A) :
  (forall id, Preserves e (k id)) ->
  Preserves e (newWeekId <- generateWeekId e ;;
               mapping <- getWeekIdMapping ;;
               setWeekIdMapping e (objSet mapping newWeekId key) ;;
               k newWeekId).
Proof.
  intros Hk w H.
  unfold generateWeekId, nextRandom, getWeekIdMapping, setWeekIdMapping, storageSet, modify,
    bind, ret, gets.
  cbn [weekIdMapping with_drawn].
  destruct (setItemOk e WEEK_ID_MAPPING_KEY).
  - destruct (register_sound e w key H) as [H1 E1].
    destruct (Hk ("week_" ++ random e (drawn w))%string _ H1) as [H2 E2].
    split; [exact H2 | exact (Evolves_trans _ _ _ E1 E2)].
  - destruct (unregistered_sound e w H) as [H1 E1].
    destruct (Hk ("week_" ++ random e (drawn w))%string _ H1) as [H2 E2].
    split; [exact H2 | exact (Evolves_trans _ _ _ E1 E2)].
Qed.

Lemma includes_In l x : includes l x = true <-> In x l.
Proof.
  unfold includes. rewrite existsb_exists. split.
  - intros (y & Hy & E). apply String.eqb_eq in E. subst. exact Hy.
  - intros H. exists x. split; [exact H | apply String.eqb_refl].
Qed.

(** Appending to the closed weeks a week that is not among them. *)
Lemma push_sound e w id :
  Sound e w -> includes (closedWeeks w) id = false ->
  let w' := snd (storageSet e CLOSED_WEEKS_KEY
                   (with_closedWeeks (closedWeeks w ++ [id])) w) in
  Sound e w' /\ Evolves w w'.
Proof.
  intros [[Hinj Hfresh] Hnd] Hin. unfold storageSet, modify. cbn [snd].
  destruct (setItemOk e CLOSED_WEEKS_KEY).
  - split; [split; [split |] |].
    + exact Hinj.
    + exact Hfresh.
    + cbn [closedWeeks with_closedWeeks].
      apply NoDup_app; [exact Hnd | constructor; [simpl; tauto | constructor] |].
      intros x Hx Hx'. destruct Hx' as [<- | []].
      apply includes_In in Hx. congruence.
    + repeat split; auto. intros x Hx. cbn [closedWeeks with_closedWeeks].
      apply in_or_app. left. exact Hx.
  - split; [split; [split |] | apply Evolves_refl]; assumption.
Qed.

Lemma bind_sound A B e (m : M A) (f : A -> M B) w :
  Sound e (snd (m w)) /\ Evolves w (snd (m w)) ->
  (forall a, Preserves e (f a)) ->
  Sound e (snd (bind m f w)) /\ Evolves w (snd (bind m f w)).
Proof.
  intros Hm Hf. unfold bind.
  destruct (m w) as [[a | err] w1]; simpl in *.
  - destruct Hm as [H1 E1]. destruct (Hf a w1 H1) as [H2 E2].
    split; [exact H2 | exact (Evolves_trans _ _ _ E1 E2)].
  - exact Hm.
Qed.

Lemma preserves_filterM A e (p : A -> M bool) l :
  (forall x, Preserves e (p x)) -> Preserves e (filterM p l).
Proof.
  intros Hp. induction l as [| x l IH]; simpl.
  - apply preserves_ret.
  - apply preserves_bind; [apply Hp |]. intros keep.
    apply preserves_bind; [exact IH |]. intros rest. apply preserves_ret.
Qed.

Lemma preserves_mapM A B e (f : A -> M B) l :
  (forall x, Preserves e (f x)) -> Preserves e (mapM f l).
Proof.
  intros Hf. induction l as [| x l IH]; simpl.
  - apply preserves_ret.
  - apply preserves_bind; [apply Hf |]. intros y.
    apply preserves_bind; [exact IH |]. intros rest. apply preserves_ret.
Qed.

Create HintDb preserves.

(** Takes a computation apart along its binds and branches; the operations
    already dealt with are found in the database. *)
Ltac preserve :=
  repeat first
    [ apply preserves_ret
    | apply preserves_throw
    | apply preserves_gets
    | apply preserves_nextRandom
    | apply preserves_getOrCreateWeekId
    | solve [auto 1 with preserves nocore]
    | apply preserves_register; intros ?
    | apply preserves_filterM; intros ?
    | apply preserves_mapM; intros ?
    | apply preserves_storageSet; intros ?; repeat split
    | apply preserves_bind; [| intros ?]
    | match goal with
      | |- Preserves _ (if ?b then _ else _) => destruct b
      | |- Preserves _ (match ?x with _ => _ end) => destruct x
      | |- Preserves _ (let _ := _ in _) => cbv zeta
      end ].

Lemma preserves_isWeekClosed e id : Preserves e (isWeekClosed id).
Proof. unfold isWeekClosed, getClosedWeeks. preserve. Qed.
#[local] Hint Resolve preserves_isWeekClosed : preserves.

Lemma preserves_generateWeekId e : Preserves e (generateWeekId e).
Proof. unfold generateWeekId. preserve. Qed.
#[local] Hint Resolve preserves_generateWeekId : preserves.

Lemma preserves_getCurrentWeekStartDate e : Preserves e (getCurrentWeekStartDate e).
Proof.
  unfold getCurrentWeekStartDate, getCurrentWeekStart, getNextCloseDate. preserve.
Qed.
#[local] Hint Resolve preserves_getCurrentWeekStartDate : preserves.

Lemma preserves_getCurrentWeekEndDate e : Preserves e (getCurrentWeekEndDate e).
Proof. unfold getCurrentWeekEndDate, getNextCloseDate. preserve. Qed.
#[local] Hint Resolve preserves_getCurrentWeekEndDate : preserves.

Lemma preserves_getCurrentWeekId e : Preserves e (getCurrentWeekId e).
Proof. unfold getCurrentWeekId. preserve. Qed.
#[local] Hint Resolve preserves_getCurrentWeekId : preserves.

Lemma preserves_setNextCloseDate e d : Preserves e (setNextCloseDate e d).
Proof. unfold setNextCloseDate, getAutoCloseConfig. preserve. Qed.
#[local] Hint Resolve preserves_setNextCloseDate : preserves.

Lemma preserves_setCurrentWeekStart e d id : Preserves e (setCurrentWeekStart e d id).
Proof. unfold setCurrentWeekStart. preserve. Qed.
#[local] Hint Resolve preserves_setCurrentWeekStart : preserves.

Lemma preserves_isTransactionInClosedWeek e t :
  Preserves e (isTransactionInClosedWeek e t).
Proof. unfold isTransactionInClosedWeek. preserve. Qed.
#[local] Hint Resolve preserves_isTransactionInClosedWeek : preserves.

Lemma preserves_getTransactionsByWeek e id : Preserves e (getTransactionsByWeek e id).
Proof. unfold getTransactionsByWeek, getAllTransactions. preserve. Qed.
#[local] Hint Resolve preserves_getTransactionsByWeek : preserves.

Lemma preserves_getCurrentWeekTransactions e : Preserves e (getCurrentWeekTransactions e).
Proof. unfold getCurrentWeekTransactions. preserve. Qed.
#[local] Hint Resolve preserves_getCurrentWeekTransactions : preserves.

Lemma preserves_createTransaction e description amount dateString :
  Preserves e (createTransaction e description amount dateString).
Proof. unfold createTransaction, getAllTransactions. preserve. Qed.

Lemma preserves_closeWeekFrom e id nextClose isManual :
  Preserves e (closeWeekFrom e id nextClose isManual).
Proof.
  intros w H. unfold closeWeekFrom.
  match goal with
  | |- context [bind getClosedWeeks ?f w] =>
      change (bind getClosedWeeks f w) with (f (closedWeeks w) w)
  end.
  cbv beta zeta.
  destruct (includes (closedWeeks w) id) eqn:Hin.
  - destruct isManual; (split; [exact H | apply Evolves_refl]).
  - apply bind_sound; [exact (push_sound e w id H Hin) |].
    intros _. unfold getClosedWeeks, getAutoCloseConfig, getNextCloseDate. preserve.
Qed.
#[local] Hint Resolve preserves_closeWeekFrom : preserves.

Lemma preserves_closeWeek e id nextClose isManual :
  Preserves e (closeWeek e id nextClose isManual).
Proof. unfold closeWeek. preserve. Qed.
#[local] Hint Resolve preserves_closeWeek : preserves.

Lemma preserves_checkAndAutoCloseWeek e : Preserves e (checkAndAutoCloseWeek e).
Proof. unfold checkAndAutoCloseWeek, getAutoCloseConfig. preserve. Qed.

Lemma preserves_getWeeksHistory e limit : Preserves e (getWeeksHistory e limit).
Proof.
  unfold getWeeksHistory, weekInfo, getClosedWeeks, getAllTransactions. preserve.
Qed.

Lemma preserves_perform e op : forall w, Sound e w ->
  Sound e (perform e op w) /\ Evolves w (perform e op w).
Proof.
  destruct op; cbn [perform];
    match goal with
    | |- forall w, Sound _ w -> Sound _ (snd (?m w)) /\ _ => change (Preserves e m)
    end.
  - apply preserves_createTransaction.
  - unfold removeTransaction, getAllTransactions. preserve.
  - apply preserves_closeWeek.
  - apply preserves_checkAndAutoCloseWeek.
  - unfold isCurrentWeekClosed. preserve.
  - apply preserves_getCurrentWeekId.
  - apply preserves_getCurrentWeekTransactions.
  - unfold getCurrentWeekTotal. preserve.
  - apply preserves_getTransactionsByWeek.
  - apply preserves_getWeeksHistory.
  - unfold isDateInClosedWeek. preserve.
  - apply preserves_isTransactionInClosedWeek.
  - unfold setAutoCloseConfig. preserve.
  - apply preserves_setNextCloseDate.
  - apply preserves_setCurrentWeekStart.
  - unfold setWeeklyLimit. preserve.
  - unfold isWeeklyLimitExceeded, getWeeklyLimit, getCurrentWeekTotal. preserve.
Qed.

(** C9.  Every operation of the ledger, the queries included, keeps the
    invariant as long as the generated identifiers are unique: after any
    sequence of operations no week is twice among the closed weeks, every
    entry that the mapping had still has the same start date, and every week
    that was closed is still closed. *)
Theorem ledger_invariant e ops : forall w,
  Sound e w ->
  Sound e (performAll e ops w) /\ Evolves w (performAll e ops w).
Proof.
  induction ops as [| [t op] ops IH]; intros w H; cbn [performAll].
  - split; [exact H | apply Evolves_refl].
  - destruct (preserves_perform (atTime e t) op w H) as [H1 E1].
    destruct (IH _ H1) as [H2 E2].
    split; [exact H2 | exact (Evolves_trans _ _ _ E1 E2)].
Qed.

Lemma suffix_length n : String.length (Scenario.suffix n) = n.
Proof.
  unfold Scenario.suffix. induction n as [| n IH]; simpl; [reflexivity |].
  rewrite IH. reflexivity.
Qed.

Lemma browser_fresh t w :
  weekIdMapping w = [("w0"%string, Scenario.jun02)] -> Fresh (Scenario.browser t) w.
Proof.
  intros Hm. split.
  - intros n m E. simpl in E.
    rewrite <- (suffix_length n), <- (suffix_length m), E. reflexivity.
  - intros n _. rewrite Hm. reflexivity.
Qed.

Lemma browser_sound t : Sound (Scenario.browser t) Scenario.openWeek.
Proof. split; [apply browser_fresh; reflexivity | constructor]. Qed.

(** The theorem on the open week w0: an expense on Tuesday, a manual close
    on Wednesday, the history and the automatic close on Sunday. *)
Lemma ledger_invariant_witness :
  let e := Scenario.browser 0 in
  let ops :=
    [ (Scenario.at_ Scenario.jun04 10 0,
       CreateTransaction "padaria" (Js.Num 12) (Some "2024-06-04"%string));
      (Scenario.at_ Scenario.jun05 9 0, CloseWeek None None true);
      (Scenario.at_ Scenario.jun05 9 1, GetWeeksHistory 10);
      (Scenario.at_ Scenario.jun09 12 30, CheckAndAutoCloseWeek) ] in
  Sound e (performAll e ops Scenario.openWeek) /\
  Evolves Scenario.openWeek (performAll e ops Scenario.openWeek).
Proof.
  intros e ops. apply ledger_invariant. apply browser_sound.
Defined.


(** ** The transactions of the current week *)

Lemma Steady_refl e w : Unused e w -> Steady e w w.
Proof. intros H. repeat split; auto; apply H. Qed.

Lemma Steady_trans e w1 w2 w3 : Steady e w1 w2 -> Steady e w2 w3 -> Steady e w1 w3.
Proof.
  intros (A1 & B1 & C1 & D1 & E1 & F1) (A2 & B2 & C2 & D2 & E2 & F2).
  unfold Steady. rewrite A2, B2, C2, D2. repeat split; auto; try apply F2.
  intros key. rewrite E2. apply E1.
Qed.

Lemma objSet_new m id v : objGet m id = None -> objSet m id v = (m ++ [(id, v)])%list.
Proof.
  induction m as [| [k v'] m IH]; simpl; intros H; [reflexivity |].
  destruct (k =? id)%string; [discriminate |]. rewrite IH by exact H. reflexivity.
Qed.

Lemma findWeekIdByDate_app m m' key :
  findWeekIdByDate (m ++ m') key =
  match findWeekIdByDate m key with
  | Some id => Some id
  | None => findWeekIdByDate m' key
  end.
Proof.
  induction m as [| [k v] m IH]; simpl; [reflexivity |].
  destruct (v =? key); [reflexivity | exact IH].
Qed.

(** [getOrCreateWeekId] returns a week that is closed exactly when the
    standard week of the day was, and changes no verdict. *)
Lemma getOrCreateWeekId_closed e d w :
  Unused e w ->
  exists id w',
    getOrCreateWeekId e d w = (Ok id, w') /\
    includes (closedWeeks w) id = standardWeekClosed w (isoDate d) /\
    Steady e w w'.
Proof.
  intros Hun. pose proof Hun as [[Hinj Hfresh] Hclosed].
  unfold getOrCreateWeekId, bind, getWeekIdMapping, gets, standardWeekClosed.
  destruct (findWeekIdByDate (weekIdMapping w) (isoDate d)) as [id |] eqn:Ef.
  - exists id, w. split; [reflexivity |]. split; [reflexivity |].
    apply Steady_refl. exact Hun.
  - unfold generateWeekId, nextRandom, bind, ret, setWeekIdMapping, storageSet, modify.
    set (id := ("week_" ++ random e (drawn w))%string).
    assert (Hnew : objGet (weekIdMapping w) id = None) by (apply Hfresh; lia).
    assert (Hopen : includes (closedWeeks w) id = false) by (apply Hclosed; lia).
    eexists id, _. split; [reflexivity |]. split; [exact Hopen |].
    destruct (setItemOk e WEEK_ID_MAPPING_KEY).
    + unfold Steady. cbn [transactions closedWeeks nextCloseDate currentWeekStart
                           with_weekIdMapping with_drawn].
      repeat split.
      * intros key. unfold standardWeekClosed.
        cbn [weekIdMapping closedWeeks with_weekIdMapping with_drawn].
        rewrite (objSet_new _ _ _ Hnew), findWeekIdByDate_app.
        destruct (findWeekIdByDate (weekIdMapping w) key) as [id' |] eqn:Ef'; [reflexivity |].
        simpl. destruct (isoDate d =? key); [exact Hopen | reflexivity].
      * exact Hinj.
      * intros n Hn. cbn [weekIdMapping drawn with_weekIdMapping with_drawn] in *.
        rewrite objGet_objSet_other.
        -- apply Hfresh. lia.
        -- unfold id. intros E. apply week_inj in E. apply Hinj in E. lia.
      * intros n Hn. cbn [closedWeeks drawn with_weekIdMapping with_drawn] in *.
        apply Hclosed. lia.
    + unfold Steady. cbn [transactions closedWeeks nextCloseDate currentWeekStart with_drawn].
      repeat split.
      * exact Hinj.
      * intros n Hn. cbn [weekIdMapping drawn with_drawn] in *. apply Hfresh. lia.
      * intros n Hn. cbn [closedWeeks drawn with_drawn] in *. apply Hclosed. lia.
Qed.

(** [isTransactionInClosedWeek] computes [inClosedWeek]. *)
Lemma isTransactionInClosedWeek_spec e t w :
  Unused e w ->
  exists w',
    isTransactionInClosedWeek e t w = (Ok (inClosedWeek e w t), w') /\ Steady e w w'.
Proof.
  intros Hun. unfold isTransactionInClosedWeek, inClosedWeek.
  rewrite (bind_ok _ (isWeekClosed_run _ _)).
  destruct (includes (closedWeeks w) (tx_weekId t)).
  - exists w. split; [reflexivity | apply Steady_refl; exact Hun].
  - destruct (getOrCreateWeekId_closed e (getWeekStart (tz e) (tx_date t)) w Hun)
      as (id & w' & Hrun & Hid & Hst).
    rewrite (bind_ok _ Hrun), (bind_ok _ (isWeekClosed_run _ _)).
    destruct Hst as (A & B & C & D & E & F).
    rewrite B, Hid. cbn [orb].
    exists w'. split.
    + destruct (standardWeekClosed _ _); reflexivity.
    + repeat split; auto; apply F.
Qed.

Lemma inClosedWeek_steady e w w' t :
  Steady e w w' -> inClosedWeek e w' t = inClosedWeek e w t.
Proof.
  intros (A & B & C & D & E & F). unfold inClosedWeek. rewrite B, E. reflexivity.
Qed.

Lemma startDateOf_eq e w :
  startDateOf e w =
  match currentWeekStart w with
  | Some start => start
  | None =>
      match nextCloseDate w with
      | None => getWeekStart (tz e) (now e)
      | Some nextClose =>
          if startOfDay (tz e) (now e) <? startOfDay (tz e) (addDays nextClose (-7))
          then startOfDay (tz e) (addDays nextClose (-7))
          else startOfDay (tz e) (now e)
      end
  end.
Proof.
  unfold startDateOf, valueOf, getCurrentWeekStartDate, getCurrentWeekStart,
    getNextCloseDate, bind, gets, ret.
  destruct (currentWeekStart w); [reflexivity |].
  destruct (nextCloseDate w); reflexivity.
Qed.

Lemma startDateOf_same e w w' :
  currentWeekStart w' = currentWeekStart w -> nextCloseDate w' = nextCloseDate w ->
  startDateOf e w' = startDateOf e w.
Proof. intros Hs Hn. rewrite !startDateOf_eq, Hs, Hn. reflexivity. Qed.

Lemma endDateOf_eq e w :
  endDateOf e w =
  match nextCloseDate w with
  | None => getWeekEnd (tz e) (now e)
  | Some nextClose =>
      if endOfDay (tz e) nextClose <? startDateOf e w
      then getWeekEnd (tz e) (startDateOf e w)
      else endOfDay (tz e) nextClose
  end.
Proof.
  pose proof (getCurrentWeekEndDate_run e w) as H.
  unfold getCurrentWeekEndDate in H.
  unfold bind at 1 in H. unfold getNextCloseDate at 1, gets at 1 in H.
  destruct (nextCloseDate w) as [n |].
  - rewrite (bind_ok _ (getCurrentWeekStartDate_run e w)) in H.
    destruct (endOfDay (tz e) n <? startDateOf e w); unfold ret in H; congruence.
  - unfold ret in H. congruence.
Qed.

Lemma endDateOf_same e w w' :
  currentWeekStart w' = currentWeekStart w -> nextCloseDate w' = nextCloseDate w ->
  endDateOf e w' = endDateOf e w.
Proof.
  intros Hs Hn. rewrite !endDateOf_eq, Hn, (startDateOf_same e w w' Hs Hn). reflexivity.
Qed.

(** The two ways of [getCurrentWeekId]: the stored identifier is valid, or
    the week is looked up by the start date and stored. *)
Lemma getCurrentWeekId_cases e w :
  (exists id, currentWeekId w = Some id /\ getCurrentWeekId e w = (Ok id, w)) \/
  getCurrentWeekId e w =
    (weekId <- getOrCreateWeekId e (startDateOf e w) ;;
     storageSet e CURRENT_WEEK_ID_KEY (with_currentWeekId (Some weekId)) ;;
     ret weekId) w.
Proof.
  assert (Hfall :
    (weekStart <- getCurrentWeekStartDate e ;;
     weekId <- getOrCreateWeekId e weekStart ;;
     storageSet e CURRENT_WEEK_ID_KEY (with_currentWeekId (Some weekId)) ;;
     ret weekId) w
    = (weekId <- getOrCreateWeekId e (startDateOf e w) ;;
       storageSet e CURRENT_WEEK_ID_KEY (with_currentWeekId (Some weekId)) ;;
       ret weekId) w).
  { rewrite (bind_ok _ (getCurrentWeekStartDate_run e w)). reflexivity. }
  remember (getCurrentWeekId e w) as r eqn:Hr.
  unfold getCurrentWeekId in Hr. unfold bind at 1 in Hr. unfold gets at 1 in Hr.
  destruct (currentWeekId w) as [stored |] eqn:Hstored.
  - destruct (Js.truthy stored).
    + unfold bind at 1 in Hr. unfold bind at 1 in Hr. unfold gets at 1 in Hr.
      destruct (getWeekStartDateById e stored w) as [ws |].
      * unfold bind at 1 in Hr. rewrite getCurrentWeekStartDate_run in Hr.
        unfold ret at 1 in Hr.
        destruct (ws =? startDateOf e w).
        -- left. exists stored. split; [reflexivity | exact Hr].
        -- right. rewrite Hr. exact Hfall.
      * unfold ret at 1 in Hr. right. rewrite Hr. exact Hfall.
    + unfold bind at 1 in Hr. unfold ret at 1 in Hr. right. rewrite Hr. exact Hfall.
  - unfold bind at 1 in Hr. unfold ret at 1 in Hr. right. rewrite Hr. exact Hfall.
Qed.

(** Asked again, [getCurrentWeekId] gives the same week and writes nothing. *)
Lemma getCurrentWeekId_again e w id w1 :
  Reliable e ->
  getCurrentWeekId e w = (Ok id, w1) -> getCurrentWeekId e w1 = (Ok id, w1).
Proof.
  intros Hrel H.
  destruct (getCurrentWeekId_cases e w) as [(id' & Hid & Hrun) | Hfall].
  - rewrite Hrun in H. inversion H; subst. exact Hrun.
  - rewrite Hfall in H.
    destruct (getOrCreateWeekId_found e (startDateOf e w) w (Hrel _))
      as (id2 & w2 & Hrun & Hfind).
    destruct (getOrCreateWeekId_keeps e _ w _ _ Hrun) as (_ & _ & Hn & Hs & _).
    rewrite (bind_ok _ Hrun), (bind_ok _ (storageSet_ok e _ _ _ (Hrel _))) in H.
    unfold ret in H. inversion H; subst id2 w1. clear H.
    set (w1 := with_currentWeekId (Some id) w2).
    assert (Hstart : startDateOf e w1 = startDateOf e w)
      by (apply startDateOf_same; [exact Hs | exact Hn]).
    destruct (getCurrentWeekId_cases e w1) as [(id' & Hid & Hrun1) | Hfall1].
    + simpl in Hid. inversion Hid; subst id'. exact Hrun1.
    + rewrite Hfall1, Hstart.
      assert (Hrun1 : getOrCreateWeekId e (startDateOf e w) w1 = (Ok id, w1)).
      { unfold getOrCreateWeekId, bind, getWeekIdMapping, gets.
        change (weekIdMapping w1) with (weekIdMapping w2). rewrite Hfind. reflexivity. }
      rewrite (bind_ok _ Hrun1), (bind_ok _ (storageSet_ok e _ _ _ (Hrel _))).
      reflexivity.
Qed.

Lemma getCurrentWeekId_steady e w id w1 :
  Unused e w -> getCurrentWeekId e w = (Ok id, w1) -> Steady e w w1.
Proof.
  intros Hun H.
  destruct (getCurrentWeekId_cases e w) as [(id' & Hid & Hrun) | Hfall].
  - rewrite Hrun in H. inversion H; subst. apply Steady_refl. exact Hun.
  - rewrite Hfall in H.
    destruct (getOrCreateWeekId_closed e (startDateOf e w) w Hun)
      as (id2 & w2 & Hrun & _ & Hst).
    rewrite (bind_ok _ Hrun) in H.
    unfold bind, storageSet, modify, ret in H.
    destruct (setItemOk e CURRENT_WEEK_ID_KEY); inversion H; subst; [| exact Hst].
    destruct Hst as (A & B & C & D & E & F).
    repeat split; auto; apply F.
Qed.

(** The first filter: the transactions of the current week and those that
    its period takes in. *)
Lemma byWeek_filter e w current start end_ :
  includes (closedWeeks w) current = false ->
  forall l wA, Steady e w wA ->
  exists wB,
    filterM (fun t =>
      if (tx_weekId t =? current)%string then
        closed <- isWeekClosed (tx_weekId t) ;;
        if closed then ret false else ret true
      else
        inClosed <- isTransactionInClosedWeek e t ;;
        if inClosed then ret false
        else if isDateInCurrentWeekPeriod (tz e) (tx_date t) start end_
        then
          again <- isTransactionInClosedWeek e t ;;
          if again then ret false else ret true
        else ret false) l wA
    = (Ok (filter (fun t =>
             (tx_weekId t =? current)%string ||
             (isDateInCurrentWeekPeriod (tz e) (tx_date t) start end_ &&
              negb (inClosedWeek e w t))) l), wB) /\
    Steady e w wB.
Proof.
  intros Hopen l. induction l as [| t l IH]; intros wA Hst.
  - exists wA. split; [reflexivity | exact Hst].
  - cbn [filterM filter].
    assert (Hstep : exists wM,
      (if (tx_weekId t =? current)%string then
         closed <- isWeekClosed (tx_weekId t) ;;
         if closed then ret false else ret true
       else
         inClosed <- isTransactionInClosedWeek e t ;;
         if inClosed then ret false
         else if isDateInCurrentWeekPeriod (tz e) (tx_date t) start end_
         then
           again <- isTransactionInClosedWeek e t ;;
           if again then ret false else ret true
         else ret false) wA
      = (Ok ((tx_weekId t =? current)%string ||
             (isDateInCurrentWeekPeriod (tz e) (tx_date t) start end_ &&
              negb (inClosedWeek e w t))), wM) /\ Steady e w wM).
    { destruct (String.eqb_spec (tx_weekId t) current) as [Heq | Hne].
      - exists wA. split; [| exact Hst].
        rewrite (bind_ok _ (isWeekClosed_run _ _)).
        destruct Hst as (_ & B & _). rewrite B, Heq, Hopen. reflexivity.
      - pose proof Hst as (_ & _ & _ & _ & _ & HunA).
        destruct (isTransactionInClosedWeek_spec e t wA HunA) as (wM & Hrun & HstM).
        rewrite (bind_ok _ Hrun), (inClosedWeek_steady e w wA t Hst).
        pose proof (Steady_trans e w wA wM Hst HstM) as HstM'.
        destruct (inClosedWeek e w t) eqn:Hin.
        + exists wM. split; [| exact HstM']. rewrite andb_false_r. reflexivity.
        + destruct (isDateInCurrentWeekPeriod (tz e) (tx_date t) start end_).
          * pose proof HstM' as (_ & _ & _ & _ & _ & HunM).
            destruct (isTransactionInClosedWeek_spec e t wM HunM) as (wN & Hrun2 & HstN).
            rewrite (bind_ok _ Hrun2), (inClosedWeek_steady e w wM t HstM'), Hin.
            exists wN. split; [reflexivity |].
            exact (Steady_trans e w wM wN HstM' HstN).
          * exists wM. split; [reflexivity | exact HstM']. }
    destruct Hstep as (wM & Hrun & HstM).
    rewrite (bind_ok _ Hrun).
    destruct (IH wM HstM) as (wB & HrunB & HstB).
    rewrite (bind_ok _ HrunB). exists wB. split; [| exact HstB].
    unfold ret.
    destruct ((tx_weekId t =? current)%string ||
              (isDateInCurrentWeekPeriod (tz e) (tx_date t) start end_ &&
               negb (inClosedWeek e w t))); reflexivity.
Qed.

(** The second filter keeps what the first one let through. *)
Lemma closedWeek_filter e w current :
  forall l wA, Steady e w wA ->
  exists wB,
    filterM (fun t =>
      if (tx_weekId t =? current)%string then ret true
      else
        inClosed <- isTransactionInClosedWeek e t ;;
        ret (negb inClosed)) l wA
    = (Ok (filter (fun t => (tx_weekId t =? current)%string || negb (inClosedWeek e w t)) l),
       wB) /\
    Steady e w wB.
Proof.
  induction l as [| t l IH]; intros wA Hst.
  - exists wA. split; [reflexivity | exact Hst].
  - cbn [filterM filter].
    assert (Hstep : exists wM,
      (if (tx_weekId t =? current)%string then ret true
       else
         inClosed <- isTransactionInClosedWeek e t ;;
         ret (negb inClosed)) wA
      = (Ok ((tx_weekId t =? current)%string || negb (inClosedWeek e w t)), wM)
      /\ Steady e w wM).
    { destruct (tx_weekId t =? current)%string.
      - exists wA. split; [reflexivity | exact Hst].
      - pose proof Hst as (_ & _ & _ & _ & _ & HunA).
        destruct (isTransactionInClosedWeek_spec e t wA HunA) as (wM & Hrun & HstM).
        rewrite (bind_ok _ Hrun), (inClosedWeek_steady e w wA t Hst).
        exists wM. split; [reflexivity | exact (Steady_trans e w wA wM Hst HstM)]. }
    destruct Hstep as (wM & Hrun & HstM).
    rewrite (bind_ok _ Hrun).
    destruct (IH wM HstM) as (wB & HrunB & HstB).
    rewrite (bind_ok _ HrunB). exists wB. split; [| exact HstB].
    unfold ret.
    destruct ((tx_weekId t =? current)%string || negb (inClosedWeek e w t)); reflexivity.
Qed.

Lemma filter_filter_implied A (p q : A -> bool) l :
  (forall x, p x = true -> q x = true) -> filter q (filter p l) = filter p l.
Proof.
  intros H. induction l as [| x l IH]; simpl; [reflexivity |].
  destruct (p x) eqn:Hp; [| exact IH].
  simpl. rewrite (H x Hp), IH. reflexivity.
Qed.

(** [getTransactionsByWeek] for the current week, on a store that already
    knows which week that is. *)
Lemma getTransactionsByWeek_current e w0 w current :
  Reliable e -> Steady e w0 w ->
  getCurrentWeekId e w = (Ok current, w) ->
  includes (closedWeeks w0) current = false ->
  exists w',
    getTransactionsByWeek e current w
    = (Ok (filter (inCurrentWeek e w0 current) (transactions w0)), w') /\
    Steady e w0 w'.
Proof.
  intros Hrel Hst Hcur Hopen.
  unfold getTransactionsByWeek.
  unfold bind at 1. unfold getAllTransactions at 1, gets at 1.
  rewrite (bind_ok _ Hcur), String.eqb_refl.
  rewrite (bind_ok _ (getCurrentWeekStartDate_run e w)).
  rewrite (bind_ok _ (getCurrentWeekEndDate_run e w)).
  pose proof Hst as (Ht & _ & Hn & Hs & _).
  rewrite (startDateOf_same e w0 w Hs Hn), (endDateOf_same e w0 w Hs Hn), Ht.
  exact (byWeek_filter e w0 current (startDateOf e w0) (endDateOf e w0) Hopen
           (transactions w0) w Hst).
Qed.

(** C6.  Whenever the current week is closed, [getCurrentWeekTransactions]
    returns the empty list; whenever it is open, it returns exactly the
    transactions whose week is the current week, plus every transaction
    whose date falls within the period of the current week and which does
    not belong to a closed week, judged by its own week and by the standard
    week of its date.  The storage takes every write and the identifiers yet
    to be generated are new. *)
Theorem getCurrentWeekTransactions_spec e w :
  Reliable e -> Unused e w ->
  let current := valueOf (getCurrentWeekId e) w ""%string in
  exists w',
    getCurrentWeekTransactions e w
    = (Ok (if includes (closedWeeks w) current then []
           else filter (inCurrentWeek e w current) (transactions w)), w').
Proof.
  intros Hrel Hun current.
  pose proof (getCurrentWeekId_total e w) as Hcur. fold current in Hcur.
  set (w1 := snd (getCurrentWeekId e w)) in *.
  pose proof (getCurrentWeekId_steady e w _ _ Hun Hcur) as Hst.
  pose proof Hst as (_ & Hc & _).
  unfold getCurrentWeekTransactions.
  rewrite (bind_ok _ Hcur), (bind_ok _ (isWeekClosed_run _ _)), Hc.
  destruct (includes (closedWeeks w) current) eqn:Hopen.
  - exists w1. reflexivity.
  - destruct (getTransactionsByWeek_current e w w1 current Hrel Hst
                (getCurrentWeekId_again e w _ _ Hrel Hcur) Hopen)
      as (w2 & Hrun & Hst2).
    rewrite (bind_ok _ Hrun).
    destruct (closedWeek_filter e w current
                (filter (inCurrentWeek e w current) (transactions w)) w2 Hst2)
      as (w3 & Hrun3 & _).
    rewrite Hrun3. exists w3. f_equal. f_equal.
    apply filter_filter_implied.
    intros t Ht. unfold inCurrentWeek in Ht.
    destruct (tx_weekId t =? current)%string; [reflexivity |].
    cbn [orb] in *. apply andb_true_iff in Ht. apply Ht.
Qed.

(** The theorem on the open week w0 with its three expenses: the expense
    of the week and the one dated within its period are returned, the one of
    20 May is not. *)
Lemma getCurrentWeekTransactions_spec_witness :
  exists w',
    getCurrentWeekTransactions (Scenario.browser (Scenario.at_ Scenario.jun04 10 0))
      Scenario.busyWeek
    = (Ok [Scenario.expense1; Scenario.expense2], w').
Proof.
  destruct (getCurrentWeekTransactions_spec
              (Scenario.browser (Scenario.at_ Scenario.jun04 10 0)) Scenario.busyWeek)
    as (w' & H).
  - intros k. reflexivity.
  - split; [apply browser_fresh; reflexivity | intros n _; reflexivity].
  - exists w'. exact H.
Defined.

(** ** The automatic close *)

(** When the schedule is disabled, or the weekday or the hour is not the
    scheduled one, [checkAndAutoCloseWeek] returns false and leaves the store
    as it was; when the current week is closed it returns false. *)
Lemma checkAndAutoCloseWeek_idle e w :
  let config := valueOf getAutoCloseConfig w defaultConfig in
  (enabled config = false -> checkAndAutoCloseWeek e w = (Ok false, w)) /\
  (getDay (tz e) (now e) <> dayOfWeek config \/ getHours (tz e) (now e) < hour config ->
   checkAndAutoCloseWeek e w = (Ok false, w)) /\
  (includes (closedWeeks w) (valueOf (getCurrentWeekId e) w ""%string) = true ->
   fst (checkAndAutoCloseWeek e w) = Ok false).
Proof.
  intros config.
  assert (Hcfg : getAutoCloseConfig w = (Ok config, w)) by reflexivity.
  split; [| split].
  - intros Hoff. unfold checkAndAutoCloseWeek.
    rewrite (bind_ok _ Hcfg), Hoff. reflexivity.
  - intros Hno. unfold checkAndAutoCloseWeek. rewrite (bind_ok _ Hcfg).
    destruct (enabled config); [| reflexivity]. cbn [negb].
    destruct Hno as [Hday | Hhour].
    + apply Z.eqb_neq in Hday. rewrite Hday. reflexivity.
    + apply Z.leb_gt in Hhour. rewrite Hhour, andb_false_r. reflexivity.
  - intros Hclosed. unfold checkAndAutoCloseWeek. rewrite (bind_ok _ Hcfg).
    destruct (enabled config); [| reflexivity]. cbn [negb].
    destruct (_ && _); [| reflexivity].
    pose proof (getCurrentWeekId_total e w) as Hcur.
    destruct (getCurrentWeekId_keeps e w _ _ Hcur) as (_ & Hc & _).
    rewrite (bind_ok _ Hcur), (bind_ok _ (isWeekClosed_run _ _)), Hc, Hclosed.
    reflexivity.
Qed.

(** C5 (what the code does).  On Sunday 9 June the week w0 is due at noon.
    The call of 12:30 closes it and returns true.  The call of 12:31, in the
    same matching hour, finds as the current week a week that is not closed,
    closes it as well and returns true.  The call of 12:32 returns false, yet
    it changes the stored identifier of the current week, which from then on
    is a closed week. *)
Theorem checkAndAutoCloseWeek_closes_twice :
  let e1 := Scenario.browser (Scenario.at_ Scenario.jun09 12 30) in
  let e2 := Scenario.browser (Scenario.at_ Scenario.jun09 12 31) in
  let e3 := Scenario.browser (Scenario.at_ Scenario.jun09 12 32) in
  exists w1 w2 w3,
    checkAndAutoCloseWeek e1 Scenario.openWeek = (Ok true, w1) /\
    closedWeeks w1 = ["w0"%string] /\
    checkAndAutoCloseWeek e2 w1 = (Ok true, w2) /\
    closedWeeks w2 = ["w0"%string; "week_z"%string] /\
    checkAndAutoCloseWeek e3 w2 = (Ok false, w3) /\
    currentWeekId w2 = Some "week_zz"%string /\
    currentWeekId w3 = Some "week_z"%string /\
    fst (isCurrentWeekClosed e3 w3) = Ok true.
Proof.
  cbv zeta.
  eexists _, _, _.
  split; [vm_compute; reflexivity |].
  split; [reflexivity |].
  split; [vm_compute; reflexivity |].
  split; [reflexivity |].
  split; [vm_compute; reflexivity |].
  split; [reflexivity |].
  split; [reflexivity |].
  vm_compute. reflexivity.
Qed.

(** ** The history of weeks *)

(** C7 (what the code does).  A transaction left by an earlier version of
    the application carries a week identifier that the mapping does not
    know.  The entry built for that week has the period of the standard week
    of the transaction, 19 to 25 May, found by the fallback, one transaction
    and a total of 5, but its start date stays the epoch, and the history
    drops it: the list is empty. *)
Theorem getWeeksHistory_drops_unmapped_week :
  let e := Scenario.browser (Scenario.at_ Scenario.jun04 10 0) in
  exists info w1 w2,
    weekInfo e "1716087600000" Scenario.legacy = (Ok info, w1) /\
    wi_period info = Some (Scenario.at_ 19862 0 0, Scenario.at_ 19869 0 0 - 1) /\
    wi_transactionCount info = 1%nat /\
    wi_total info = Js.Num (0 + 5) /\
    wi_weekStart info = 0 /\
    getWeeksHistory e 10 Scenario.legacy = (Ok [], w2).
Proof.
  cbv zeta. eexists _, _, _.
  split; [vm_compute; reflexivity |].
  split; [reflexivity |]. split; [reflexivity |]. split; [reflexivity |].
  split; [reflexivity |].
  vm_compute. reflexivity.
Qed.

(** *** What the history always satisfies *)

Lemma nothrow_ret A (a : A) : NoThrow (ret a).
Proof. intros w. exists a, w. reflexivity. Qed.

Lemma nothrow_gets A (f : World -> A) : NoThrow (gets f).
Proof. intros w. exists (f w), w. reflexivity. Qed.

Lemma nothrow_bind A B (m : M A) (f : A -> M B) :
  NoThrow m -> (forall a, NoThrow (f a)) -> NoThrow (bind m f).
Proof.
  intros Hm Hf w. destruct (Hm w) as (a & w1 & H1).
  destruct (Hf a w1) as (b & w2 & H2).
  exists b, w2. rewrite (bind_ok _ H1). exact H2.
Qed.

Lemma nothrow_storageSet e k f : NoThrow (storageSet e k f).
Proof. intros w. eexists _, _. reflexivity. Qed.

Lemma nothrow_getOrCreateWeekId e d : NoThrow (getOrCreateWeekId e d).
Proof.
  intros w. destruct (getOrCreateWeekId_run e d w) as (id & m & n & H).
  eexists _, _. exact H.
Qed.

Lemma nothrow_getCurrentWeekId e : NoThrow (getCurrentWeekId e).
Proof.
  intros w. destruct (getCurrentWeekId_run e w) as (id & m & c & n & H).
  eexists _, _. exact H.
Qed.

Lemma nothrow_filterM A (p : A -> M bool) l :
  (forall x, NoThrow (p x)) -> NoThrow (filterM p l).
Proof.
  intros Hp. induction l as [| x l IH]; simpl.
  - apply nothrow_ret.
  - apply nothrow_bind; [apply Hp |]. intros keep.
    apply nothrow_bind; [exact IH |]. intros rest. apply nothrow_ret.
Qed.

Lemma nothrow_mapM A B (f : A -> M B) l :
  (forall x, NoThrow (f x)) -> NoThrow (mapM f l).
Proof.
  intros Hf. induction l as [| x l IH]; simpl.
  - apply nothrow_ret.
  - apply nothrow_bind; [apply Hf |]. intros y.
    apply nothrow_bind; [exact IH |]. intros rest. apply nothrow_ret.
Qed.

Ltac nothrow :=
  repeat first
    [ apply nothrow_ret
    | apply nothrow_gets
    | apply nothrow_storageSet
    | apply nothrow_getOrCreateWeekId
    | apply nothrow_getCurrentWeekId
    | apply nothrow_filterM; intros ?
    | apply nothrow_mapM; intros ?
    | apply nothrow_bind; [| intros ?]
    | match goal with
      | |- NoThrow (if ?b then _ else _) => destruct b
      | |- NoThrow (match ?x with _ => _ end) => destruct x
      end ].

Lemma nothrow_weekInfo e id : NoThrow (weekInfo e id).
Proof.
  unfold weekInfo, getTransactionsByWeek, getAllTransactions, isWeekClosed,
    getClosedWeeks, isTransactionInClosedWeek, getCurrentWeekStartDate,
    getCurrentWeekEndDate, getCurrentWeekStart, getNextCloseDate, isWeekClosed,
    getClosedWeeks.
  nothrow.
Qed.

Lemma insertByStart_Forall (P : WeekInfo -> Prop) x l :
  P x -> Forall P l -> Forall P (insertByStart x l).
Proof.
  intros Hx Hl. induction Hl as [| y l Hy Hl IH]; simpl.
  - constructor; [exact Hx | constructor].
  - destruct (wi_weekStart x <=? wi_weekStart y).
    + constructor; [exact Hy | exact IH].
    + constructor; [exact Hx |]. constructor; [exact Hy | exact Hl].
Qed.

Lemma insertByStart_sorted x l :
  StronglySorted notEarlier l -> StronglySorted notEarlier (insertByStart x l).
Proof.
  intros Hl. induction Hl as [| y l Hsorted IH Hy]; simpl.
  - constructor; [constructor | constructor].
  - destruct (Z.leb_spec (wi_weekStart x) (wi_weekStart y)) as [Hle | Hgt].
    + constructor; [exact IH |].
      apply insertByStart_Forall; [exact Hle | exact Hy].
    + constructor; [constructor; [exact Hsorted | exact Hy] |].
      constructor.
      * unfold notEarlier. lia.
      * revert Hy. apply Forall_impl. unfold notEarlier. intros z Hz. lia.
Qed.

Lemma sortByStartDesc_sorted l : StronglySorted notEarlier (sortByStartDesc l).
Proof.
  unfold sortByStartDesc.
  assert (H : forall acc, StronglySorted notEarlier acc ->
            StronglySorted notEarlier (fold_left (fun acc x => insertByStart x acc) l acc)).
  { induction l as [| x l IH]; simpl; intros acc Hacc; [exact Hacc |].
    apply IH. apply insertByStart_sorted. exact Hacc. }
  apply H. constructor.
Qed.

Lemma sortByStartDesc_Forall (P : WeekInfo -> Prop) l :
  Forall P l -> Forall P (sortByStartDesc l).
Proof.
  unfold sortByStartDesc.
  assert (H : forall acc, Forall P acc -> Forall P l ->
            Forall P (fold_left (fun acc x => insertByStart x acc) l acc)).
  { induction l as [| x l IH]; simpl; intros acc Hacc Hl; [exact Hacc |].
    inversion Hl; subst. apply IH; [| assumption].
    apply insertByStart_Forall; assumption. }
  intros Hl. apply H; [constructor | exact Hl].
Qed.

Lemma firstn_Forall A (P : A -> Prop) n l : Forall P l -> Forall P (firstn n l).
Proof.
  intros H. revert n. induction H as [| x l Hx Hl IH]; intros [| n]; simpl;
    constructor; auto.
Qed.

Lemma firstn_sorted A (R : A -> A -> Prop) n l :
  StronglySorted R l -> StronglySorted R (firstn n l).
Proof.
  intros H. revert n. induction H as [| x l Hl IH Hx]; intros [| n]; simpl;
    try constructor; auto.
  apply firstn_Forall. exact Hx.
Qed.

(** X1.  Whatever the store, the history of a limit that is not negative has at
    most that many entries, in descending order of start date, and every
    entry has a start date after the epoch, which only a week known to the
    mapping has. *)
Lemma getWeeksHistory_bounded_sorted e limit w :
  0 <= limit ->
  exists weeks w',
    getWeeksHistory e limit w = (Ok weeks, w') /\
    (List.length weeks <= Z.to_nat limit)%nat /\
    StronglySorted notEarlier weeks /\
    Forall (fun info => 0 < wi_weekStart info) weeks.
Proof.
  intros Hlimit. unfold getWeeksHistory.
  unfold bind at 1. unfold getClosedWeeks at 1, gets at 1.
  unfold bind at 1. unfold getAllTransactions at 1, gets at 1.
  destruct (nothrow_mapM _ _ (weekInfo e)
              (addAll (addAll [] (closedWeeks w)) (map tx_weekId (transactions w)))
              (nothrow_weekInfo e) w) as (weeks & w' & Hrun).
  rewrite (bind_ok _ Hrun). unfold ret.
  eexists _, w'. split; [reflexivity |].
  unfold slice0.
  destruct (Z.ltb_spec limit 0) as [Hneg | _]; [lia |].
  split; [| split].
  - rewrite length_firstn. lia.
  - apply firstn_sorted. apply sortByStartDesc_sorted.
  - apply firstn_Forall. apply sortByStartDesc_Forall.
    apply Forall_forall. intros info Hin. apply filter_In in Hin.
    destruct Hin as [_ Hpos]. apply Z.ltb_lt. exact Hpos.
Qed.

End LedgerFacts.

(* ================================================================== *)
(** * Further properties of the calendar utility                       *)
(* ================================================================== *)

Module DatesRestFacts.
Import Dates DatesRest DatesFacts.

Lemma localDay_localMidnight tz k : localDay tz (k * DAY + tzms tz) = k.
Proof.
  unfold localDay. replace (k * DAY + tzms tz - tzms tz) with (k * DAY) by ring.
  apply Z.div_mul. discriminate.
Qed.

Lemma localDay_bounds tz t :
  localDay tz t * DAY + tzms tz <= t < (localDay tz t + 1) * DAY + tzms tz.
Proof.
  unfold localDay.
  pose proof (Z.div_mod (t - tzms tz) DAY ltac:(discriminate)).
  pose proof (Z.mod_pos_bound (t - tzms tz) DAY DAY_pos).
  lia.
Qed.

Lemma localDay_mono tz a b : a <= b -> localDay tz a <= localDay tz b.
Proof.
  intros H. unfold localDay. apply Z.div_le_mono; [reflexivity | lia].
Qed.

Lemma localDay_getWeekStart tz d :
  localDay tz (getWeekStart tz d) = localDay tz d - getDay tz d.
Proof.
  unfold getWeekStart. rewrite localDay_startOfDay, localDay_addDays. ring.
Qed.

Lemma getWeekStart_eq tz d :
  getWeekStart tz d = (localDay tz d - getDay tz d) * DAY + tzms tz.
Proof.
  unfold getWeekStart, startOfDay. rewrite localDay_addDays. ring.
Qed.

Lemma getDay_getWeekStart tz d : getDay tz (getWeekStart tz d) = 0.
Proof.
  unfold getDay at 1. rewrite localDay_getWeekStart. unfold getDay.
  replace (localDay tz d - (localDay tz d + 4) mod 7 + 4)
    with ((localDay tz d + 4) - (localDay tz d + 4) mod 7) by ring.
  rewrite Zminus_mod. rewrite Z.mod_mod by discriminate. rewrite Z.sub_diag. reflexivity.
Qed.

Lemma getWeekStart_midnight tz d :
  startOfDay tz (getWeekStart tz d) = getWeekStart tz d.
Proof. unfold getWeekStart. apply startOfDay_idem. Qed.

Lemma getWeekStart_bounds tz d :
  getWeekStart tz d <= d < addDays (getWeekStart tz d) 7.
Proof.
  rewrite getWeekStart_eq. unfold addDays.
  pose proof (localDay_bounds tz d). pose proof (getDay_range tz d).
  pose proof DAY_pos. nia.
Qed.

(** X2.  [getWeekStart] gives the Sunday of the week of a date: a Sunday, at
    local midnight, not after the date and less than seven days before it. *)
Theorem getWeekStart_sunday tz d :
  getDay tz (getWeekStart tz d) = 0 /\
  startOfDay tz (getWeekStart tz d) = getWeekStart tz d /\
  getWeekStart tz d <= d < addDays (getWeekStart tz d) 7.
Proof.
  split; [apply getDay_getWeekStart |].
  split; [apply getWeekStart_midnight | apply getWeekStart_bounds].
Qed.

Lemma getWeekStart_same_iff tz d t :
  getWeekStart tz t = getWeekStart tz d <->
  getWeekStart tz d <= t < addDays (getWeekStart tz d) 7.
Proof.
  split.
  - intros E. rewrite <- E. apply getWeekStart_bounds.
  - intros Ht.
    pose proof (getDay_getWeekStart tz d) as Hsun.
    rewrite (getWeekStart_eq tz d) in Ht, Hsun |- *.
    set (K := localDay tz d - getDay tz d) in *.
    unfold getDay in Hsun. rewrite localDay_localMidnight in Hsun.
    unfold addDays in Ht.
    pose proof (localDay_bounds tz t) as Hb. pose proof DAY_pos.
    assert (HK : K <= localDay tz t <= K + 6) by nia.
    rewrite getWeekStart_eq. f_equal. f_equal.
    assert (Hg : getDay tz t = localDay tz t - K).
    { unfold getDay.
      replace (localDay tz t + 4) with ((localDay tz t - K) + (K + 4)) by ring.
      rewrite Z.add_mod, Hsun, Z.add_0_r, Z.mod_mod by discriminate.
      apply Z.mod_small. lia. }
    rewrite Hg. ring.
Qed.

Lemma getWeekEnd_eq tz d : getWeekEnd tz d = addDays (getWeekStart tz d) 7 - 1.
Proof.
  unfold getWeekEnd, endOfDay, startOfDay.
  rewrite localDay_addDays, localDay_getWeekStart, getWeekStart_eq.
  unfold addDays. ring.
Qed.

(** X3.  The weeks partition time: an instant has the same week start as a date
    exactly when it lies between the week start and the week end of the
    date, both included. *)
Theorem getWeekStart_same_week tz d t :
  getWeekStart tz t = getWeekStart tz d <->
  getWeekStart tz d <= t <= getWeekEnd tz d.
Proof.
  rewrite getWeekStart_same_iff, getWeekEnd_eq. lia.
Qed.

(** X4.  [getWeekEnd] gives the last millisecond of the Saturday of the week:
    one millisecond short of seven days after the week start, never before
    the date, on the Saturday that is [6 - getDay] days after the date. *)
Theorem getWeekEnd_saturday tz d :
  getWeekEnd tz d = addDays (getWeekStart tz d) 7 - 1 /\
  getDay tz (getWeekEnd tz d) = 6 /\
  localDay tz (getWeekEnd tz d) = localDay tz d + (6 - getDay tz d) /\
  d <= getWeekEnd tz d.
Proof.
  pose proof (getWeekEnd_eq tz d) as E.
  assert (L : localDay tz (getWeekEnd tz d) = localDay tz d + (6 - getDay tz d)).
  { unfold getWeekEnd, endOfDay, localDay at 1.
    replace (startOfDay tz (addDays (getWeekStart tz d) 6) + DAY - 1 - tzms tz)
      with ((DAY - 1) + localDay tz (addDays (getWeekStart tz d) 6) * DAY)
      by (unfold startOfDay; ring).
    rewrite Z.div_add by discriminate.
    rewrite localDay_addDays, localDay_getWeekStart.
    replace ((DAY - 1) / DAY) with 0 by reflexivity. ring. }
  split; [exact E |]. split; [| split; [exact L |]].
  - unfold getDay at 1. rewrite L.
    pose proof (getDay_getWeekStart tz d) as Hsun.
    unfold getDay in Hsun at 1. rewrite localDay_getWeekStart in Hsun.
    replace (localDay tz d + (6 - getDay tz d) + 4)
      with (6 + (localDay tz d - getDay tz d + 4)) by ring.
    rewrite Z.add_mod, Hsun by discriminate. reflexivity.
  - rewrite E. pose proof (getWeekStart_bounds tz d) as Hin. lia.
Qed.

Lemma startOfDay_le_iff tz a b :
  startOfDay tz a <= startOfDay tz b <-> localDay tz a <= localDay tz b.
Proof. unfold startOfDay. pose proof DAY_pos as Hd. split; intros H; nia. Qed.

(** X5.  [isDateInCurrentWeekPeriod] compares days only: it holds exactly when
    the day of the date is not before the day of the start nor after the day
    of the end, whatever the times of day. *)
Theorem isDateInCurrentWeekPeriod_days tz date weekStart weekEnd :
  isDateInCurrentWeekPeriod tz date weekStart weekEnd = true <->
  localDay tz weekStart <= localDay tz date <= localDay tz weekEnd.
Proof.
  unfold isDateInCurrentWeekPeriod. rewrite andb_true_iff, !Z.leb_le.
  rewrite startOfDay_le_iff. unfold endOfDay, startOfDay.
  pose proof DAY_pos. split; intros [H1 H2]; split; try assumption; nia.
Qed.

(** X6.  [getNextSundayAfter] is [getNextDayOfWeekAfter] asked for Sunday. *)
Theorem getNextSundayAfter_is_next_day_of_week tz d :
  getNextSundayAfter tz d = getNextDayOfWeekAfter tz d 0.
Proof.
  unfold getNextSundayAfter, getNextDayOfWeekAfter.
  pose proof (getDay_range tz d) as Hg.
  destruct (Z.eqb_spec (getDay tz d) 0) as [E | NE].
  - rewrite E. reflexivity.
  - destruct (Z.leb_spec (0 - getDay tz d) 0); [| lia].
    f_equal. f_equal. ring.
Qed.

Lemma noon_idem tz t : noon tz (noon tz t) = noon tz t.
Proof.
  unfold noon at 1. unfold startOfDay at 1. rewrite localDay_noon. reflexivity.
Qed.

(** X7.  [getNextSunday] falls at noon on the first Sunday that is not before
    the day of the date: the day of the date itself when it is a Sunday. *)
Theorem getNextSunday_least tz d :
  let r := getNextSunday tz d in
  getDay tz r = 0 /\
  r = noon tz r /\
  localDay tz d <= localDay tz r /\
  (forall t, localDay tz d <= localDay tz t -> getDay tz t = 0 ->
             localDay tz r <= localDay tz t) /\
  (getDay tz d = 0 -> localDay tz r = localDay tz d).
Proof.
  intros r. pose proof (getDay_range tz d) as Hg.
  assert (L : localDay tz r = localDay tz d + (if getDay tz d =? 0 then 0 else 7 - getDay tz d)).
  { unfold r, getNextSunday. rewrite localDay_noon, localDay_addDays. reflexivity. }
  assert (S0 : getDay tz r = 0).
  { unfold getDay at 1. rewrite L.
    destruct (Z.eqb_spec (getDay tz d) 0) as [E | NE].
    - rewrite Z.add_0_r. exact E.
    - unfold getDay.
      replace (localDay tz d + (7 - (localDay tz d + 4) mod 7) + 4)
        with ((localDay tz d + 4) - (localDay tz d + 4) mod 7 + 1 * 7) by ring.
      rewrite Z.mod_add by discriminate.
      rewrite Zminus_mod. rewrite Z.mod_mod by discriminate. rewrite Z.sub_diag. reflexivity. }
  split; [exact S0 |]. split.
  - unfold r, getNextSunday. symmetry. apply noon_idem.
  - split; [| split].
    + rewrite L. destruct (getDay tz d =? 0); lia.
    + intros t Ht Hsun. rewrite L.
      destruct (Z.eqb_spec (getDay tz d) 0) as [E | NE]; [lia |].
      destruct (Z_lt_le_dec (localDay tz t) (localDay tz d + (7 - getDay tz d)))
        as [Hlt | Hge]; [| lia].
      exfalso. set (j := localDay tz t - localDay tz d).
      assert (Hj : 0 <= j < 7 - getDay tz d) by (unfold j; lia).
      assert (E : getDay tz t = getDay tz d + j).
      { rewrite <- (Z.mod_small (getDay tz d + j) 7) by lia.
        rewrite <- getDay_shift. unfold getDay, j. f_equal. ring. }
      lia.
    + intros E. rewrite L, E. simpl. ring.
Qed.

(** X8.  With a next close date, [getCurrentWeekStart] gives a local midnight
    that is never before today and that, unless it is today, comes before the
    day of the next close. *)
Theorem getCurrentWeekStart_bounds tz now nextClose lastClose :
  let r := getCurrentWeekStart tz now (Some nextClose) lastClose in
  startOfDay tz now <= r /\
  startOfDay tz r = r /\
  (startOfDay tz now < r -> r < startOfDay tz nextClose).
Proof.
  intros r. unfold r, getCurrentWeekStart.
  assert (Hback : startOfDay tz (addDays (startOfDay tz nextClose) (-7))
                  < startOfDay tz nextClose).
  { rewrite LedgerFacts.startOfDay_addDays. unfold addDays. pose proof DAY_pos. lia. }
  destruct lastClose as [last |].
  - destruct (Z.leb_spec (startOfDay tz nextClose)
                (startOfDay tz (addDays (startOfDay tz last) 7))) as [Hle | Hgt].
    + destruct (Z.ltb_spec (startOfDay tz now)
                  (startOfDay tz (addDays (startOfDay tz nextClose) (-7)))).
      * split; [lia |]. split; [apply startOfDay_idem | intros _; exact Hback].
      * split; [lia |]. split; [apply startOfDay_idem | lia].
    + destruct (Z.ltb_spec (startOfDay tz now)
                  (startOfDay tz (addDays (startOfDay tz last) 7))).
      * split; [lia |]. split; [apply startOfDay_idem | intros _; exact Hgt].
      * split; [lia |]. split; [apply startOfDay_idem | lia].
  - destruct (Z.ltb_spec (startOfDay tz now)
                (startOfDay tz (addDays (startOfDay tz nextClose) (-7)))).
    + split; [lia |]. split; [apply startOfDay_idem | intros _; exact Hback].
    + split; [lia |]. split; [apply startOfDay_idem | lia].
Qed.

End DatesRestFacts.

(* ================================================================== *)
(** * Properties of the texts of dates                                 *)
(* ================================================================== *)

Module CalendarFacts.
Import Dates DatesRest DatesFacts DatesRestFacts CalendarChecks.

Lemma upFrom_spec n f : forall z0,
  upFrom z0 n f = true -> forall z, z0 <= z < z0 + Z.of_nat n -> f z = true.
Proof.
  induction n as [| n IH]; intros z0 H z Hz; [lia |].
  simpl in H. apply andb_true_iff in H. destruct H as [Hhere Hrest].
  destruct (Z.eq_dec z z0) as [-> | Hne]; [exact Hhere |].
  apply (IH (z0 + 1) Hrest). lia.
Qed.

Lemma upTo_spec n f z : upTo n f = true -> 0 <= z < n -> f z = true.
Proof.
  unfold upTo. intros H Hz. apply (upFrom_spec _ _ _ H).
  rewrite Z2Nat.id by lia. lia.
Qed.

Lemma twoDigits_checked : upTo 100 twoDigitsOk = true.
Proof. vm_compute. reflexivity. Qed.

Lemma fourDigits_checked : upTo 10000 fourDigitsOk = true.
Proof. vm_compute. reflexivity. Qed.

(** ** The fields of a day number *)

Lemma isLeap_shift y k : Js.isLeap (y + k * 400) = Js.isLeap y.
Proof.
  unfold Js.isLeap.
  replace (y + k * 400) with (y + (k * 100) * 4) at 1 by ring.
  replace (y + k * 400) with (y + (k * 4) * 100) at 1 by ring.
  rewrite !Z.mod_add by discriminate. reflexivity.
Qed.

(** The year of the era of a day of the era, and the day of that year; a
    year of 366 days ends in February of a leap year. *)
Lemma day_of_era doe :
  0 <= doe < 146097 ->
  let yoe := (doe - doe / 1460 + doe / 36524 - doe / 146096) / 365 in
  let doy := doe - (365 * yoe + yoe / 4 - yoe / 100) in
  0 <= yoe <= 399 /\ 0 <= doy <= 365 /\ (doy = 365 -> Js.isLeap (yoe + 1) = true).
Proof.
  intros H. cbv zeta. split; [| split].
  - Z.to_euclidean_division_equations; lia.
  - Z.to_euclidean_division_equations; lia.
  - intros Hlast. unfold Js.isLeap.
    rewrite orb_true_iff, andb_true_iff, negb_true_iff, !Z.eqb_eq, Z.eqb_neq.
    Z.to_euclidean_division_equations; lia.
Qed.

(** The month and the day of the month of a day of a year that starts in
    March. *)
Lemma day_of_year doy :
  0 <= doy <= 365 ->
  let mp := (5 * doy + 2) / 153 in
  let d := doy - (153 * mp + 2) / 5 + 1 in
  let m := if mp <? 10 then mp + 3 else mp - 9 in
  0 <= mp <= 11 /\ 1 <= m <= 12 /\ 1 <= d <= 31 /\
  (m = 4 \/ m = 6 \/ m = 9 \/ m = 11 -> d <= 30) /\
  (m = 2 -> d <= 29 /\ (d = 29 -> doy = 365)).
Proof.
  intros H. cbv zeta.
  destruct (Z.ltb_spec ((5 * doy + 2) / 153) 10);
    repeat split; intros; Z.to_euclidean_division_equations; lia.
Qed.

(** The fields of a day number name a day of the calendar, and that day is
    the day number. *)
Lemma civilFromDays_valid n :
  let '(y, m, d) := civilFromDays n in
  1 <= m <= 12 /\ 1 <= d <= Js.daysInMonth y m /\ Js.daysFromCivil y m d = n.
Proof.
  unfold civilFromDays.
  set (z := n + 719468). set (era := z / 146097). set (doe := z - era * 146097).
  assert (Hdoe : 0 <= doe < 146097).
  { unfold doe, era. pose proof (Z.div_mod z 146097 ltac:(discriminate)).
    pose proof (Z.mod_pos_bound z 146097 eq_refl). lia. }
  cbv zeta.
  destruct (day_of_era doe Hdoe) as (Hyoe & Hdoy & Hleap). cbv zeta in Hyoe, Hdoy, Hleap.
  set (yoe := (doe - doe / 1460 + doe / 36524 - doe / 146096) / 365) in *.
  set (doy := doe - (365 * yoe + yoe / 4 - yoe / 100)) in *.
  destruct (day_of_year doy Hdoy) as (Hmp & Hm & Hd & H30 & H29). cbv zeta in Hmp, Hm, Hd, H30, H29.
  set (mp := (5 * doy + 2) / 153) in *.
  set (d := doy - (153 * mp + 2) / 5 + 1) in *.
  set (m := if mp <? 10 then mp + 3 else mp - 9) in *.
  assert (Hback : forall y, (if m <=? 2 then y - 1 else y) = yoe + era * 400 ->
                            Js.daysFromCivil y m d = n).
  { intros y Hy. unfold Js.daysFromCivil. rewrite Hy. cbv zeta.
    rewrite Z.div_add, (Z.div_small yoe 400) by lia.
    replace (yoe + era * 400 - (0 + era) * 400) with yoe by ring.
    replace (if 2 <? m then m - 3 else m + 9) with mp
      by (unfold m; destruct (Z.ltb_spec mp 10);
          [destruct (Z.ltb_spec 2 (mp + 3)) | destruct (Z.ltb_spec 2 (mp - 9))]; lia).
    unfold d, doy, doe, z. ring. }
  split; [exact Hm |].
  destruct (Z.leb_spec m 2) as [Hearly | Hlate].
  - split; [| apply Hback; destruct (Z.leb_spec m 2); lia].
    split; [lia |]. unfold Js.daysInMonth.
    destruct (Z.eqb_spec m 2) as [E | NE].
    + destruct (H29 E) as (Hle & Hlast).
      replace (yoe + era * 400 + 1) with (yoe + 1 + era * 400) by ring.
      rewrite isLeap_shift.
      destruct (Js.isLeap (yoe + 1)) eqn:El; [lia |].
      destruct (Z.eq_dec d 29) as [E29 | N29]; [| lia].
      discriminate (Hleap (Hlast E29)).
    + replace ((m =? 4) || (m =? 6) || (m =? 9) || (m =? 11)) with false; [lia |].
      symmetry. rewrite !orb_false_iff, !Z.eqb_neq. lia.
  - split; [| apply Hback; destruct (Z.leb_spec m 2); lia].
    split; [lia |]. unfold Js.daysInMonth.
    destruct (Z.eqb_spec m 2) as [E | NE]; [lia |].
    destruct ((m =? 4) || (m =? 6) || (m =? 9) || (m =? 11)) eqn:Eshort; [| lia].
    apply H30. rewrite !orb_true_iff, !Z.eqb_eq in Eshort. tauto.
Qed.

(** ** The texts of the fields *)

Lemma twoDigits_text v :
  0 <= v < 100 ->
  exists a b, padStart0 2 (numberToString v) = String a (String b EmptyString) /\
              Js.digits 0 [a; b] = Some v.
Proof.
  intros Hv. pose proof (upTo_spec 100 _ v twoDigits_checked Hv) as Hok.
  unfold twoDigitsOk in Hok.
  remember (padStart0 2 (numberToString v)) as s eqn:Es. clear Es.
  destruct (list_ascii_of_string s) as [| a [| b [| c l]]] eqn:El; try discriminate Hok.
  destruct (Js.digits 0 [a; b]) as [r |] eqn:Ed; [| discriminate Hok].
  apply Z.eqb_eq in Hok. subst r.
  exists a, b. split; [| exact Ed].
  rewrite <- (string_of_list_ascii_of_string s), El. reflexivity.
Qed.

Lemma fourDigits_text y :
  1000 <= y <= 9999 ->
  exists a b c d,
    numberToString y = String a (String b (String c (String d EmptyString))) /\
    Js.digits 0 [a; b; c; d] = Some y.
Proof.
  intros Hy. pose proof (upTo_spec 10000 _ y fourDigits_checked ltac:(lia)) as Hok.
  unfold fourDigitsOk in Hok.
  destruct (Z.ltb_spec y 1000) as [Hlt | _]; [lia |]. cbn [orb] in Hok.
  remember (numberToString y) as s eqn:Es. clear Es.
  destruct (list_ascii_of_string s) as [| a [| b [| c [| d [| x l]]]]] eqn:El;
    try discriminate Hok.
  destruct (Js.digits 0 [a; b; c; d]) as [r |] eqn:Ed; [| discriminate Hok].
  apply Z.eqb_eq in Hok. subst r.
  exists a, b, c, d. split; [| exact Ed].
  rewrite <- (string_of_list_ascii_of_string s), El. reflexivity.
Qed.

Lemma daysInMonth_le y m : Js.daysInMonth y m <= 31.
Proof.
  unfold Js.daysInMonth.
  destruct (m =? 2); [destruct (Js.isLeap y); lia |].
  destruct (_ || _); lia.
Qed.

(** The text that [formatDateForInput] gives for a date of a year of four
    digits, and the day it names. *)
Lemma formatDateForInput_text tz t :
  1000 <= getFullYear tz t <= 9999 ->
  exists y1 y2 y3 y4 m1 m2 d1 d2,
    formatDateForInput tz t
    = String y1 (String y2 (String y3 (String y4 (String "-"
        (String m1 (String m2 (String "-"
          (String d1 (String d2 EmptyString))))))))) /\
    Js.parseIsoDay (formatDateForInput tz t) = Some (localDay tz t).
Proof.
  intros Hy. unfold formatDateForInput, getFullYear, getMonth, getDate in *.
  pose proof (civilFromDays_valid (localDay tz t)) as Hvalid.
  destruct (civilFromDays (localDay tz t)) as [[y m] d].
  cbn [fst snd] in *. destruct Hvalid as (Hm & Hd & Hday).
  pose proof (daysInMonth_le y m) as Hle.
  destruct (fourDigits_text y Hy) as (y1 & y2 & y3 & y4 & Ey & Dy).
  destruct (twoDigits_text m ltac:(lia)) as (m1 & m2 & Em & Dm).
  destruct (twoDigits_text d ltac:(lia)) as (d1 & d2 & Ed & Dd).
  replace (m - 1 + 1) with m by ring.
  rewrite Ey, Em, Ed.
  exists y1, y2, y3, y4, m1, m2, d1, d2. split; [reflexivity |].
  unfold Js.parseIsoDay.
  cbn [list_ascii_of_string append].
  rewrite Dy, Dm, Dd.
  destruct Hm as [Hm1 Hm2]. destruct Hd as [Hd1 Hd2].
  apply Z.leb_le in Hm1, Hm2, Hd1, Hd2. rewrite Hm1, Hm2, Hd1, Hd2.
  cbn [andb]. rewrite Hday. reflexivity.
Qed.

Lemma formatDateForInput_midnight tz t :
  1000 <= getFullYear tz t <= 9999 ->
  Js.parseIsoDateTime tz (formatDateForInput tz t ++ "T00:00:00")
  = Some (startOfDay tz t).
Proof.
  intros Hy.
  destruct (formatDateForInput_text tz t Hy)
    as (y1 & y2 & y3 & y4 & m1 & m2 & d1 & d2 & Etext & Hday).
  unfold Js.parseIsoDateTime. rewrite Etext in *.
  cbn [append String.length substring Nat.eqb String.eqb Ascii.eqb Bool.eqb andb].
  rewrite Hday.
  cbn [list_ascii_of_string Js.digits].
  change (Js.digit "0") with (Some 0). cbv beta iota.
  change ((0 * 10 + 0) * 10 + 0) with 0. cbv beta iota.
  change ((0 <=? 23) && (0 <=? 59) && (0 <=? 59)) with true. cbv beta iota.
  unfold localMidnight, startOfDay. f_equal. ring.
Qed.

(** X9.  For a date of a year of four digits, [formatDateForInput] gives a
    text of ten characters, [yyyy-mm-dd], that names the local day of the
    date, and the text is read back by [parseDate], which appends
    [T00:00:00], as the local midnight of that day. *)
Theorem formatDateForInput_parseDate tz t :
  1000 <= getFullYear tz t <= 9999 ->
  String.length (formatDateForInput tz t) = 10%nat /\
  Js.parseIsoDay (formatDateForInput tz t) = Some (localDay tz t) /\
  Js.parseIsoDateTime tz (formatDateForInput tz t ++ "T00:00:00")
  = Some (startOfDay tz t).
Proof.
  intros Hy.
  destruct (formatDateForInput_text tz t Hy)
    as (y1 & y2 & y3 & y4 & m1 & m2 & d1 & d2 & Etext & Hday).
  split; [rewrite Etext; reflexivity |].
  split; [exact Hday | exact (formatDateForInput_midnight tz t Hy)].
Qed.

(** The theorem at Tuesday 4 June 2024, 10:00, three hours behind UTC. *)
Lemma formatDateForInput_parseDate_witness :
  formatDateForInput 180 1717506000000 = "2024-06-04"%string /\
  Js.parseIsoDateTime 180 (formatDateForInput 180 1717506000000 ++ "T00:00:00")
  = Some 1717470000000.
Proof.
  split; [reflexivity |].
  apply (formatDateForInput_parseDate 180 1717506000000).
  split; vm_compute; discriminate.
Defined.

Lemma formatDateForInput_nonempty tz t :
  1000 <= getFullYear tz t <= 9999 -> formatDateForInput tz t <> ""%string.
Proof.
  intros Hy.
  destruct (formatDateForInput_text tz t Hy)
    as (y1 & y2 & y3 & y4 & m1 & m2 & d1 & d2 & Etext & _).
  rewrite Etext. discriminate.
Qed.

(** ** The week identifiers of the calendar utility *)

Lemma leadingDigits_acc u : forall p,
  leadingDigits 10 (Some (Z.pos p)) (NilEmpty.string_of_uint u)
  = Some (Z.pos (Pos.of_uint_acc u p)).
Proof.
  induction u; intros p; cbn [NilEmpty.string_of_uint Pos.of_uint_acc leadingDigits];
    [reflexivity | ..];
    match goal with
    | |- context [digitOfRadix 10 ?c] =>
        let v := eval vm_compute in (digitOfRadix 10 c) in
        change (digitOfRadix 10 c) with v
    end; cbv iota beta;
    match goal with
    | |- leadingDigits 10 (Some ?a) _ = Some (Z.pos (Pos.of_uint_acc _ ?q)) =>
        replace a with (Z.pos q) by lia
    end; apply IHu.
Qed.

Lemma leadingDigits_zero u :
  leadingDigits 10 (Some 0) (NilEmpty.string_of_uint u) = Some (Z.of_N (Pos.of_uint u)).
Proof.
  induction u; cbn [NilEmpty.string_of_uint Pos.of_uint leadingDigits];
    [reflexivity | ..];
    match goal with
    | |- context [digitOfRadix 10 ?c] =>
        let v := eval vm_compute in (digitOfRadix 10 c) in
        change (digitOfRadix 10 c) with v
    end; cbv iota beta;
    [exact IHu | ..];
    match goal with
    | |- leadingDigits 10 (Some ?a) _ = Some (Z.of_N (N.pos (Pos.of_uint_acc _ ?q))) =>
        change a with (Z.pos q)
    end; apply leadingDigits_acc.
Qed.

(** The digits that write a number are read back as the number. *)
Lemma parseDigits_string_of_uint u :
  u <> Decimal.Nil ->
  parseDigits (NilEmpty.string_of_uint u) = Some (Z.of_N (Pos.of_uint u)) /\
  Js.trimStart (NilEmpty.string_of_uint u) = NilEmpty.string_of_uint u /\
  parseInt (NilEmpty.string_of_uint u) = Some (Z.of_N (Pos.of_uint u)).
Proof.
  intros Hu.
  assert (H10 : leadingDigits 10 None (NilEmpty.string_of_uint u)
                = Some (Z.of_N (Pos.of_uint u))).
  { rewrite <- leadingDigits_zero. destruct u; [congruence | ..]; reflexivity. }
  assert (Hd : parseDigits (NilEmpty.string_of_uint u) = Some (Z.of_N (Pos.of_uint u))).
  { rewrite <- H10. destruct u; [congruence | ..]; try reflexivity.
    destruct u; reflexivity. }
  assert (Ht : Js.trimStart (NilEmpty.string_of_uint u) = NilEmpty.string_of_uint u).
  { destruct u; [congruence | ..]; reflexivity. }
  split; [exact Hd |]. split; [exact Ht |].
  unfold parseInt. rewrite Ht, <- Hd.
  destruct u; [congruence | ..]; reflexivity.
Qed.

Lemma parseInt_numberToString z : parseInt (numberToString z) = Some z.
Proof.
  unfold numberToString. destruct z as [| p | p]; [reflexivity | |].
  - unfold Z.to_int, NilZero.string_of_int, NilZero.string_of_uint.
    pose proof (DecimalPos.Unsigned.to_uint_nonnil p) as Hnil.
    pose proof (DecimalPos.Unsigned.of_to p) as Hback.
    destruct (parseDigits_string_of_uint (Pos.to_uint p) Hnil) as (_ & _ & H).
    destruct (Pos.to_uint p); [congruence | ..]; rewrite H, Hback; reflexivity.
  - unfold Z.to_int, NilZero.string_of_int, NilZero.string_of_uint.
    pose proof (DecimalPos.Unsigned.to_uint_nonnil p) as Hnil.
    pose proof (DecimalPos.Unsigned.of_to p) as Hback.
    destruct (parseDigits_string_of_uint (Pos.to_uint p) Hnil) as (H & _ & _).
    unfold parseInt.
    match goal with
    | |- context [Js.trimStart (String "-" ?rest)] =>
        change (Js.trimStart (String "-" rest)) with (String "-" rest)
    end.
    cbv iota.
    destruct (Pos.to_uint p); [congruence | ..]; rewrite H, Hback; reflexivity.
Qed.

Lemma getWeekStart_idem tz d : getWeekStart tz (getWeekStart tz d) = getWeekStart tz d.
Proof.
  apply getWeekStart_same_iff. unfold addDays. pose proof DAY_pos. lia.
Qed.

(** X10.  The week identifiers of the calendar utility.  [getWeekId] names
    a week by the time value of its Sunday, and [isDateInWeek] reads the name
    back: a date is in the week named for another date exactly when both
    have the same week start. *)
Theorem isDateInWeek_getWeekId tz d t :
  Z.abs (getWeekStart tz d) <= 8640000000000000 ->
  parseInt (getWeekId tz d) = Some (getWeekStart tz d) /\
  (isDateInWeek tz t (getWeekId tz d) = true <->
   getWeekStart tz t = getWeekStart tz d).
Proof.
  intros Hrange. unfold isDateInWeek, getWeekId.
  rewrite parseInt_numberToString. split; [reflexivity |].
  unfold dateOfNumber. apply Z.leb_le in Hrange. rewrite Hrange.
  rewrite andb_true_iff, !Z.leb_le, getWeekStart_same_iff, !getWeekEnd_eq,
    getWeekStart_idem.
  lia.
Qed.

(** The theorem for the week of Tuesday 4 June 2024: Saturday 8 June is in
    it. *)
Lemma isDateInWeek_getWeekId_witness :
  getWeekId 180 1717506000000 = "1717297200000"%string /\
  isDateInWeek 180 1717851600000 (getWeekId 180 1717506000000) = true.
Proof.
  split; [reflexivity |].
  apply (isDateInWeek_getWeekId 180 1717506000000 1717851600000).
  - vm_compute. discriminate.
  - reflexivity.
Defined.

End CalendarFacts.

(* ================================================================== *)
(** * Further properties of the week ledger: the transactions          *)
(* ================================================================== *)

Module JournalFacts.
Import Dates Finance LedgerSpec LedgerFacts.
Local Open Scope ledger_scope.

(** ** Removing a transaction *)

Lemma filter_shorter A (p : A -> bool) l :
  (List.length (filter p l) <? List.length l)%nat = existsb (fun x => negb (p x)) l.
Proof.
  induction l as [| x l IH]; [reflexivity |].
  simpl. destruct (p x); simpl.
  - exact IH.
  - apply Nat.ltb_lt. pose proof (filter_length_le p l). lia.
Qed.

Lemma existsb_id_match id l :
  existsb (fun t => negb (negb (tx_id t =? id)%string)) l
  = existsb (fun t => (tx_id t =? id)%string) l.
Proof.
  induction l as [| t l IH]; simpl; [reflexivity |].
  rewrite negb_involutive, IH. reflexivity.
Qed.

Lemma filter_all_kept A (p : A -> bool) l :
  (forall x, In x l -> p x = true) -> filter p l = l.
Proof.
  intros H. induction l as [| x l IH]; simpl; [reflexivity |].
  rewrite (H x (or_introl eq_refl)), IH; [reflexivity |].
  intros y Hy. apply H. right. exact Hy.
Qed.

Lemma removeTransaction_run e id w :
  setItemOk e FINANCE_STORAGE_KEY = true ->
  removeTransaction e id w
  = (Ok (existsb (fun t => (tx_id t =? id)%string) (transactions w)),
     with_transactions
       (filter (fun t => negb (tx_id t =? id)%string) (transactions w)) w).
Proof.
  intros Hok. unfold removeTransaction, bind, getAllTransactions, gets, ret.
  rewrite (storageSet_ok e _ _ _ Hok), filter_shorter, existsb_id_match.
  reflexivity.
Qed.

(** X11.  On a storage that takes the write, [removeTransaction] returns
    whether some transaction carried the identifier, and leaves exactly the
    transactions that do not carry it, in their order, the rest of the store
    being as it was; a second removal of the same identifier returns false
    and changes nothing. *)
Theorem removeTransaction_spec e id w :
  Reliable e ->
  let had := existsb (fun t => (tx_id t =? id)%string) (transactions w) in
  let w' := with_transactions
              (filter (fun t => negb (tx_id t =? id)%string) (transactions w)) w in
  removeTransaction e id w = (Ok had, w') /\
  (forall t, In t (transactions w') <-> In t (transactions w) /\ tx_id t <> id) /\
  removeTransaction e id w' = (Ok false, w').
Proof.
  intros Hrel had w'. split; [apply removeTransaction_run, Hrel |]. split.
  - intros t. unfold w'. cbn [transactions with_transactions].
    rewrite filter_In, negb_true_iff, String.eqb_neq. reflexivity.
  - rewrite (removeTransaction_run e id w' (Hrel _)).
    unfold w'. cbn [transactions with_transactions].
    rewrite filter_filter_implied by auto.
    f_equal. f_equal.
    induction (transactions w) as [| t l IH]; [reflexivity |].
    simpl. destruct (tx_id t =? id)%string eqn:E; simpl; [exact IH |].
    rewrite E. exact IH.
Qed.

(** The theorem on the week with three expenses: the second one is removed,
    the others stay. *)
Lemma removeTransaction_spec_witness :
  let e := Scenario.browser (Scenario.at_ Scenario.jun04 10 0) in
  removeTransaction e "t2" Scenario.busyWeek
  = (Ok true,
     with_transactions [Scenario.expense1; Scenario.expense3] Scenario.busyWeek).
Proof.
  intros e.
  destruct (removeTransaction_spec e "t2" Scenario.busyWeek) as (H & _).
  - intros k. reflexivity.
  - exact H.
Defined.

(** X12.  When the storage refuses the write, [removeTransaction] still
    returns true for an identifier that a transaction carries, although the
    transaction stays in the store. *)
Theorem removeTransaction_lost_write e id w :
  setItemOk e FINANCE_STORAGE_KEY = false ->
  removeTransaction e id w
  = (Ok (existsb (fun t => (tx_id t =? id)%string) (transactions w)), w).
Proof.
  intros Hlost. unfold removeTransaction, bind, getAllTransactions, gets, ret.
  rewrite (storageSet_lost e _ _ _ Hlost), filter_shorter, existsb_id_match.
  reflexivity.
Qed.

Lemma removeTransaction_lost_write_witness :
  removeTransaction (Samples.noStorage (Scenario.at_ Scenario.jun04 10 0)) "t2"
    Scenario.busyWeek
  = (Ok true, Scenario.busyWeek).
Proof.
  exact (removeTransaction_lost_write
           (Samples.noStorage (Scenario.at_ Scenario.jun04 10 0)) "t2"
           Scenario.busyWeek eq_refl).
Defined.

(** ** The current week across a creation *)

Lemma getCurrentWeekId_eq e w :
  getCurrentWeekId e w =
  match LedgerNotions.storedWeek e w with
  | Some id => (Ok id, w)
  | None =>
      (weekId <- getOrCreateWeekId e (startDateOf e w) ;;
       storageSet e CURRENT_WEEK_ID_KEY (with_currentWeekId (Some weekId)) ;;
       ret weekId) w
  end.
Proof.
  assert (Hfall :
    (weekStart <- getCurrentWeekStartDate e ;;
     weekId <- getOrCreateWeekId e weekStart ;;
     storageSet e CURRENT_WEEK_ID_KEY (with_currentWeekId (Some weekId)) ;;
     ret weekId) w
    = (weekId <- getOrCreateWeekId e (startDateOf e w) ;;
       storageSet e CURRENT_WEEK_ID_KEY (with_currentWeekId (Some weekId)) ;;
       ret weekId) w).
  { rewrite (bind_ok _ (getCurrentWeekStartDate_run e w)). reflexivity. }
  remember (getCurrentWeekId e w) as r eqn:Hr.
  unfold getCurrentWeekId in Hr. unfold bind at 1 in Hr. unfold gets at 1 in Hr.
  unfold LedgerNotions.storedWeek.
  destruct (currentWeekId w) as [stored |].
  - destruct (Js.truthy stored).
    + unfold bind at 1 in Hr. unfold bind at 1 in Hr. unfold gets at 1 in Hr.
      destruct (getWeekStartDateById e stored w) as [ws |].
      * unfold bind at 1 in Hr. rewrite getCurrentWeekStartDate_run in Hr.
        unfold ret at 1 in Hr.
        destruct (ws =? startDateOf e w).
        -- exact Hr.
        -- rewrite Hr. exact Hfall.
      * unfold ret at 1 in Hr. rewrite Hr. exact Hfall.
    + unfold bind at 1 in Hr. unfold ret at 1 in Hr. rewrite Hr. exact Hfall.
  - unfold bind at 1 in Hr. unfold ret at 1 in Hr. rewrite Hr. exact Hfall.
Qed.

Lemma storedWeek_stored e w id :
  LedgerNotions.storedWeek e w = Some id -> currentWeekId w = Some id.
Proof.
  unfold LedgerNotions.storedWeek.
  destruct (currentWeekId w) as [stored |]; [| discriminate].
  destruct (Js.truthy stored); [| discriminate].
  destruct (getWeekStartDateById e stored w) as [ws |]; [| discriminate].
  destruct (ws =? startDateOf e w); [| discriminate].
  intros H. exact H.
Qed.

Lemma with_currentWeekId_same w id :
  currentWeekId w = Some id -> with_currentWeekId (Some id) w = w.
Proof. destruct w; simpl; intros ->; reflexivity. Qed.

(** When [getCurrentWeekId] writes nothing, the week it returns is the one
    stored, and, unless the stored one was accepted, the one that the mapping
    records for the start of the current week. *)
Lemma getCurrentWeekId_fixed e w id :
  Reliable e ->
  getCurrentWeekId e w = (Ok id, w) ->
  currentWeekId w = Some id /\
  (LedgerNotions.storedWeek e w = Some id \/
   findWeekIdByDate (weekIdMapping w) (isoDate (startDateOf e w)) = Some id).
Proof.
  intros Hrel H. rewrite getCurrentWeekId_eq in H.
  destruct (LedgerNotions.storedWeek e w) as [id0 |] eqn:Est.
  - inversion H; subst id0. split; [exact (storedWeek_stored e w id Est) | left; reflexivity].
  - unfold getOrCreateWeekId in H.
    unfold bind at 1 in H. unfold bind at 1 in H. unfold getWeekIdMapping, gets in H.
    destruct (findWeekIdByDate (weekIdMapping w) (isoDate (startDateOf e w)))
      as [k |] eqn:Ef.
    + unfold ret at 1 in H.
      rewrite (bind_ok _ (storageSet_ok e _ _ _ (Hrel _))) in H.
      unfold ret in H. inversion H as [[Hk Hw]]. subst k.
      split; [| right; reflexivity].
      rewrite <- Hw. reflexivity.
    + exfalso. unfold generateWeekId, nextRandom, setWeekIdMapping in H.
      unfold bind, ret in H.
      rewrite !(storageSet_ok e _ _ _ (Hrel _)) in H.
      inversion H as [[Hk Hw]].
      apply (f_equal drawn) in Hw. simpl in Hw. lia.
Qed.

(** The week that [getCurrentWeekId] has settled stays the current week in
    a store with the same pointers whose mapping has only grown. *)
Lemma getCurrentWeekId_grown e w id w' :
  Reliable e ->
  getCurrentWeekId e w = (Ok id, w) ->
  currentWeekId w' = currentWeekId w ->
  currentWeekStart w' = currentWeekStart w -> nextCloseDate w' = nextCloseDate w ->
  (forall k d, objGet (weekIdMapping w) k = Some d ->
               objGet (weekIdMapping w') k = Some d) ->
  (forall key k, findWeekIdByDate (weekIdMapping w) key = Some k ->
                 findWeekIdByDate (weekIdMapping w') key = Some k) ->
  getCurrentWeekId e w' = (Ok id, w').
Proof.
  intros Hrel H Hid Hst Hn Hget Hfind.
  destruct (getCurrentWeekId_fixed e w id Hrel H) as (Hstored & Hwhy).
  assert (Hstart : startDateOf e w' = startDateOf e w)
    by (apply startDateOf_same; assumption).
  rewrite getCurrentWeekId_eq.
  destruct (LedgerNotions.storedWeek e w') as [id1 |] eqn:Est1.
  - apply storedWeek_stored in Est1. congruence.
  - destruct Hwhy as [Est | Ef].
    + exfalso. unfold LedgerNotions.storedWeek in Est, Est1.
      rewrite Hid, Hstart in Est1. rewrite Hstored in Est, Est1.
      destruct (Js.truthy id); [| discriminate Est].
      unfold getWeekStartDateById in Est, Est1.
      destruct (objGet (weekIdMapping w) id) as [key |] eqn:Eg; [| discriminate Est].
      rewrite (Hget _ _ Eg) in Est1. congruence.
    + rewrite Hstart.
      assert (Hrun : getOrCreateWeekId e (startDateOf e w) w' = (Ok id, w')).
      { unfold getOrCreateWeekId, bind, getWeekIdMapping, gets.
        rewrite (Hfind _ _ Ef). reflexivity. }
      rewrite (bind_ok _ Hrun), (bind_ok _ (storageSet_ok e _ _ _ (Hrel _))).
      unfold ret. rewrite with_currentWeekId_same by congruence. reflexivity.
Qed.

Lemma objGet_app m m' k d :
  objGet m k = Some d -> objGet (m ++ m')%list k = Some d.
Proof.
  induction m as [| [k' v] m IH]; simpl; [discriminate |].
  destruct (k' =? k)%string; [intros H; exact H | exact IH].
Qed.

(** With fresh identifiers, [getOrCreateWeekId] keeps the mapping or adds
    one entry at its end. *)
Lemma getOrCreateWeekId_grows e d w id w' :
  Fresh e w -> getOrCreateWeekId e d w = (Ok id, w') ->
  (forall k v, objGet (weekIdMapping w) k = Some v ->
               objGet (weekIdMapping w') k = Some v) /\
  (forall key k, findWeekIdByDate (weekIdMapping w) key = Some k ->
                 findWeekIdByDate (weekIdMapping w') key = Some k).
Proof.
  intros [_ Hfresh] H. unfold getOrCreateWeekId in H.
  unfold bind at 1 in H. unfold getWeekIdMapping, gets in H.
  destruct (findWeekIdByDate (weekIdMapping w) (isoDate d)) as [k |].
  - inversion H; subst. split; auto.
  - unfold generateWeekId, nextRandom, setWeekIdMapping, storageSet, modify, bind, ret in H.
    destruct (setItemOk e WEEK_ID_MAPPING_KEY); inversion H; subst; clear H;
      cbn [weekIdMapping with_weekIdMapping with_drawn]; [| split; auto].
    rewrite objSet_new by (apply Hfresh; lia).
    split.
    + intros k v Hk. apply objGet_app. exact Hk.
    + intros key k Hk. rewrite findWeekIdByDate_app, Hk. reflexivity.
Qed.


(** ** Creating a transaction *)

(** [createTransaction] on inputs that pass the checks, while the current
    week is open: the transaction returned is appended to the store under the
    identifier drawn last; the weeks and the schedule stay as they were; and,
    the identifiers yet to come being new, the current week and the verdict
    on every standard week stay the same. *)
Lemma createTransaction_run e description amount s date w :
  Reliable e ->
  Js.trim description <> ""%string -> Positive amount ->
  s <> ""%string -> parseDate e s = Some date ->
  let current := valueOf (getCurrentWeekId e) w ""%string in
  includes (closedWeeks w) current = false ->
  exists tx w',
    createTransaction e description amount (Some s) w = (Ok tx, w') /\
    transactions w' = (transactions w ++ [tx])%list /\
    closedWeeks w' = closedWeeks w /\
    nextCloseDate w' = nextCloseDate w /\ currentWeekStart w' = currentWeekStart w /\
    tx_description tx = Js.trim description /\ tx_amount tx = amount /\
    tx_date tx = date /\ tx_createdAt tx = now e /\
    (startOfDay (tz e) (now e) <= startOfDay (tz e) date -> tx_weekId tx = current) /\
    (Unused e w ->
     Unused e w' /\
     (forall key, standardWeekClosed w' key = standardWeekClosed w key) /\
     getCurrentWeekId e w' = (Ok current, w')).
Proof.
  intros Hrel Hd Ha Hs Hp current Hopen.
  rewrite (createTransaction_checked e _ _ _ w Hd Ha Hs).
  pose proof (getCurrentWeekId_total e w) as Hcur. fold current in Hcur.
  destruct (getCurrentWeekId_keeps e w _ _ Hcur) as (Ht & Hc & Hn & Hst & _).
  set (w1 := snd (getCurrentWeekId e w)) in *.
  rewrite (bind_ok _ Hcur), (bind_ok _ (isWeekClosed_run _ _)), Hc, Hopen, Hp.
  destruct (getOrCreateWeekId e (getWeekStart (tz e) date) w1) as [r w2] eqn:Hstd.
  assert (Hr : exists standard, r = Ok standard).
  { destruct (getOrCreateWeekId_run e (getWeekStart (tz e) date) w1)
      as (standard & m & n & Hrun).
    rewrite Hrun in Hstd. inversion Hstd. exists standard. reflexivity. }
  destruct Hr as (standard & ->).
  destruct (getOrCreateWeekId_keeps e _ w1 _ _ Hstd) as (Ht2 & Hc2 & Hn2 & Hst2 & Hid2).
  rewrite (bind_ok _ Hstd).
  rewrite (bind_ok _ (isWeekClosed_run _ _)), (bind_ok _ (isWeekClosed_run _ _)).
  rewrite Hc2, Hc, Hopen.
  unfold bind, nextRandom, getAllTransactions, gets, ret.
  rewrite (storageSet_ok e _ _ _ (Hrel _)).
  eexists _, _. split; [reflexivity |].
  cbn [transactions closedWeeks nextCloseDate currentWeekStart with_transactions
       with_drawn tx_description tx_amount tx_date tx_createdAt tx_weekId].
  rewrite Ht2, Ht, Hc2, Hc, Hn2, Hn, Hst2, Hst.
  do 8 (split; [reflexivity |]). split.
  - intros Hle. apply Z.leb_le in Hle. rewrite Hle. reflexivity.
  - intros Hun.
    pose proof (getCurrentWeekId_steady e w _ _ Hun Hcur) as Hsteady1.
    assert (Hun1 : Unused e w1) by apply Hsteady1.
    destruct (getOrCreateWeekId_closed e (getWeekStart (tz e) date) w1 Hun1)
      as (id' & w2' & Hrun' & _ & Hsteady2).
    rewrite Hstd in Hrun'. inversion Hrun'; subst id' w2'. clear Hrun'.
    pose proof (Steady_trans e w w1 w2 Hsteady1 Hsteady2)
      as (_ & _ & _ & _ & Hverdict & [[Hinj Hfresh] Hclosed]).
    split; [| split].
    + split; [split |].
      * exact Hinj.
      * intros n Hn'. cbn [weekIdMapping drawn with_transactions with_drawn] in *.
        apply Hfresh. lia.
      * intros n Hn'. cbn [closedWeeks drawn with_transactions with_drawn] in *.
        apply Hclosed. lia.
    + intros key. rewrite <- Hverdict. reflexivity.
    + destruct (getOrCreateWeekId_grows e _ w1 _ w2 (proj1 Hun1) Hstd) as (Hget & Hfind).
      apply (getCurrentWeekId_grown e w1 current _ Hrel
               (getCurrentWeekId_again e w _ _ Hrel Hcur)); try assumption.
Qed.

(** What a successful [createTransaction] has done to the store. *)
Lemma createTransaction_ok e description amount dateString w tx w' :
  Reliable e ->
  createTransaction e description amount dateString w = (Ok tx, w') ->
  transactions w' = (transactions w ++ [tx])%list /\
  closedWeeks w' = closedWeeks w /\ nextCloseDate w' = nextCloseDate w /\
  currentWeekStart w' = currentWeekStart w /\
  tx_description tx = Js.trim description /\ tx_amount tx = amount /\
  tx_createdAt tx = now e /\
  Js.trim description <> ""%string /\ Positive amount /\
  includes (closedWeeks w) (valueOf (getCurrentWeekId e) w ""%string) = false /\
  exists s, dateString = Some s /\ parseDate e s = Some (tx_date tx).
Proof.
  intros Hrel H. pose proof H as H0.
  unfold createTransaction in H0.
  destruct (Js.truthy description) eqn:Etd; [| discriminate H0].
  destruct (Js.truthy (Js.trim description)) eqn:Etr; [| discriminate H0].
  cbn [negb orb] in H0.
  destruct (Js.notPositive amount) eqn:Ea; [discriminate H0 |].
  destruct dateString as [s |]; [| discriminate H0].
  destruct (Js.truthy s) eqn:Es; [| discriminate H0].
  clear H0.
  assert (Hd : Js.trim description <> ""%string) by (apply truthy_true; exact Etr).
  assert (Ha : Positive amount).
  { destruct amount as [| q]; [discriminate Ea |].
    simpl in *. apply Qnot_le_lt. intros Hle. apply Qle_bool_iff in Hle. congruence. }
  assert (Hs : s <> ""%string) by (apply truthy_true; exact Es).
  assert (Hopen : includes (closedWeeks w) (valueOf (getCurrentWeekId e) w ""%string) = false).
  { pose proof H as H0.
    rewrite (createTransaction_checked e _ _ _ w Hd Ha Hs) in H0.
    pose proof (getCurrentWeekId_total e w) as Hcur.
    destruct (getCurrentWeekId_keeps e w _ _ Hcur) as (_ & Hc & _).
    rewrite (bind_ok _ Hcur), (bind_ok _ (isWeekClosed_run _ _)), Hc in H0.
    destruct (includes (closedWeeks w) _); [discriminate H0 | reflexivity]. }
  destruct (parseDate e s) as [date |] eqn:Hp.
  - destruct (createTransaction_run e description amount s date w Hrel Hd Ha Hs Hp Hopen)
      as (tx0 & w0 & Hrun & Ht & Hc & Hn & Hst & Hde & Ham & Hda & Hcr & _).
    rewrite Hrun in H. inversion H; subst tx0 w0. clear H.
    repeat split; try assumption. exists s. split; [reflexivity | congruence].
  - exfalso.
    rewrite (createTransaction_checked e _ _ _ w Hd Ha Hs) in H.
    pose proof (getCurrentWeekId_total e w) as Hcur.
    destruct (getCurrentWeekId_keeps e w _ _ Hcur) as (_ & Hc & _).
    rewrite (bind_ok _ Hcur), (bind_ok _ (isWeekClosed_run _ _)), Hc, Hopen, Hp in H.
    discriminate H.
Qed.

(** X13.  Create, then remove.  When [createTransaction] has returned a
    transaction whose identifier no earlier transaction carries, removing
    that identifier returns true and gives back the transactions as they were
    before the creation; the closed weeks stay as they were throughout. *)
Theorem createTransaction_removeTransaction e description amount dateString w tx w' :
  Reliable e ->
  createTransaction e description amount dateString w = (Ok tx, w') ->
  (forall t, In t (transactions w) -> tx_id t <> tx_id tx) ->
  exists w'',
    removeTransaction e (tx_id tx) w' = (Ok true, w'') /\
    transactions w'' = transactions w /\ closedWeeks w'' = closedWeeks w.
Proof.
  intros Hrel Hrun Hnew.
  destruct (createTransaction_ok e _ _ _ w tx w' Hrel Hrun) as (Ht & Hc & _).
  rewrite (removeTransaction_run e _ w' (Hrel _)), Ht.
  eexists. split; [| split].
  - f_equal. f_equal. rewrite existsb_app. simpl.
    rewrite String.eqb_refl. apply orb_true_r.
  - cbn [transactions with_transactions].
    rewrite filter_app. simpl. rewrite String.eqb_refl. simpl.
    rewrite app_nil_r. apply filter_all_kept.
    intros t Hin. apply negb_true_iff, String.eqb_neq. apply Hnew. exact Hin.
  - exact Hc.
Qed.

(** The theorem on the week with three expenses: a fourth one is created
    and removed again. *)
Lemma createTransaction_removeTransaction_witness :
  let e := Scenario.browser (Scenario.at_ Scenario.jun04 10 0) in
  exists tx w' w'',
    createTransaction e "feira" (Js.Num 20) (Some "2024-06-04"%string) Scenario.busyWeek
      = (Ok tx, w') /\
    removeTransaction e (tx_id tx) w' = (Ok true, w'') /\
    transactions w'' = [Scenario.expense1; Scenario.expense2; Scenario.expense3].
Proof.
  intros e.
  destruct (createTransaction e "feira" (Js.Num 20) (Some "2024-06-04"%string)
              Scenario.busyWeek) as [[tx | err] w'] eqn:Hrun;
    [| vm_compute in Hrun; discriminate Hrun].
  assert (Hid : tx_id tx = ""%string)
    by (vm_compute in Hrun; inversion Hrun; reflexivity).
  destruct (createTransaction_removeTransaction e _ _ _ _ tx w'
              (fun k => eq_refl) Hrun) as (w'' & Hrem & Ht & _).
  - rewrite Hid. intros t [E | [E | [E | []]]]; subst t; discriminate.
  - exists tx, w', w''. split; [reflexivity |]. split; assumption.
Defined.


(** ** The transactions of the week after a creation *)

(** [getCurrentWeekTransactions] on an open week, with the store it leaves
    behind. *)
Lemma getCurrentWeekTransactions_open e w :
  Reliable e -> Unused e w ->
  let current := valueOf (getCurrentWeekId e) w ""%string in
  includes (closedWeeks w) current = false ->
  exists w',
    getCurrentWeekTransactions e w
    = (Ok (filter (inCurrentWeek e w current) (transactions w)), w') /\
    Steady e w w'.
Proof.
  intros Hrel Hun current Hopen.
  pose proof (getCurrentWeekId_total e w) as Hcur. fold current in Hcur.
  set (w1 := snd (getCurrentWeekId e w)) in *.
  pose proof (getCurrentWeekId_steady e w _ _ Hun Hcur) as Hst.
  pose proof Hst as (_ & Hc & _).
  unfold getCurrentWeekTransactions.
  rewrite (bind_ok _ Hcur), (bind_ok _ (isWeekClosed_run _ _)), Hc, Hopen.
  destruct (getTransactionsByWeek_current e w w1 current Hrel Hst
              (getCurrentWeekId_again e w _ _ Hrel Hcur) Hopen)
    as (w2 & Hrun & Hst2).
  rewrite (bind_ok _ Hrun).
  destruct (closedWeek_filter e w current
              (filter (inCurrentWeek e w current) (transactions w)) w2 Hst2)
    as (w3 & Hrun3 & Hst3).
  rewrite Hrun3. exists w3. split; [| exact Hst3]. f_equal. f_equal.
  apply filter_filter_implied.
  intros t Ht. unfold inCurrentWeek in Ht.
  destruct (tx_weekId t =? current)%string; [reflexivity |].
  cbn [orb] in *. apply andb_true_iff in Ht. apply Ht.
Qed.

Lemma calculateTotal_last l tx :
  calculateTotal (l ++ [tx]) = Js.add (calculateTotal l) (tx_amount tx).
Proof. unfold calculateTotal. rewrite fold_left_app. reflexivity. Qed.

(** X14.  An expense dated today or later, entered while the current week is
    open, joins the week: [getCurrentWeekTransactions] then returns what it
    returned before followed by the new transaction, and the total of the
    week is the former total plus the amount. *)
Theorem createTransaction_joins_current_week e description amount s date w :
  Reliable e -> Unused e w ->
  Js.trim description <> ""%string -> Positive amount ->
  s <> ""%string -> parseDate e s = Some date ->
  includes (closedWeeks w) (valueOf (getCurrentWeekId e) w ""%string) = false ->
  startOfDay (tz e) (now e) <= startOfDay (tz e) date ->
  exists tx w' before total,
    createTransaction e description amount (Some s) w = (Ok tx, w') /\
    fst (getCurrentWeekTransactions e w) = Ok before /\
    fst (getCurrentWeekTransactions e w') = Ok (before ++ [tx])%list /\
    fst (getCurrentWeekTotal e w) = Ok total /\
    fst (getCurrentWeekTotal e w') = Ok (Js.add total amount).
Proof.
  intros Hrel Hun Hd Ha Hs Hp Hopen Hdate.
  set (current := valueOf (getCurrentWeekId e) w ""%string) in *.
  destruct (createTransaction_run e description amount s date w Hrel Hd Ha Hs Hp Hopen)
    as (tx & w' & Hrun & Ht & Hc & Hn & Hst & _ & Ham & _ & _ & Hweek & Hafter).
  destruct (Hafter Hun) as (Hun' & Hverdict & Hcur').
  fold current in Hweek, Hcur'.
  assert (Hcurrent' : valueOf (getCurrentWeekId e) w' ""%string = current).
  { unfold valueOf. rewrite Hcur'. reflexivity. }
  destruct (getCurrentWeekTransactions_open e w Hrel Hun Hopen) as (wa & Hbefore & _).
  fold current in Hbefore.
  assert (Hopen' : includes (closedWeeks w') (valueOf (getCurrentWeekId e) w' ""%string)
                   = false) by (rewrite Hcurrent', Hc; exact Hopen).
  destruct (getCurrentWeekTransactions_open e w' Hrel Hun' Hopen') as (wb & Hafter' & _).
  rewrite Hcurrent', Ht, filter_app in Hafter'.
  assert (Hsame : filter (inCurrentWeek e w' current) (transactions w)
                  = filter (inCurrentWeek e w current) (transactions w)).
  { apply filter_ext. intros t. unfold inCurrentWeek, inClosedWeek.
    rewrite (startDateOf_same e w w' Hst Hn), (endDateOf_same e w w' Hst Hn), Hc, Hverdict.
    reflexivity. }
  assert (Hin : filter (inCurrentWeek e w' current) [tx] = [tx]).
  { simpl. unfold inCurrentWeek. rewrite (Hweek Hdate), String.eqb_refl. reflexivity. }
  rewrite Hsame, Hin in Hafter'.
  exists tx, w', (filter (inCurrentWeek e w current) (transactions w)),
    (calculateTotal (filter (inCurrentWeek e w current) (transactions w))).
  split; [exact Hrun |].
  split; [rewrite Hbefore; reflexivity |].
  split; [rewrite Hafter'; reflexivity |].
  unfold getCurrentWeekTotal.
  rewrite (bind_ok _ Hbefore), (bind_ok _ Hafter'). unfold ret. cbn [fst].
  split; [reflexivity |]. rewrite calculateTotal_last, Ham. reflexivity.
Qed.

(** The theorem on the week with three expenses, on Tuesday 4 June, for an
    expense of 20 dated that day: the week then lists three transactions and
    its total has grown from 42 to 62. *)
Lemma createTransaction_joins_current_week_witness :
  let e := Scenario.browser (Scenario.at_ Scenario.jun04 10 0) in
  exists tx w',
    createTransaction e "feira" (Js.Num 20) (Some "2024-06-04"%string) Scenario.busyWeek
      = (Ok tx, w') /\
    fst (getCurrentWeekTransactions e w')
      = Ok [Scenario.expense1; Scenario.expense2; tx] /\
    fst (getCurrentWeekTotal e w') = Ok (Js.add (Js.Num (0 + 12 + 30)) (Js.Num 20)).
Proof.
  intros e.
  destruct (createTransaction_joins_current_week e "feira" (Js.Num 20) "2024-06-04"
              (Scenario.at_ Scenario.jun04 0 0) Scenario.busyWeek)
    as (tx & w' & before & total & Hrun & Hb & Ha & Htb & Hta).
  - intros k. reflexivity.
  - split; [apply browser_fresh; reflexivity | intros n _; reflexivity].
  - discriminate.
  - reflexivity.
  - discriminate.
  - reflexivity.
  - reflexivity.
  - discriminate.
  - assert (Eb : before = [Scenario.expense1; Scenario.expense2])
      by (vm_compute in Hb; inversion Hb; reflexivity).
    assert (Et : total = Js.Num (0 + 12 + 30))
      by (vm_compute in Htb; inversion Htb; reflexivity).
    subst before total.
    exists tx, w'. split; [exact Hrun |]. split; [exact Ha | exact Hta].
Defined.


(** ** The date that the form proposes *)

(** X15.  The form proposes [formatDateForInput()] as the date of an
    expense.  Entered with that date while the current week is open, in a
    year of four digits and a browser that reads the standard format, the
    expense is created, dated today at local midnight, and it belongs to the
    current week. *)
Theorem createTransaction_default_date e description amount w :
  Reliable e -> LedgerNotions.ReadsStandardDates e ->
  1000 <= DatesRest.getFullYear (tz e) (now e) <= 9999 ->
  Js.trim description <> ""%string -> Positive amount ->
  includes (closedWeeks w) (valueOf (getCurrentWeekId e) w ""%string) = false ->
  exists tx w',
    createTransaction e description amount
      (Some (DatesRest.formatDateForInput (tz e) (now e))) w = (Ok tx, w') /\
    tx_date tx = startOfDay (tz e) (now e) /\
    tx_weekId tx = valueOf (getCurrentWeekId e) w ""%string /\
    transactions w' = (transactions w ++ [tx])%list.
Proof.
  intros Hrel Hreads Hy Hd Ha Hopen.
  assert (Hp : parseDate e (DatesRest.formatDateForInput (tz e) (now e))
               = Some (startOfDay (tz e) (now e))).
  { apply Hreads. apply CalendarFacts.formatDateForInput_midnight. exact Hy. }
  destruct (createTransaction_run e description amount _ _ w Hrel Hd Ha
              (CalendarFacts.formatDateForInput_nonempty _ _ Hy) Hp Hopen)
    as (tx & w' & Hrun & Ht & _ & _ & _ & _ & _ & Hdate & _ & Hweek & _).
  exists tx, w'. split; [exact Hrun |]. split; [exact Hdate |].
  split; [| exact Ht].
  apply Hweek. rewrite DatesFacts.startOfDay_idem. lia.
Qed.

(** The theorem on the open week w0, on Tuesday 4 June at 10:00. *)
Lemma createTransaction_default_date_witness :
  let e := Scenario.browser (Scenario.at_ Scenario.jun04 10 0) in
  exists tx w',
    createTransaction e "feira" (Js.Num 20) (Some "2024-06-04"%string) Scenario.openWeek
      = (Ok tx, w') /\
    tx_date tx = Scenario.at_ Scenario.jun04 0 0 /\
    tx_weekId tx = "w0"%string.
Proof.
  intros e.
  destruct (createTransaction_default_date e "feira" (Js.Num 20) Scenario.openWeek)
    as (tx & w' & Hrun & Hdate & Hweek & _).
  - intros k. reflexivity.
  - intros s d H. exact H.
  - split; vm_compute; discriminate.
  - discriminate.
  - reflexivity.
  - reflexivity.
  - exists tx, w'. split; [exact Hrun |]. split; [exact Hdate | exact Hweek].
Defined.


(** ** The total of the month *)

(** X16.  An expense entered with the date that the form proposes counts
    for the current month: once it is created, [getCurrentMonthTotal] is the
    former total of the month plus the amount. *)
Theorem createTransaction_month_total e description amount w :
  Reliable e -> LedgerNotions.ReadsStandardDates e ->
  1000 <= DatesRest.getFullYear (tz e) (now e) <= 9999 ->
  Js.trim description <> ""%string -> Positive amount ->
  includes (closedWeeks w) (valueOf (getCurrentWeekId e) w ""%string) = false ->
  exists tx w' total,
    createTransaction e description amount
      (Some (DatesRest.formatDateForInput (tz e) (now e))) w = (Ok tx, w') /\
    FinanceRest.getCurrentMonthTotal e w = (Ok total, w) /\
    FinanceRest.getCurrentMonthTotal e w' = (Ok (Js.add total amount), w').
Proof.
  intros Hrel Hreads Hy Hd Ha Hopen.
  assert (Hp : parseDate e (DatesRest.formatDateForInput (tz e) (now e))
               = Some (startOfDay (tz e) (now e))).
  { apply Hreads. apply CalendarFacts.formatDateForInput_midnight. exact Hy. }
  destruct (createTransaction_run e description amount _ _ w Hrel Hd Ha
              (CalendarFacts.formatDateForInput_nonempty _ _ Hy) Hp Hopen)
    as (tx & w' & Hrun & Ht & _ & _ & _ & _ & Ham & Hdate & _).
  eexists tx, w', _. split; [exact Hrun |]. split; [reflexivity |].
  unfold FinanceRest.getCurrentMonthTotal, bind, getAllTransactions, gets, ret.
  rewrite Ht, filter_app. cbn [filter].
  unfold DatesRest.getMonth at 3, DatesRest.getFullYear at 3.
  rewrite Hdate, DatesFacts.localDay_startOfDay.
  fold (DatesRest.getMonth (tz e) (now e)). fold (DatesRest.getFullYear (tz e) (now e)).
  rewrite !Z.eqb_refl. cbn [andb].
  rewrite calculateTotal_last, Ham. reflexivity.
Qed.

(** The theorem on the week with three expenses, on Tuesday 4 June: the
    month of June counts the expenses of 3 and 4 June, and then the new
    one. *)
Lemma createTransaction_month_total_witness :
  let e := Scenario.browser (Scenario.at_ Scenario.jun04 10 0) in
  exists tx w',
    createTransaction e "feira" (Js.Num 20) (Some "2024-06-04"%string) Scenario.busyWeek
      = (Ok tx, w') /\
    FinanceRest.getCurrentMonthTotal e w'
      = (Ok (Js.add (Js.Num (0 + 12 + 30)) (Js.Num 20)), w').
Proof.
  intros e.
  destruct (createTransaction_month_total e "feira" (Js.Num 20) Scenario.busyWeek)
    as (tx & w' & total & Hrun & Hbefore & Hafter).
  - intros k. reflexivity.
  - intros s d H. exact H.
  - split; vm_compute; discriminate.
  - discriminate.
  - reflexivity.
  - reflexivity.
  - assert (Et : total = Js.Num (0 + 12 + 30))
      by (vm_compute in Hbefore; inversion Hbefore; reflexivity).
    subst total. exists tx, w'. split; [exact Hrun | exact Hafter].
Defined.

(** ** The use of the weekly limit *)

(** X17.  With a weekly limit greater than zero, [getWeeklyLimitUsage] is
    the total of the week as a percentage of the limit, capped at 100: it
    reaches 100 exactly when the total reaches the limit, it is exactly 100
    whenever [isWeeklyLimitExceeded] holds, and it is zero for a total of
    zero. *)
Theorem getWeeklyLimitUsage_capped e w limit total w1 :
  weeklyLimit w = Some (Js.Num limit) -> (0 < limit)%Q ->
  getCurrentWeekTotal e w = (Ok (Js.Num total), w1) ->
  exists usage,
    FinanceRest.getWeeklyLimitUsage e w = (Ok (Some (FinanceRest.ExNum usage)), w1) /\
    (usage <= 100)%Q /\
    ((usage == 100)%Q <-> (limit <= total)%Q) /\
    (isWeeklyLimitExceeded e w = (Ok true, w1) -> usage = 100%Q) /\
    ((total == 0)%Q -> (usage == 0)%Q).
Proof.
  intros Hlimit Hpos Htotal.
  assert (Hnz' : ~ (limit == 0)%Q).
  { intros E. rewrite E in Hpos. exact (Qlt_irrefl 0 Hpos). }
  assert (Hnz : Qeq_bool limit 0 = false).
  { destruct (Qeq_bool limit 0) eqn:E; [| reflexivity].
    apply Qeq_bool_iff in E. contradiction. }
  assert (Hc : (0 < 100 / limit)%Q).
  { apply Qlt_shift_div_l; [exact Hpos |]. rewrite Qmult_0_l. reflexivity. }
  assert (Hmono : forall x y, (x / limit * 100 <= y / limit * 100)%Q <-> (x <= y)%Q).
  { intros x y.
    setoid_replace (x / limit * 100)%Q with (x * (100 / limit))%Q by (field; exact Hnz').
    setoid_replace (y / limit * 100)%Q with (y * (100 / limit))%Q by (field; exact Hnz').
    apply Qmult_le_r. exact Hc. }
  assert (Hfull : (limit / limit * 100 == 100)%Q) by (field; exact Hnz').
  assert (Hbelow : (total / limit * 100 <= 100)%Q <-> (total <= limit)%Q).
  { rewrite <- Hfull at 2. apply Hmono. }
  assert (Habove : (100 <= total / limit * 100)%Q <-> (limit <= total)%Q).
  { rewrite <- Hfull at 1. apply Hmono. }
  assert (Hexceeded : isWeeklyLimitExceeded e w = (Ok true, w1) -> ~ (total <= limit)%Q).
  { unfold isWeeklyLimitExceeded, getWeeklyLimit.
    unfold bind at 1. unfold gets at 1. rewrite Hlimit.
    rewrite (bind_ok _ Htotal). unfold ret. cbn [Js.gt].
    intros H Hle. apply Qle_bool_iff in Hle. rewrite Hle in H. discriminate H. }
  unfold FinanceRest.getWeeklyLimitUsage, getWeeklyLimit.
  unfold bind at 1. unfold gets at 1. rewrite Hlimit.
  rewrite (bind_ok _ Htotal). unfold ret.
  unfold FinanceRest.div. rewrite Hnz.
  cbn [FinanceRest.times100 FinanceRest.min100].
  destruct (Qle_bool (total / limit * 100) 100) eqn:Hcap.
  - exists (total / limit * 100)%Q. split; [reflexivity |].
    apply Qle_bool_iff in Hcap.
    split; [exact Hcap |]. split; [| split].
    + split; intros H.
      * apply Habove. rewrite H. apply Qle_refl.
      * apply Qle_antisym; [exact Hcap | apply Habove; exact H].
    + intros H. exfalso. apply (Hexceeded H). apply Hbelow. exact Hcap.
    + intros H. rewrite H. field. exact Hnz'.
  - exists 100%Q. split; [reflexivity |].
    assert (Hover : ~ (total <= limit)%Q).
    { intros Hle. apply Hbelow, Qle_bool_iff in Hle. congruence. }
    split; [apply Qle_refl |]. split; [| split].
    + split; intros _; [| reflexivity].
      apply Qlt_le_weak, Qnot_le_lt. exact Hover.
    + intros _. reflexivity.
    + intros H. exfalso. apply Hover. rewrite H. apply Qlt_le_weak. exact Hpos.
Qed.

(** The theorem on the week with three expenses, whose total is 42, with a
    limit of 40: the limit is exceeded and the use is 100. *)
Lemma getWeeklyLimitUsage_capped_witness :
  let e := Scenario.browser (Scenario.at_ Scenario.jun04 10 0) in
  let w := with_weeklyLimit (Some (Js.Num 40)) Scenario.busyWeek in
  exists w1,
    isWeeklyLimitExceeded e w = (Ok true, w1) /\
    FinanceRest.getWeeklyLimitUsage e w = (Ok (Some (FinanceRest.ExNum 100)), w1).
Proof.
  intros e w.
  destruct (getCurrentWeekTotal e w) as [r w1] eqn:Htotal.
  assert (Hr : r = Ok (Js.Num (0 + 12 + 30)))
    by (vm_compute in Htotal; inversion Htotal; reflexivity).
  subst r.
  assert (Hover : isWeeklyLimitExceeded e w = (Ok true, w1)).
  { unfold isWeeklyLimitExceeded, getWeeklyLimit.
    unfold bind at 1. unfold gets at 1.
    change (weeklyLimit w) with (Some (Js.Num 40)). cbv iota beta.
    rewrite (bind_ok _ Htotal). reflexivity. }
  destruct (getWeeklyLimitUsage_capped e w 40 (0 + 12 + 30) w1 eq_refl eq_refl Htotal)
    as (usage & Hrun & _ & _ & Hfull & _).
  exists w1. split; [exact Hover |].
  rewrite Hrun, (Hfull Hover). reflexivity.
Defined.


(** ** The total of the week and the weekly limit *)

Lemma getCurrentWeekTransactions_closed e w :
  includes (closedWeeks w) (valueOf (getCurrentWeekId e) w ""%string) = true ->
  getCurrentWeekTransactions e w = (Ok [], snd (getCurrentWeekId e w)).
Proof.
  intros Hclosed.
  pose proof (getCurrentWeekId_total e w) as Hcur.
  destruct (getCurrentWeekId_keeps e w _ _ Hcur) as (_ & Hc & _).
  unfold getCurrentWeekTransactions.
  rewrite (bind_ok _ Hcur), (bind_ok _ (isWeekClosed_run _ _)), Hc, Hclosed.
  reflexivity.
Qed.

(** X18.  While the current week is closed, its total is zero, whatever the
    transactions in the store, and a weekly limit that [setWeeklyLimit]
    accepts is not exceeded. *)
Theorem getCurrentWeekTotal_closed e w :
  includes (closedWeeks w) (valueOf (getCurrentWeekId e) w ""%string) = true ->
  fst (getCurrentWeekTotal e w) = Ok (Js.Num 0) /\
  (match weeklyLimit w with Some limit => Positive limit | None => True end ->
   fst (isWeeklyLimitExceeded e w) = Ok false).
Proof.
  intros Hclosed.
  assert (Htotal : getCurrentWeekTotal e w = (Ok (Js.Num 0), snd (getCurrentWeekId e w))).
  { unfold getCurrentWeekTotal.
    rewrite (bind_ok _ (getCurrentWeekTransactions_closed e w Hclosed)). reflexivity. }
  split; [rewrite Htotal; reflexivity |].
  intros Hlimit. unfold isWeeklyLimitExceeded, getWeeklyLimit.
  unfold bind at 1. unfold gets at 1.
  destruct (weeklyLimit w) as [limit |]; [| reflexivity].
  rewrite (bind_ok _ Htotal). unfold ret. cbn [fst].
  destruct limit as [| q]; [reflexivity |]. cbn [Js.gt]. f_equal.
  apply negb_false_iff, Qle_bool_iff, Qlt_le_weak. exact Hlimit.
Qed.

(** The theorem on the closed week w0, with one expense and a limit of 10. *)
Lemma getCurrentWeekTotal_closed_witness :
  let e := Scenario.browser (Scenario.at_ Scenario.jun04 10 0) in
  let w := with_weeklyLimit (Some (Js.Num 10))
             (with_transactions [Scenario.expense1] Scenario.closedWeek) in
  fst (getCurrentWeekTotal e w) = Ok (Js.Num 0) /\
  fst (isWeeklyLimitExceeded e w) = Ok false.
Proof.
  intros e w.
  destruct (getCurrentWeekTotal_closed e w eq_refl) as (H1 & H2).
  split; [exact H1 | apply H2; reflexivity].
Defined.

(** X19.  [setWeeklyLimit] refuses a number that is not strictly greater
    than zero and leaves the store as it was; it takes [null] and every
    number greater than zero, which [getWeeklyLimit] then reads back, the
    transactions and the weeks being untouched. *)
Theorem setWeeklyLimit_getWeeklyLimit e limit w :
  Reliable e ->
  match limit with
  | Some l =>
      (~ Positive l -> setWeeklyLimit e limit w = (Throw LimiteInvalido, w)) /\
      (Positive l ->
       exists w', setWeeklyLimit e limit w = (Ok tt, w') /\
                  getWeeklyLimit w' = (Ok limit, w') /\
                  w' = with_weeklyLimit limit w)
  | None =>
      exists w', setWeeklyLimit e limit w = (Ok tt, w') /\
                 getWeeklyLimit w' = (Ok None, w') /\
                 fst (isWeeklyLimitExceeded e w') = Ok false
  end.
Proof.
  intros Hrel. destruct limit as [l |].
  - split.
    + intros Hno. apply notPositive_spec in Hno. unfold setWeeklyLimit.
      rewrite Hno. reflexivity.
    + intros Hpos. unfold setWeeklyLimit.
      destruct (Js.notPositive l) eqn:E.
      { apply notPositive_spec in E. contradiction. }
      rewrite (storageSet_ok e _ _ _ (Hrel _)).
      eexists. split; [reflexivity |]. split; reflexivity.
  - unfold setWeeklyLimit. rewrite (storageSet_ok e _ _ _ (Hrel _)).
    eexists. split; [reflexivity |]. split; reflexivity.
Qed.

Lemma setWeeklyLimit_getWeeklyLimit_witness :
  let e := Scenario.browser (Scenario.at_ Scenario.jun04 10 0) in
  setWeeklyLimit e (Some (Js.Num 0)) Scenario.busyWeek
    = (Throw LimiteInvalido, Scenario.busyWeek) /\
  exists w', setWeeklyLimit e (Some (Js.Num 40)) Scenario.busyWeek = (Ok tt, w') /\
             getWeeklyLimit w' = (Ok (Some (Js.Num 40)), w').
Proof.
  intros e. split.
  - apply (setWeeklyLimit_getWeeklyLimit e (Some (Js.Num 0)) Scenario.busyWeek
             (fun k => eq_refl)).
    intros H. discriminate H.
  - destruct (setWeeklyLimit_getWeeklyLimit e (Some (Js.Num 40)) Scenario.busyWeek
                (fun k => eq_refl)) as (_ & H).
    destruct (H eq_refl) as (w' & H1 & H2 & _).
    exists w'. split; assumption.
Defined.


End JournalFacts.

(* ================================================================== *)
(** * Further properties of the week ledger: the schedule              *)
(* ================================================================== *)

Module ScheduleFacts.
Import Dates Finance LedgerSpec LedgerFacts JournalFacts.
Local Open Scope ledger_scope.

(** ** The next close date *)

Lemma next_day_fits tz d k :
  0 <= k <= 6 ->
  getDay tz (getNextDayOfWeekAfter tz d k) = k /\
  localDay tz d < localDay tz (getNextDayOfWeekAfter tz d k).
Proof.
  intros Hk.
  destruct (DatesFacts.next_day_offset tz d Hk) as (diff & Hdiff & Hday & Hwd).
  split; [| lia].
  unfold getDay at 1. rewrite Hday, DatesFacts.getDay_shift. exact Hwd.
Qed.

Lemma getAutoCloseConfig_run w :
  getAutoCloseConfig w = (Ok (valueOf getAutoCloseConfig w defaultConfig), w).
Proof. reflexivity. Qed.

Lemma setNextCloseDate_accepts e date w :
  setItemOk e NEXT_CLOSE_DATE_KEY = true ->
  getDay (tz e) date = dayOfWeek (valueOf getAutoCloseConfig w defaultConfig) ->
  localDay (tz e) (now e) < localDay (tz e) date ->
  setNextCloseDate e date w = (Ok tt, with_nextCloseDate (Some date) w).
Proof.
  intros Hok Hday Hlater. unfold setNextCloseDate.
  rewrite (bind_ok _ (getAutoCloseConfig_run w)).
  unfold isDayOfWeek. rewrite Hday, Z.eqb_refl. cbn [negb].
  destruct (Z.leb_spec (startOfDay (tz e) date) (startOfDay (tz e) (now e))) as [Hle | _].
  - apply DatesRestFacts.startOfDay_le_iff in Hle. lia.
  - apply storageSet_ok. exact Hok.
Qed.

Lemma setNextCloseDate_wrong_day e date w :
  getDay (tz e) date <> dayOfWeek (valueOf getAutoCloseConfig w defaultConfig) ->
  setNextCloseDate e date w = (Throw ProximoFechamentoOutroDia, w).
Proof.
  intros Hday. unfold setNextCloseDate.
  rewrite (bind_ok _ (getAutoCloseConfig_run w)).
  unfold isDayOfWeek. apply Z.eqb_neq in Hday. rewrite Hday. reflexivity.
Qed.

Lemma setNextCloseDate_not_future e date w :
  getDay (tz e) date = dayOfWeek (valueOf getAutoCloseConfig w defaultConfig) ->
  localDay (tz e) date <= localDay (tz e) (now e) ->
  setNextCloseDate e date w = (Throw ProximoFechamentoNaoFutura, w).
Proof.
  intros Hday Hpast. unfold setNextCloseDate.
  rewrite (bind_ok _ (getAutoCloseConfig_run w)).
  unfold isDayOfWeek. rewrite Hday, Z.eqb_refl. cbn [negb].
  apply DatesRestFacts.startOfDay_le_iff, Z.leb_le in Hpast. rewrite Hpast.
  reflexivity.
Qed.

(** X20.  [setNextCloseDate] takes a date exactly when it falls on the
    configured weekday and on a day after today: otherwise it throws, the
    weekday being checked first, and the store stays as it was.  The date
    that [getNextDayOfWeekAfter] gives for now and a configured weekday from
    0 to 6 is always taken. *)
Theorem setNextCloseDate_spec e date w :
  Reliable e ->
  let config := valueOf getAutoCloseConfig w defaultConfig in
  (getDay (tz e) date <> dayOfWeek config ->
   setNextCloseDate e date w = (Throw ProximoFechamentoOutroDia, w)) /\
  (getDay (tz e) date = dayOfWeek config ->
   localDay (tz e) date <= localDay (tz e) (now e) ->
   setNextCloseDate e date w = (Throw ProximoFechamentoNaoFutura, w)) /\
  (getDay (tz e) date = dayOfWeek config ->
   localDay (tz e) (now e) < localDay (tz e) date ->
   setNextCloseDate e date w = (Ok tt, with_nextCloseDate (Some date) w)) /\
  (0 <= dayOfWeek config <= 6 ->
   let next := getNextDayOfWeekAfter (tz e) (now e) (dayOfWeek config) in
   setNextCloseDate e next w = (Ok tt, with_nextCloseDate (Some next) w)).
Proof.
  intros Hrel config. split; [| split; [| split]].
  - apply setNextCloseDate_wrong_day.
  - apply setNextCloseDate_not_future.
  - intros Hday Hlater. apply setNextCloseDate_accepts; [apply Hrel | exact Hday | exact Hlater].
  - intros Hdow next.
    destruct (next_day_fits (tz e) (now e) (dayOfWeek config) Hdow) as (Hday & Hlater).
    apply setNextCloseDate_accepts; [apply Hrel | exact Hday | exact Hlater].
Qed.

(** The theorem on the open week w0 on Tuesday 4 June, with closes on
    Sundays: Sunday 16 June is taken, Monday 10 June and Sunday 2 June are
    not. *)
Lemma setNextCloseDate_spec_witness :
  let e := Scenario.browser (Scenario.at_ Scenario.jun04 10 0) in
  let w := Scenario.openWeek in
  setNextCloseDate e (Scenario.at_ 19890 12 0) w
    = (Ok tt, with_nextCloseDate (Some (Scenario.at_ 19890 12 0)) w) /\
  setNextCloseDate e (Scenario.at_ 19884 12 0) w = (Throw ProximoFechamentoOutroDia, w) /\
  setNextCloseDate e (Scenario.at_ Scenario.jun02 12 0) w
    = (Throw ProximoFechamentoNaoFutura, w).
Proof.
  intros e w.
  split; [| split].
  - apply (setNextCloseDate_spec e (Scenario.at_ 19890 12 0) w (fun k => eq_refl));
      [reflexivity | reflexivity].
  - apply (setNextCloseDate_spec e (Scenario.at_ 19884 12 0) w (fun k => eq_refl)).
    discriminate.
  - apply (setNextCloseDate_spec e (Scenario.at_ Scenario.jun02 12 0) w (fun k => eq_refl));
      [reflexivity | discriminate].
Defined.

(** ** The manual close always goes through *)

Lemma includes_app l x y :
  includes (l ++ [x]) y = includes l y || (x =? y)%string.
Proof. unfold includes. rewrite existsb_app. simpl. rewrite orb_false_r. reflexivity. Qed.

Lemma findWeekIdByDate_objGet m key id :
  findWeekIdByDate m key = Some id -> objGet m id <> None.
Proof.
  induction m as [| [k v] m IH]; simpl; [discriminate |].
  destruct (v =? key).
  - intros H. inversion H; subst. rewrite String.eqb_refl. discriminate.
  - intros H. destruct (k =? id)%string; [discriminate | apply IH; exact H].
Qed.

(** The week that [getCurrentWeekId] returns is a key of the mapping. *)
Lemma getCurrentWeekId_mapped e w id w1 :
  Reliable e -> getCurrentWeekId e w = (Ok id, w1) ->
  objGet (weekIdMapping w1) id <> None.
Proof.
  intros Hrel H.
  pose proof (getCurrentWeekId_again e w _ _ Hrel H) as Hagain.
  destruct (getCurrentWeekId_fixed e w1 id Hrel Hagain) as (Hstored & [Hst | Hf]).
  - unfold LedgerNotions.storedWeek in Hst. rewrite Hstored in Hst.
    destruct (Js.truthy id); [| discriminate Hst].
    unfold getWeekStartDateById in Hst.
    destruct (objGet (weekIdMapping w1) id); [discriminate | discriminate Hst].
  - exact (findWeekIdByDate_objGet _ _ _ Hf).
Qed.

(** The manual close of an open current week, step by step. *)
Lemma closeWeek_manual_run e w :
  Reliable e -> WestOfUtc e ->
  let config := valueOf getAutoCloseConfig w defaultConfig in
  0 <= dayOfWeek config <= 6 ->
  let closing := valueOf (getCurrentWeekId e) w ""%string in
  let w1 := snd (getCurrentWeekId e w) in
  let today := startOfDay (tz e) (now e) in
  let fresh1 := ("week_" ++ random e (drawn w1))%string in
  includes (closedWeeks w) closing = false ->
  exists w',
    closeWeek e None None true w = (Ok true, w') /\
    closedWeeks w' = (closedWeeks w ++ [closing])%list /\
    transactions w' = transactions w /\
    (exists d, nextCloseDate w' = Some d /\
               localDay (tz e) (now e) < localDay (tz e) d) /\
    (includes (closedWeeks w) fresh1 = false -> closing <> fresh1 ->
     currentWeekStart w' = Some today /\
     getCurrentWeekId e w' = (Ok fresh1, w')).
Proof.
  intros Hrel Hwest config Hdow closing w1 today fresh1 Hopen.
  destruct (closeWeek e None None true w) as [r w'] eqn:H.
  pose proof (getCurrentWeekId_total e w) as Hcur. fold closing w1 in Hcur.
  destruct (getCurrentWeekId_keeps e w _ _ Hcur) as (Ht & Hc & Hn & Hs & Hcfg & _).
  unfold closeWeek in H. cbn [Js.truthyOpt negb andb] in H.
  rewrite (bind_ok _ Hcur), (bind_ok _ (isWeekClosed_run _ _)), Hc, Hopen in H.
  unfold closeWeekFrom in H.
  unfold bind at 1 in H. unfold getClosedWeeks at 1, gets at 1 in H.
  rewrite Hc, Hopen in H.
  rewrite (bind_ok _ (storageSet_ok e _ _ _ (Hrel _))) in H.
  unfold bind at 1 in H. unfold getClosedWeeks at 1, gets at 1 in H.
  cbn [closedWeeks with_closedWeeks] in H.
  rewrite includes_app_last in H. cbn [negb] in H.
  unfold bind at 1 in H. unfold getAutoCloseConfig at 1, gets at 1 in H.
  unfold bind at 1 in H. unfold getNextCloseDate at 1, gets at 1 in H.
  unfold bind at 1 in H. unfold generateWeekId at 1 in H.
  unfold bind at 1 in H. unfold nextRandom at 1, ret at 1 in H.
  unfold bind at 1 in H. unfold getWeekIdMapping at 1, gets at 1 in H.
  unfold setWeekIdMapping at 1 in H.
  rewrite (bind_ok _ (storageSet_ok e _ _ _ (Hrel _))) in H.
  cbn [autoCloseConfig nextCloseDate drawn weekIdMapping with_closedWeeks with_drawn
       with_weekIdMapping] in H.
  set (w4 := with_weekIdMapping _ _) in H.
  set (newStart := startOfDay (tz e) (startOfDay (tz e) (now e))) in H.
  assert (Hnew : newStart = today) by apply DatesFacts.startOfDay_idem.
  assert (Hconfig : match autoCloseConfig w1 with Some c => c | None => defaultConfig end
                    = config).
  { rewrite Hcfg. reflexivity. }
  rewrite Hconfig in H.
  set (nextOccurrence := getNextDayOfWeekAfter (tz e) (now e) (dayOfWeek config)) in H.
  fold fresh1 in H, w4.
  (* the store once the new week is the current one *)
  assert (Hfinish : forall w5,
    currentWeekId w5 = Some fresh1 ->
    currentWeekStart w5 = Some (startOfDay (tz e) newStart) ->
    weekIdMapping w5 = weekIdMapping w4 ->
    closedWeeks w5 = closedWeeks w4 ->
    transactions w5 = transactions w4 ->
    (finalWeekId <- getCurrentWeekId e ;;
     finalClosed <- isWeekClosed finalWeekId ;;
     (if finalClosed then
        adjustedWeekId <- generateWeekId e ;;
        setCurrentWeekStart e (addDays newStart 1) (Some adjustedWeekId)
      else ret tt) ;;
     ret true) w5 = (r, w') ->
    r = Ok true /\
    closedWeeks w' = (closedWeeks w ++ [closing])%list /\
    transactions w' = transactions w /\
    nextCloseDate w' = nextCloseDate w5 /\
    (includes (closedWeeks w) fresh1 = false -> closing <> fresh1 ->
     currentWeekStart w' = Some today /\
     getCurrentWeekId e w' = (Ok fresh1, w'))).
  { intros w5 Hid Hst Hmap Hcl Htx Hrun.
    assert (Hget : objGet (weekIdMapping w5) fresh1
                   = Some (isoDate (startOfDay (tz e) newStart))).
    { rewrite Hmap. unfold w4. cbn [weekIdMapping with_weekIdMapping].
      fold newStart. rewrite objGet_objSet. f_equal. f_equal.
      symmetry. apply DatesFacts.startOfDay_idem. }
    rewrite (closeWeek_final_check e w5 _ newStart _ Hrel Hwest Hid Hst Hget) in Hrun.
    assert (Hcl4 : closedWeeks w4 = (closedWeeks w ++ [closing])%list) by reflexivity.
    assert (Htx4 : transactions w4 = transactions w) by exact Ht.
    fold fresh1 in Hrun.
    destruct (includes (closedWeeks w5) fresh1) eqn:Hin; inversion Hrun; subst r w';
      cbn [closedWeeks transactions currentWeekId currentWeekStart nextCloseDate
           with_currentWeekId with_currentWeekStart with_drawn];
      rewrite Hcl, Hcl4, Htx, Htx4;
      (split; [reflexivity |]); (split; [reflexivity |]); (split; [reflexivity |]);
      (split; [reflexivity |]); intros Hfresh Hne.
    - exfalso. rewrite Hcl, Hcl4, includes_app, Hfresh in Hin.
      apply String.eqb_neq in Hne. rewrite Hne in Hin. discriminate Hin.
    - split.
      + rewrite Hst, Hnew. unfold today. rewrite DatesFacts.startOfDay_idem. reflexivity.
      + apply getCurrentWeekId_valid with (key := isoDate (startOfDay (tz e) newStart)).
        * exact Hid.
        * apply truthy_week.
        * exact Hget.
        * rewrite (localMidnight_isoDate e newStart Hwest).
          rewrite startDateOf_eq, Hst. reflexivity. }
  assert (Hstep : forall w0,
    setCurrentWeekStart e newStart (Some fresh1) w0
    = (Ok tt, with_currentWeekId (Some fresh1)
                (with_currentWeekStart (Some (startOfDay (tz e) newStart)) w0))).
  { intros w0. apply setCurrentWeekStart_given; [exact Hrel | apply truthy_week]. }
  assert (Hset : setNextCloseDate e nextOccurrence w4
                 = (Ok tt, with_nextCloseDate (Some nextOccurrence) w4)).
  { destruct (next_day_fits (tz e) (now e) (dayOfWeek config) Hdow) as (Hday & Hlater).
    apply setNextCloseDate_accepts; [apply Hrel | | exact Hlater].
    unfold nextOccurrence. rewrite Hday. unfold valueOf, w4. simpl.
    rewrite Hcfg. reflexivity. }
  assert (Hlater : localDay (tz e) (now e) < localDay (tz e) nextOccurrence)
    by apply (next_day_fits (tz e) (now e) (dayOfWeek config) Hdow).
  rewrite Hn in H.
  destruct (nextCloseDate w) as [existing |] eqn:Hexisting.
  - fold today in H.
    destruct (today <? startOfDay (tz e) existing) eqn:Hbefore.
    + rewrite (bind_ok _ (Hstep w4)) in H.
      apply Hfinish in H; try reflexivity.
      destruct H as (-> & H1 & H2 & H3 & H4).
      exists w'. split; [reflexivity |]. split; [exact H1 |]. split; [exact H2 |].
      split; [| exact H4].
      exists existing. split; [rewrite H3; exact Hn |].
      apply Z.ltb_lt in Hbefore. unfold today in Hbefore.
      destruct (Z_lt_le_dec (localDay (tz e) (now e)) (localDay (tz e) existing))
        as [Hlt | Hge]; [exact Hlt |].
      apply DatesRestFacts.startOfDay_le_iff in Hge. lia.
    + rewrite bind_assoc, (bind_ok _ Hset), (bind_ok _ (Hstep _)) in H.
      apply Hfinish in H; try reflexivity.
      destruct H as (-> & H1 & H2 & H3 & H4).
      exists w'. split; [reflexivity |]. split; [exact H1 |]. split; [exact H2 |].
      split; [| exact H4].
      exists nextOccurrence. split; [rewrite H3; reflexivity | exact Hlater].
  - rewrite bind_assoc, (bind_ok _ Hset), (bind_ok _ (Hstep _)) in H.
    apply Hfinish in H; try reflexivity.
    destruct H as (-> & H1 & H2 & H3 & H4).
    exists w'. split; [reflexivity |]. split; [exact H1 |]. split; [exact H2 |].
    split; [| exact H4].
    exists nextOccurrence. split; [rewrite H3; reflexivity | exact Hlater].
Qed.

(** X21.  On a storage that takes every write, with a weekday from 0 to 6
    configured and identifiers yet to come that are new, the manual close of
    an open current week always goes through: it returns true, keeps the
    transactions, leaves a next close date on a day after today, and
    establishes a current week that starts today and is open. *)
Theorem closeWeek_manual_succeeds e w :
  Reliable e -> WestOfUtc e -> Unused e w ->
  0 <= dayOfWeek (valueOf getAutoCloseConfig w defaultConfig) <= 6 ->
  includes (closedWeeks w) (valueOf (getCurrentWeekId e) w ""%string) = false ->
  exists w' d,
    closeWeek e None None true w = (Ok true, w') /\
    transactions w' = transactions w /\
    nextCloseDate w' = Some d /\ localDay (tz e) (now e) < localDay (tz e) d /\
    startDateOf e w' = startOfDay (tz e) (now e) /\
    isCurrentWeekClosed e w' = (Ok false, w').
Proof.
  intros Hrel Hwest Hun Hdow Hopen.
  destruct (closeWeek_manual_run e w Hrel Hwest Hdow Hopen)
    as (w' & Hrun & Hcl & Htx & (d & Hd & Hlater) & Hnew).
  pose proof (getCurrentWeekId_total e w) as Hcur.
  set (closing := valueOf (getCurrentWeekId e) w ""%string) in *.
  set (w1 := snd (getCurrentWeekId e w)) in *.
  set (fresh1 := ("week_" ++ random e (drawn w1))%string) in *.
  pose proof (getCurrentWeekId_steady e w _ _ Hun Hcur)
    as (_ & Hc1 & _ & _ & _ & [[_ Hfresh] Hclosed]).
  assert (Hf1 : includes (closedWeeks w) fresh1 = false).
  { rewrite <- Hc1. apply Hclosed. lia. }
  assert (Hne : closing <> fresh1).
  { intros E. apply (getCurrentWeekId_mapped e w closing w1 Hrel Hcur).
    rewrite E. apply Hfresh. lia. }
  destruct (Hnew Hf1 Hne) as (Hstart & Hid).
  exists w', d. split; [exact Hrun |]. split; [exact Htx |].
  split; [exact Hd |]. split; [exact Hlater |]. split.
  - rewrite startDateOf_eq, Hstart. reflexivity.
  - unfold isCurrentWeekClosed.
    rewrite (bind_ok _ Hid), isWeekClosed_run, Hcl, includes_app, Hf1.
    apply String.eqb_neq in Hne. rewrite Hne. reflexivity.
Qed.

(** The theorem on the open week w0, closed by hand on Tuesday 4 June. *)
Lemma closeWeek_manual_succeeds_witness :
  let e := Scenario.browser (Scenario.at_ Scenario.jun04 10 0) in
  exists w',
    closeWeek e None None true Scenario.openWeek = (Ok true, w') /\
    isCurrentWeekClosed e w' = (Ok false, w') /\
    startDateOf e w' = Scenario.at_ Scenario.jun04 0 0.
Proof.
  intros e.
  destruct (closeWeek_manual_succeeds e Scenario.openWeek)
    as (w' & d & Hrun & _ & _ & _ & Hstart & Hopen).
  - intros k. reflexivity.
  - split; [discriminate | reflexivity].
  - split; [apply browser_fresh; reflexivity | intros n _; reflexivity].
  - split; discriminate.
  - reflexivity.
  - exists w'. split; [exact Hrun |]. split; [exact Hopen | exact Hstart].
Defined.


(** ** A close that fails half way *)

(** X22.  [closeWeek] does not undo what it has written when it fails: an
    automatic close of an open week with a next close date that
    [setNextCloseDate] refuses, because it falls on another weekday than the
    configured one or not after today, throws the error of
    [setNextCloseDate], and yet the week is closed from then on. *)
Theorem closeWeek_refused_date_keeps_week_closed e id date w :
  Reliable e -> Js.truthy id = true ->
  includes (closedWeeks w) id = false ->
  let config := valueOf getAutoCloseConfig w defaultConfig in
  let w' := with_closedWeeks (closedWeeks w ++ [id]) w in
  (getDay (tz e) date <> dayOfWeek config ->
   closeWeek e (Some id) (Some date) false w = (Throw ProximoFechamentoOutroDia, w')) /\
  (getDay (tz e) date = dayOfWeek config ->
   localDay (tz e) date <= localDay (tz e) (now e) ->
   closeWeek e (Some id) (Some date) false w = (Throw ProximoFechamentoNaoFutura, w')) /\
  isWeekClosed id w' = (Ok true, w').
Proof.
  intros Hrel Hid Hopen config w'.
  assert (Hrun : closeWeek e (Some id) (Some date) false w
                 = (setNextCloseDate e date ;; ret true) w').
  { unfold closeWeek. cbn [andb]. rewrite Hid.
    unfold bind at 1. unfold ret at 1.
    rewrite (bind_ok _ (isWeekClosed_run _ _)), Hopen.
    unfold closeWeekFrom.
    unfold bind at 1. unfold getClosedWeeks at 1, gets at 1. rewrite Hopen.
    rewrite (bind_ok _ (storageSet_ok e _ _ _ (Hrel _))).
    unfold bind at 1. unfold getClosedWeeks at 1, gets at 1.
    cbn [closedWeeks with_closedWeeks].
    rewrite includes_app_last. cbn [negb].
    unfold bind at 1. unfold getAutoCloseConfig at 1, gets at 1.
    reflexivity. }
  split; [| split].
  - intros Hday. rewrite Hrun.
    apply (bind_throw _ (setNextCloseDate_wrong_day e date w' Hday)).
  - intros Hday Hpast. rewrite Hrun.
    apply (bind_throw _ (setNextCloseDate_not_future e date w' Hday Hpast)).
  - rewrite isWeekClosed_run. unfold w'. cbn [closedWeeks with_closedWeeks].
    rewrite includes_app_last. reflexivity.
Qed.

(** The theorem on the open week w0 on Tuesday 4 June, with closes on
    Sundays, for a next close date on Monday 10 June. *)
Lemma closeWeek_refused_date_keeps_week_closed_witness :
  let e := Scenario.browser (Scenario.at_ Scenario.jun04 10 0) in
  closeWeek e (Some "w0"%string) (Some (Scenario.at_ 19884 12 0)) false Scenario.openWeek
  = (Throw ProximoFechamentoOutroDia, with_closedWeeks ["w0"%string] Scenario.openWeek).
Proof.
  intros e.
  apply (closeWeek_refused_date_keeps_week_closed e "w0" (Scenario.at_ 19884 12 0)
           Scenario.openWeek (fun k => eq_refl) eq_refl eq_refl).
  discriminate.
Defined.


(** ** The automatic close at the scheduled time *)

(** X23.  At the scheduled weekday, from the scheduled hour on, with the
    schedule enabled and the current week open, [checkAndAutoCloseWeek]
    closes the week and returns true: the week joins the closed weeks, the
    next close date is the same weekday of the following week at noon, and
    the current week pointer gets today as start and a new identifier.  That
    identifier is not registered in the mapping: the mapping stays as
    [getCurrentWeekId] left it, so that, the identifier being new, no start
    date is known for the week just established. *)
Theorem checkAndAutoCloseWeek_fires e w :
  Reliable e ->
  let config := valueOf getAutoCloseConfig w defaultConfig in
  let closing := valueOf (getCurrentWeekId e) w ""%string in
  let w1 := snd (getCurrentWeekId e w) in
  let fresh1 := ("week_" ++ random e (drawn w1))%string in
  enabled config = true ->
  getDay (tz e) (now e) = dayOfWeek config ->
  hour config <= getHours (tz e) (now e) ->
  includes (closedWeeks w) closing = false ->
  exists w',
    checkAndAutoCloseWeek e w = (Ok true, w') /\
    closedWeeks w' = (closedWeeks w ++ [closing])%list /\
    transactions w' = transactions w /\
    nextCloseDate w' = Some (noon (tz e) (addDays (now e) 7)) /\
    currentWeekStart w' = Some (startOfDay (tz e) (now e)) /\
    currentWeekId w' = Some fresh1 /\
    weekIdMapping w' = weekIdMapping w1 /\
    (Unused e w -> getWeekStartDateById e fresh1 w' = None).
Proof.
  intros Hrel config closing w1 fresh1 Hon Hday Hhour Hopen.
  pose proof (getCurrentWeekId_total e w) as Hcur. fold closing w1 in Hcur.
  destruct (getCurrentWeekId_keeps e w _ _ Hcur) as (Ht & Hc & Hn & Hs & Hcfg & _).
  pose proof (DatesFacts.getDay_range (tz e) (now e)) as Hrange.
  assert (Hdow : 0 <= dayOfWeek config <= 6) by lia.
  set (next := getNextDayOfWeekAfter (tz e) (now e) (dayOfWeek config)).
  assert (Hnext : next = noon (tz e) (addDays (now e) 7)).
  { unfold next, getNextDayOfWeekAfter. rewrite <- Hday, Z.sub_diag. reflexivity. }
  destruct (next_day_fits (tz e) (now e) (dayOfWeek config) Hdow) as (Hfit & Hlater).
  fold next in Hfit, Hlater.
  set (w2 := with_drawn (S (drawn w1)) w1).
  (* the week to close is read again when its identifier is empty *)
  assert (Htarget :
    match Some closing with
    | Some id => if Js.truthy id then ret id else getCurrentWeekId e
    | None => getCurrentWeekId e
    end w2 = (Ok closing, w2)).
  { destruct (Js.truthy closing); [reflexivity |].
    apply (getCurrentWeekId_grown e w1 closing w2 Hrel
             (getCurrentWeekId_again e w _ _ Hrel Hcur)); auto. }
  assert (Hclose : closeWeek e (Some closing) (Some next) false w2
                   = (Ok true, with_nextCloseDate (Some next)
                                 (with_closedWeeks (closedWeeks w ++ [closing]) w2))).
  { unfold closeWeek. cbn [andb].
    rewrite (bind_ok _ Htarget), (bind_ok _ (isWeekClosed_run _ _)).
    change (closedWeeks w2) with (closedWeeks w1). rewrite Hc, Hopen.
    unfold closeWeekFrom.
    unfold bind at 1. unfold getClosedWeeks at 1, gets at 1.
    change (closedWeeks w2) with (closedWeeks w1). rewrite Hc, Hopen.
    rewrite (bind_ok _ (storageSet_ok e _ _ _ (Hrel _))).
    unfold bind at 1. unfold getClosedWeeks at 1, gets at 1.
    cbn [closedWeeks with_closedWeeks].
    rewrite includes_app_last. cbn [negb].
    unfold bind at 1. unfold getAutoCloseConfig at 1, gets at 1.
    cbn [autoCloseConfig with_closedWeeks with_drawn w2].
    assert (Hset : setNextCloseDate e next
                     (with_closedWeeks (closedWeeks w ++ [closing]) w2)
                   = (Ok tt, with_nextCloseDate (Some next)
                               (with_closedWeeks (closedWeeks w ++ [closing]) w2))).
    { apply setNextCloseDate_accepts; [apply Hrel | | exact Hlater].
      rewrite Hfit. unfold valueOf. simpl. rewrite Hcfg. reflexivity. }
    rewrite (bind_ok _ Hset). reflexivity. }
  unfold checkAndAutoCloseWeek.
  rewrite (bind_ok _ (getAutoCloseConfig_run w)). fold config.
  rewrite Hon. cbn [negb].
  rewrite Hday, Z.eqb_refl. apply Z.leb_le in Hhour. rewrite Hhour. cbn [andb].
  rewrite (bind_ok _ Hcur), (bind_ok _ (isWeekClosed_run _ _)), Hc, Hopen. cbn [negb].
  unfold generateWeekId. rewrite bind_assoc.
  unfold bind at 1. unfold nextRandom at 1.
  unfold bind at 1. unfold ret at 1.
  fold w2 fresh1 next.
  rewrite (bind_ok _ Hclose).
  rewrite (bind_ok _ (setCurrentWeekStart_given e _ fresh1 _ Hrel (truthy_week _))).
  eexists. split; [reflexivity |].
  cbn [closedWeeks transactions nextCloseDate currentWeekStart currentWeekId weekIdMapping
       with_currentWeekId with_currentWeekStart with_nextCloseDate with_closedWeeks
       with_drawn w2].
  rewrite DatesFacts.startOfDay_idem, Hnext.
  do 6 (split; [first [reflexivity | assumption] |]).
  intros Hun.
  pose proof (getCurrentWeekId_steady e w _ _ Hun Hcur)
    as (_ & _ & _ & _ & _ & [[_ Hfresh] _]).
  unfold getWeekStartDateById.
  cbn [weekIdMapping with_currentWeekId with_currentWeekStart with_nextCloseDate
       with_closedWeeks with_drawn w2].
  unfold fresh1. rewrite Hfresh by lia. reflexivity.
Qed.

(** The theorem on the open week w0, due on Sunday 9 June at noon, at 12:30
    of that day. *)
Lemma checkAndAutoCloseWeek_fires_witness :
  let e := Scenario.browser (Scenario.at_ Scenario.jun09 12 30) in
  exists w',
    checkAndAutoCloseWeek e Scenario.openWeek = (Ok true, w') /\
    closedWeeks w' = ["w0"%string] /\
    nextCloseDate w' = Some (Scenario.at_ 19890 12 0) /\
    currentWeekStart w' = Some (Scenario.at_ Scenario.jun09 0 0) /\
    currentWeekId w' = Some "week_"%string /\
    getWeekStartDateById e "week_" w' = None.
Proof.
  intros e.
  destruct (checkAndAutoCloseWeek_fires e Scenario.openWeek)
    as (w' & Hrun & Hcl & _ & Hnext & Hstart & Hid & _ & Hdate).
  - intros k. reflexivity.
  - reflexivity.
  - reflexivity.
  - discriminate.
  - reflexivity.
  - exists w'. split; [exact Hrun |]. split; [exact Hcl |]. split; [exact Hnext |].
    split; [exact Hstart |]. split; [exact Hid |].
    apply Hdate. split; [apply browser_fresh; reflexivity | intros n _; reflexivity].
Defined.

(** X24.  [checkAndAutoCloseWeek] returns true only when the close is due:
    the schedule is enabled, today is the configured weekday, the configured
    hour is reached and the current week is open.  When the close is not due
    it returns false, and the transactions, the closed weeks, the next close
    date and the start of the current week stay as they were. *)
Theorem checkAndAutoCloseWeek_only_when_due e w r w' :
  checkAndAutoCloseWeek e w = (r, w') ->
  let config := valueOf getAutoCloseConfig w defaultConfig in
  let due :=
    enabled config = true /\
    getDay (tz e) (now e) = dayOfWeek config /\
    hour config <= getHours (tz e) (now e) /\
    includes (closedWeeks w) (valueOf (getCurrentWeekId e) w ""%string) = false in
  (r = Ok true -> due) /\
  (~ due ->
   r = Ok false /\
   transactions w' = transactions w /\ closedWeeks w' = closedWeeks w /\
   nextCloseDate w' = nextCloseDate w /\ currentWeekStart w' = currentWeekStart w).
Proof.
  intros Hrun config due.
  destruct (checkAndAutoCloseWeek_idle e w) as (Hoff & Hother & Hclosed).
  fold config in Hoff, Hother.
  assert (Hrest : ~ due ->
    r = Ok false /\
    transactions w' = transactions w /\ closedWeeks w' = closedWeeks w /\
    nextCloseDate w' = nextCloseDate w /\ currentWeekStart w' = currentWeekStart w).
  { intros Hnot.
    destruct (enabled config) eqn:Hon.
    2:{ rewrite (Hoff eq_refl) in Hrun. inversion Hrun; subst. repeat split. }
    destruct (Z.eq_dec (getDay (tz e) (now e)) (dayOfWeek config)) as [Hday | Hday].
    2:{ rewrite (Hother (or_introl Hday)) in Hrun. inversion Hrun; subst. repeat split. }
    destruct (Z_lt_le_dec (getHours (tz e) (now e)) (hour config)) as [Hhour | Hhour].
    { rewrite (Hother (or_intror Hhour)) in Hrun. inversion Hrun; subst. repeat split. }
    destruct (includes (closedWeeks w) (valueOf (getCurrentWeekId e) w ""%string))
      eqn:Hopen.
    2:{ exfalso. apply Hnot. unfold due. auto. }
    pose proof (getCurrentWeekId_total e w) as Hcur.
    destruct (getCurrentWeekId_keeps e w _ _ Hcur) as (Ht & Hc & Hn & Hs & _).
    unfold checkAndAutoCloseWeek in Hrun.
    rewrite (bind_ok _ (getAutoCloseConfig_run w)) in Hrun. fold config in Hrun.
    rewrite Hon in Hrun. cbn [negb] in Hrun.
    destruct (_ && _) in Hrun.
    - rewrite (bind_ok _ Hcur), (bind_ok _ (isWeekClosed_run _ _)), Hc, Hopen in Hrun.
      inversion Hrun; subst. repeat split; assumption.
    - inversion Hrun; subst. repeat split. }
  split; [| exact Hrest].
  intros Htrue.
  destruct (enabled config) eqn:Hon.
  2:{ exfalso. destruct Hrest as (H & _); [| congruence].
      unfold due. intros (H & _). discriminate H. }
  destruct (Z.eq_dec (getDay (tz e) (now e)) (dayOfWeek config)) as [Hday | Hday].
  2:{ exfalso. destruct Hrest as (H & _); [| congruence].
      unfold due. intros (_ & H & _). contradiction. }
  destruct (Z_lt_le_dec (getHours (tz e) (now e)) (hour config)) as [Hhour | Hhour].
  { exfalso. destruct Hrest as (H & _); [| congruence].
    unfold due. intros (_ & _ & H & _). lia. }
  destruct (includes (closedWeeks w) (valueOf (getCurrentWeekId e) w ""%string)) eqn:Hopen.
  { exfalso. destruct Hrest as (H & _); [| congruence].
    unfold due. intros (_ & _ & _ & H). discriminate H. }
  unfold due. auto.
Qed.

(** The theorem on the open week w0 on Tuesday 4 June, a day on which no
    close is scheduled. *)
Lemma checkAndAutoCloseWeek_only_when_due_witness :
  checkAndAutoCloseWeek (Scenario.browser (Scenario.at_ Scenario.jun04 10 0))
    Scenario.openWeek
  = (Ok false, Scenario.openWeek).
Proof.
  destruct (checkAndAutoCloseWeek (Scenario.browser (Scenario.at_ Scenario.jun04 10 0))
              Scenario.openWeek) as [r w'] eqn:Hrun.
  destruct (checkAndAutoCloseWeek_only_when_due _ _ _ _ Hrun) as (_ & Hrest).
  destruct Hrest as (Hr & _).
  - intros (_ & Hday & _). discriminate Hday.
  - subst r. vm_compute in Hrun. inversion Hrun; subst w'. reflexivity.
Defined.


(** ** The current week *)

(** X25.  [getCurrentWeekId] never throws and touches neither the
    transactions, nor the closed weeks, nor the schedule.  On a storage that
    takes every write, the week it returns is then the stored one and a key
    of the mapping, and asking again gives the same week and writes
    nothing. *)
Theorem getCurrentWeekId_settles e w :
  Reliable e ->
  exists id w1,
    getCurrentWeekId e w = (Ok id, w1) /\
    currentWeekId w1 = Some id /\
    objGet (weekIdMapping w1) id <> None /\
    getCurrentWeekId e w1 = (Ok id, w1) /\
    transactions w1 = transactions w /\ closedWeeks w1 = closedWeeks w /\
    nextCloseDate w1 = nextCloseDate w /\ currentWeekStart w1 = currentWeekStart w.
Proof.
  intros Hrel.
  pose proof (getCurrentWeekId_total e w) as Hcur.
  destruct (getCurrentWeekId_keeps e w _ _ Hcur) as (Ht & Hc & Hn & Hs & _).
  pose proof (getCurrentWeekId_again e w _ _ Hrel Hcur) as Hagain.
  eexists _, _. split; [exact Hcur |].
  split; [exact (proj1 (getCurrentWeekId_fixed e _ _ Hrel Hagain)) |].
  split; [exact (getCurrentWeekId_mapped e w _ _ Hrel Hcur) |].
  split; [exact Hagain |]. repeat split; assumption.
Qed.

(** The theorem on a store that is empty, on Tuesday 4 June: the week of
    Sunday 2 June is registered and becomes the current week. *)
Lemma getCurrentWeekId_settles_witness :
  let e := Scenario.browser (Scenario.at_ Scenario.jun04 10 0) in
  exists w1,
    getCurrentWeekId e emptyWorld = (Ok "week_"%string, w1) /\
    getCurrentWeekId e w1 = (Ok "week_"%string, w1) /\
    currentWeekId w1 = Some "week_"%string.
Proof.
  intros e.
  destruct (getCurrentWeekId_settles e emptyWorld (fun k => eq_refl))
    as (id & w1 & Hrun & Hid & _ & Hagain & _).
  assert (E : id = "week_"%string) by (vm_compute in Hrun; inversion Hrun; reflexivity).
  subst id. exists w1. split; [exact Hrun |]. split; [exact Hagain | exact Hid].
Defined.

(** ** Dates and closed weeks *)

(** X26.  [isDateInClosedWeek] answers whether the mapping knows a week for
    the Sunday of the date and that week is closed; it never throws and
    changes no verdict, so that a date of the same calendar week, asked
    next, gets the same answer. *)
Theorem isDateInClosedWeek_spec e date w :
  Unused e w ->
  exists w',
    isDateInClosedWeek e date w
    = (Ok (standardWeekClosed w (isoDate (getWeekStart (tz e) date))), w') /\
    Steady e w w' /\
    forall other, getWeekStart (tz e) other = getWeekStart (tz e) date ->
      fst (isDateInClosedWeek e other w') = fst (isDateInClosedWeek e date w).
Proof.
  intros Hun.
  assert (Hrun : forall d w0, Unused e w0 ->
    exists w', isDateInClosedWeek e d w0
               = (Ok (standardWeekClosed w0 (isoDate (getWeekStart (tz e) d))), w') /\
               Steady e w0 w').
  { intros d w0 Hun0. unfold isDateInClosedWeek.
    destruct (getOrCreateWeekId_closed e (getWeekStart (tz e) d) w0 Hun0)
      as (id & w' & Hrun & Hid & Hst).
    rewrite (bind_ok _ Hrun), isWeekClosed_run.
    pose proof Hst as (_ & Hc & _). rewrite Hc, Hid.
    exists w'. split; [reflexivity | exact Hst]. }
  destruct (Hrun date w Hun) as (w' & H1 & Hst).
  exists w'. split; [exact H1 |]. split; [exact Hst |].
  intros other Hsame.
  pose proof Hst as (_ & _ & _ & _ & Hverdict & Hun').
  destruct (Hrun other w' Hun') as (w'' & H2 & _).
  rewrite H1, H2, Hsame, Hverdict. reflexivity.
Qed.

(** The theorem on the closed week w0: Tuesday 4 June lies in a closed
    week, and so does Thursday 6 June. *)
Lemma isDateInClosedWeek_spec_witness :
  let e := Scenario.browser (Scenario.at_ Scenario.jun09 9 0) in
  exists w',
    isDateInClosedWeek e (Scenario.at_ Scenario.jun04 10 0) Scenario.closedWeek
      = (Ok true, w') /\
    fst (isDateInClosedWeek e (Scenario.at_ 19880 10 0) w') = Ok true.
Proof.
  intros e.
  destruct (isDateInClosedWeek_spec e (Scenario.at_ Scenario.jun04 10 0) Scenario.closedWeek)
    as (w' & Hrun & _ & Hsame).
  - split; [apply browser_fresh; reflexivity | intros n _; reflexivity].
  - exists w'. split; [exact Hrun |].
    rewrite (Hsame (Scenario.at_ 19880 10 0) eq_refl), Hrun. reflexivity.
Defined.


(** ** Weeks and their start dates *)

(** X27.  [getOrCreateWeekId] gives one week per day: asked again for a
    date of the same day it returns the same week and writes nothing.  A
    week that it had to create is registered under the day of the date, so
    that [getWeekStartDateById] reads back that day at local midnight. *)
Theorem getOrCreateWeekId_again e d w :
  Reliable e ->
  exists id w1,
    getOrCreateWeekId e d w = (Ok id, w1) /\
    (forall d', isoDate d' = isoDate d -> getOrCreateWeekId e d' w1 = (Ok id, w1)) /\
    (findWeekIdByDate (weekIdMapping w) (isoDate d) = None ->
     id = ("week_" ++ random e (drawn w))%string /\
     getWeekStartDateById e id w1 = Some (localMidnight (tz e) (isoDate d))).
Proof.
  intros Hrel.
  destruct (getOrCreateWeekId_found e d w (Hrel _)) as (id & w1 & Hrun & Hfind).
  exists id, w1. split; [exact Hrun |]. split.
  - intros d' Hsame. unfold getOrCreateWeekId, bind, getWeekIdMapping, gets.
    rewrite Hsame, Hfind. reflexivity.
  - intros Hnone. unfold getOrCreateWeekId in Hrun.
    unfold bind at 1 in Hrun. unfold getWeekIdMapping, gets in Hrun.
    rewrite Hnone in Hrun.
    unfold generateWeekId, nextRandom, setWeekIdMapping, bind, ret in Hrun.
    rewrite (storageSet_ok e _ _ _ (Hrel _)) in Hrun.
    inversion Hrun; subst id w1. split; [reflexivity |].
    unfold getWeekStartDateById. cbn [weekIdMapping with_weekIdMapping].
    rewrite objGet_objSet. reflexivity.
Qed.

(** The theorem on the open week w0, asked for the week of Monday 20 May,
    which the mapping does not know. *)
Lemma getOrCreateWeekId_again_witness :
  let e := Scenario.browser (Scenario.at_ Scenario.jun04 10 0) in
  let sunday := getWeekStart (tz e) (Scenario.at_ 19863 0 0) in
  exists w1,
    getOrCreateWeekId e sunday Scenario.openWeek = (Ok "week_"%string, w1) /\
    getOrCreateWeekId e sunday w1 = (Ok "week_"%string, w1) /\
    getWeekStartDateById e "week_" w1 = Some sunday.
Proof.
  intros e sunday.
  destruct (getOrCreateWeekId_again e sunday Scenario.openWeek (fun k => eq_refl))
    as (id & w1 & Hrun & Hagain & Hnew).
  destruct (Hnew eq_refl) as (Hid & Hdate).
  change (id = "week_"%string) in Hid. subst id.
  exists w1. split; [exact Hrun |]. split; [exact (Hagain sunday eq_refl) | exact Hdate].
Defined.

(** X28.  [setCurrentWeekStart] called with a date and no identifier stores
    the local midnight of the date as the start of the current week, and
    the week that the mapping records for that day as the current week:
    [getCurrentWeekId] then returns that week and writes nothing. *)
Theorem setCurrentWeekStart_establishes e date w :
  Reliable e ->
  exists id w',
    setCurrentWeekStart e date None w = (Ok tt, w') /\
    currentWeekStart w' = Some (startOfDay (tz e) date) /\
    startDateOf e w' = startOfDay (tz e) date /\
    currentWeekId w' = Some id /\
    findWeekIdByDate (weekIdMapping w') (isoDate (startOfDay (tz e) date)) = Some id /\
    getCurrentWeekId e w' = (Ok id, w') /\
    transactions w' = transactions w /\ closedWeeks w' = closedWeeks w /\
    nextCloseDate w' = nextCloseDate w.
Proof.
  intros Hrel. unfold setCurrentWeekStart.
  rewrite (bind_ok _ (storageSet_ok e _ _ _ (Hrel _))).
  set (w0 := with_currentWeekStart (Some (startOfDay (tz e) date)) w).
  destruct (getOrCreateWeekId_found e (startOfDay (tz e) date) w0 (Hrel _))
    as (id & w1 & Hrun & Hfind).
  destruct (getOrCreateWeekId_keeps e _ w0 _ _ Hrun) as (Ht & Hc & Hn & Hs & _).
  rewrite (bind_ok _ Hrun), (storageSet_ok e _ _ _ (Hrel _)).
  set (w' := with_currentWeekId (Some id) w1).
  assert (Hstart : startDateOf e w' = startOfDay (tz e) date).
  { rewrite startDateOf_eq. change (currentWeekStart w') with (currentWeekStart w1).
    rewrite Hs. reflexivity. }
  exists id, w'. split; [reflexivity |].
  split; [exact Hs |]. split; [exact Hstart |]. split; [reflexivity |].
  split; [exact Hfind |]. split; [| repeat split; assumption].
  rewrite getCurrentWeekId_eq.
  destruct (LedgerNotions.storedWeek e w') as [id1 |] eqn:Est.
  - apply storedWeek_stored in Est. simpl in Est. congruence.
  - rewrite Hstart.
    assert (Hrun' : getOrCreateWeekId e (startOfDay (tz e) date) w' = (Ok id, w')).
    { unfold getOrCreateWeekId, bind, getWeekIdMapping, gets.
      change (weekIdMapping w') with (weekIdMapping w1). rewrite Hfind. reflexivity. }
    rewrite (bind_ok _ Hrun'), (bind_ok _ (storageSet_ok e _ _ _ (Hrel _))).
    reflexivity.
Qed.

(** The theorem on the open week w0: the current week is moved to start on
    Wednesday 5 June. *)
Lemma setCurrentWeekStart_establishes_witness :
  let e := Scenario.browser (Scenario.at_ Scenario.jun04 10 0) in
  exists w',
    setCurrentWeekStart e (Scenario.at_ Scenario.jun05 15 0) None Scenario.openWeek
      = (Ok tt, w') /\
    startDateOf e w' = Scenario.at_ Scenario.jun05 0 0 /\
    getCurrentWeekId e w' = (Ok "week_"%string, w').
Proof.
  intros e.
  destruct (setCurrentWeekStart_establishes e (Scenario.at_ Scenario.jun05 15 0)
              Scenario.openWeek (fun k => eq_refl))
    as (id & w' & Hrun & _ & Hstart & _ & _ & Hid & _).
  assert (E : id = "week_"%string).
  { vm_compute in Hrun. inversion Hrun; subst w'.
    vm_compute in Hid. inversion Hid; reflexivity. }
  subst id. exists w'. split; [exact Hrun |]. split; [exact Hstart | exact Hid].
Defined.

(** ** The period of the current week *)

Lemma getWeekEnd_not_before tz d : d <= getWeekEnd tz d.
Proof.
  unfold getWeekEnd, endOfDay, startOfDay.
  rewrite DatesFacts.localDay_addDays, DatesRestFacts.localDay_getWeekStart.
  pose proof (DatesRestFacts.localDay_bounds tz d) as Hb.
  pose proof (DatesFacts.getDay_range tz d) as Hg.
  pose proof DatesFacts.DAY_pos. nia.
Qed.

(** X29.  The period of the current week is never empty once a next close
    date is stored, nor when no start is stored: the start that
    [getCurrentWeekStartDate] reads is not after the end that
    [getCurrentWeekEndDate] reads. *)
Theorem current_week_period_not_empty e w :
  nextCloseDate w <> None \/ currentWeekStart w = None ->
  startDateOf e w <= endDateOf e w.
Proof.
  intros H. rewrite endDateOf_eq.
  destruct (nextCloseDate w) as [nextClose |] eqn:Hn.
  - destruct (Z.ltb_spec (endOfDay (tz e) nextClose) (startDateOf e w)) as [Hlt | Hge].
    + apply getWeekEnd_not_before.
    + exact Hge.
  - destruct H as [H | H]; [congruence |].
    rewrite startDateOf_eq, H, Hn.
    pose proof (DatesRestFacts.getWeekStart_bounds (tz e) (now e)) as Hb.
    pose proof (getWeekEnd_not_before (tz e) (now e)). lia.
Qed.

(** The theorem on the open week w0. *)
Lemma current_week_period_not_empty_witness :
  let e := Scenario.browser (Scenario.at_ Scenario.jun04 10 0) in
  startDateOf e Scenario.openWeek <= endDateOf e Scenario.openWeek.
Proof.
  intros e. apply (current_week_period_not_empty e Scenario.openWeek).
  left. discriminate.
Defined.


(** ** Generated identifiers and the calendar utility *)

(** X30.  The calendar utility does not know the identifiers that
    [generateWeekId] makes: whatever the identifier generated,
    [parseInt] finds no number in it, [isDateInWeek] is false of every date,
    and [getWeekPeriod] gives the text of an invalid date. *)
Theorem generateWeekId_not_a_time_value e w id w' t :
  generateWeekId e w = (Ok id, w') ->
  DatesRest.parseInt id = None /\
  DatesRest.isDateInWeek (tz e) t id = false /\
  DatesRest.getWeekPeriod (tz e) id = "NaN/NaN/NaN - NaN/NaN/NaN"%string.
Proof.
  unfold generateWeekId, bind, nextRandom, ret. intros H.
  inversion H; subst id w'. clear H.
  split; [reflexivity |]. split; reflexivity.
Qed.

(** The theorem for the first identifier of the sample browser. *)
Lemma generateWeekId_not_a_time_value_witness :
  let e := Scenario.browser (Scenario.at_ Scenario.jun04 10 0) in
  DatesRest.isDateInWeek (tz e) (now e) "week_" = false /\
  DatesRest.getWeekPeriod (tz e) "week_" = "NaN/NaN/NaN - NaN/NaN/NaN"%string.
Proof.
  intros e.
  exact (proj2 (generateWeekId_not_a_time_value e Scenario.openWeek "week_"
                  (with_drawn 1 Scenario.openWeek) (now e) eq_refl)).
Defined.

(** ** The history of weeks *)

(** The history of the week with three expenses, asked for one entry. *)
Lemma getWeeksHistory_bounded_sorted_witness :
  let e := Scenario.browser (Scenario.at_ Scenario.jun04 10 0) in
  exists weeks w',
    getWeeksHistory e 1 Scenario.busyWeek = (Ok weeks, w') /\
    (List.length weeks <= 1)%nat /\
    Forall (fun info => 0 < wi_weekStart info) weeks.
Proof.
  intros e.
  destruct (getWeeksHistory_bounded_sorted e 1 Scenario.busyWeek)
    as (weeks & w' & Hrun & Hlen & _ & Hpos).
  - discriminate.
  - exists weeks, w'. split; [exact Hrun |]. split; [exact Hlen | exact Hpos].
Defined.


End ScheduleFacts.
